(** * vboot: the verified-boot decision engine, embedded in Rocq

    The development follows the C sources of the firmware library:

    - [firmware/2lib/2misc.c]: [vb2api_fail], [vb2_check_recovery],
      [vb2_check_dev_switch], [vb2_check_tpm_clear], [vb2_select_fw_slot];
    - [firmware/lib20/misc.c]: [vb2_load_fw_keyblock], [vb2_load_fw_preamble];
    - [firmware/lib/vboot_api_kernel.c]: [VbTryLoadKernel], [VbBootNormal],
      [vb2_commit_data].

    Unsigned C integers are integers of [Z]; where the C code can wrap
    around, the wrap is written out ([u8], [u32]).  A bit mask whose bit
    positions are declared in a header outside the sources at hand is a set
    of named flags: [w |= F] is [bit_set w F], [w &= ~F] is [bit_clear w F]
    and [w & F] is [w F]. *)

From Stdlib Require Import ZArith List Bool Lia.
Import ListNotations.
Local Open Scope Z_scope.

(** ** Machine integers *)

Definition u8 (z : Z) : Z := z mod 2 ^ 8.
Definition u32 (z : Z) : Z := z mod 2 ^ 32.

Definition is_u32 (z : Z) : Prop := 0 <= z < 2 ^ 32.

(** ** Return codes

    [vb2_error_t] is a C enumeration.  The constructors are the codes the
    embedded functions name; [VB2_ERROR_EX n] stands for any other non-zero
    code, as a host callback or a library helper may return. *)

Inductive vb2_error_t : Set :=
| VB2_SUCCESS
| VB2_ERROR_NV_WRITE
| VB2_ERROR_SECDATA_FIRMWARE_WRITE
| VB2_ERROR_SECDATA_KERNEL_WRITE
| VB2_ERROR_FW_KEYBLOCK_WORKBUF_ROOT_KEY
| VB2_ERROR_FW_KEYBLOCK_WORKBUF_HEADER
| VB2_ERROR_FW_KEYBLOCK_WORKBUF
| VB2_ERROR_FW_KEYBLOCK_VERSION_RANGE
| VB2_ERROR_FW_KEYBLOCK_VERSION_ROLLBACK
| VB2_ERROR_FW_PREAMBLE2_DATA_KEY
| VB2_ERROR_FW_PREAMBLE2_WORKBUF_HEADER
| VB2_ERROR_FW_PREAMBLE2_WORKBUF
| VB2_ERROR_FW_PREAMBLE_VERSION_RANGE
| VB2_ERROR_FW_PREAMBLE_VERSION_ROLLBACK
| VB2_ERROR_LK_NO_DISK_FOUND
| VB2_ERROR_LK_NO_KERNEL_FOUND
| VB2_ERROR_LK_INVALID_KERNEL_FOUND
| VBERROR_REBOOT_REQUIRED
| VBERROR_SHUTDOWN_REQUESTED
| VB2_ERROR_EX (n : positive).

(** The C test [if (rv)]. *)
Definition failed (rv : vb2_error_t) : bool :=
  match rv with VB2_SUCCESS => false | _ => true end.

(** ** Flag words *)

Inductive vb2_context_flag : Set :=
| VB2_CONTEXT_NVDATA_CHANGED
| VB2_CONTEXT_SECDATA_FIRMWARE_CHANGED
| VB2_CONTEXT_SECDATA_KERNEL_CHANGED
| VB2_CONTEXT_RECOVERY_MODE
| VB2_CONTEXT_DEVELOPER_MODE
| VB2_CONTEXT_FORCE_RECOVERY_MODE
| VB2_CONTEXT_DISABLE_DEVELOPER_MODE
| VB2_CONTEXT_FORCE_WIPEOUT_MODE
| VB2_CONTEXT_FW_SLOT_B
| VB2_CONTEXT_NOFAIL_BOOT
| VB2_CONTEXT_NO_SECDATA_FWMP.

Inductive vb2_sd_flag : Set :=
| VB2_SD_FLAG_MANUAL_RECOVERY
| VB2_SD_FLAG_DEV_MODE_ENABLED
| VB2_SD_FLAG_KERNEL_SIGNED
| VB2_SD_FLAG_DISPLAY_AVAILABLE.

Inductive vb2_sd_status : Set :=
| VB2_SD_STATUS_NV_INIT
| VB2_SD_STATUS_SECDATA_FIRMWARE_INIT
| VB2_SD_STATUS_SECDATA_KERNEL_INIT
| VB2_SD_STATUS_CHOSE_SLOT.

Inductive vb2_gbb_flag : Set :=
| VB2_GBB_FLAG_FORCE_DEV_SWITCH_ON
| VB2_GBB_FLAG_DISABLE_FW_ROLLBACK_CHECK
| VB2_GBB_FLAG_FORCE_MANUAL_RECOVERY
| VB2_GBB_FLAG_DISABLE_FWMP.

Inductive vb2_secdata_firmware_flag : Set :=
| VB2_SECDATA_FIRMWARE_FLAG_LAST_BOOT_DEVELOPER
| VB2_SECDATA_FIRMWARE_FLAG_DEV_MODE.

Scheme Equality for vb2_context_flag.
Scheme Equality for vb2_sd_flag.
Scheme Equality for vb2_sd_status.
Scheme Equality for vb2_secdata_firmware_flag.

Section FlagWords.
Context {F : Type} (eqb : F -> F -> bool).

Definition bit_set (w : F -> bool) (f : F) : F -> bool :=
  fun g => if eqb f g then true else w g.

Definition bit_clear (w : F -> bool) (f : F) : F -> bool :=
  fun g => if eqb f g then false else w g.

End FlagWords.

Definition no_bits {F : Type} : F -> bool := fun _ => false.

(** ** Non-volatile storage *)

Inductive vb2_nv_param : Set :=
| VB2_NV_RECOVERY_REQUEST
| VB2_NV_RECOVERY_SUBCODE
| VB2_NV_TRY_COUNT
| VB2_NV_TRY_NEXT
| VB2_NV_FW_TRIED
| VB2_NV_FW_RESULT
| VB2_NV_FW_PREV_TRIED
| VB2_NV_FW_PREV_RESULT
| VB2_NV_DEV_BOOT_USB
| VB2_NV_DEV_BOOT_LEGACY
| VB2_NV_DEV_BOOT_SIGNED_ONLY
| VB2_NV_DEV_DEFAULT_BOOT
| VB2_NV_DIAG_REQUEST
| VB2_NV_DISPLAY_REQUEST
| VB2_NV_DISABLE_DEV_REQUEST
| VB2_NV_CLEAR_TPM_OWNER_REQUEST
| VB2_NV_CLEAR_TPM_OWNER_DONE
| VB2_NV_BATTERY_CUTOFF_REQUEST
| VB2_NV_KERNEL_MAX_ROLLFORWARD
| VB2_NV_TRY_RO_SYNC
| VB2_NV_REQ_WIPEOUT.

Scheme Equality for vb2_nv_param.

(** The NV record: the named fields, and whether the stored header and
    CRC byte agree with them (what the consistency check of [vb2_nv_init]
    finds). *)
Record vb2_nvdata : Type := {
  nv_field : vb2_nv_param -> Z;
  nv_crc_ok : bool
}.

(** ** Secure storage *)

Record vb2_secdata_firmware : Type := {
  secdata_firmware_flags : vb2_secdata_firmware_flag -> bool;
  fw_versions : Z
}.

Record vb2_secdata_kernel : Type := {
  kernel_versions : Z
}.

(** ** GBB header, as far as the engine reads it *)

Record vb2_gbb_header : Type := {
  gbb_flags : vb2_gbb_flag -> bool;
  rootkey_offset : Z;
  rootkey_size : Z
}.

(** ** Shared data *)

(** The vboot1 shared-data header [sd->vbsd] points to. *)
Record VbSharedDataHeader : Type := {
  kernel_version_tpm : Z;
  kernel_version_tpm_start : Z
}.

Record vb2_shared_data : Type := {
  sd_flags : vb2_sd_flag -> bool;
  sd_status : vb2_sd_status -> bool;
  workbuf_size : Z;
  workbuf_used : Z;
  recovery_reason : Z;
  last_fw_slot : Z;
  last_fw_result : Z;
  fw_slot : Z;
  fw_version : Z;
  fw_version_secdata : Z;
  vblock_preamble_offset : Z;
  data_key_offset : Z;
  data_key_size : Z;
  preamble_offset : Z;
  preamble_size : Z;
  vbsd : VbSharedDataHeader
}.

(** ** The context

    [struct vb2_context] with what hangs off it: the NV and secure-storage
    buffers, the work buffer with the shared data at its base, the GBB
    header [vb2_get_gbb] returns, and the bytes stored in the work buffer
    ([workbuf c off] is the byte string that starts at offset [off]). *)
Record vb2_context : Type := {
  ctx_flags : vb2_context_flag -> bool;
  nvdata : vb2_nvdata;
  secdata_firmware : vb2_secdata_firmware;
  secdata_kernel : vb2_secdata_kernel;
  sd : vb2_shared_data;
  gbb : vb2_gbb_header;
  workbuf : Z -> list Z
}.

(** *** Field updates *)

Definition with_ctx_flags (f : vb2_context_flag -> bool) (c : vb2_context) :=
  {| ctx_flags := f; nvdata := nvdata c;
     secdata_firmware := secdata_firmware c;
     secdata_kernel := secdata_kernel c; sd := sd c; gbb := gbb c;
     workbuf := workbuf c |}.

Definition with_nvdata (n : vb2_nvdata) (c : vb2_context) :=
  {| ctx_flags := ctx_flags c; nvdata := n;
     secdata_firmware := secdata_firmware c;
     secdata_kernel := secdata_kernel c; sd := sd c; gbb := gbb c;
     workbuf := workbuf c |}.

Definition with_secdata_firmware (s : vb2_secdata_firmware) (c : vb2_context) :=
  {| ctx_flags := ctx_flags c; nvdata := nvdata c;
     secdata_firmware := s;
     secdata_kernel := secdata_kernel c; sd := sd c; gbb := gbb c;
     workbuf := workbuf c |}.

Definition with_secdata_kernel (s : vb2_secdata_kernel) (c : vb2_context) :=
  {| ctx_flags := ctx_flags c; nvdata := nvdata c;
     secdata_firmware := secdata_firmware c;
     secdata_kernel := s; sd := sd c; gbb := gbb c;
     workbuf := workbuf c |}.

Definition with_sd (s : vb2_shared_data) (c : vb2_context) :=
  {| ctx_flags := ctx_flags c; nvdata := nvdata c;
     secdata_firmware := secdata_firmware c;
     secdata_kernel := secdata_kernel c; sd := s; gbb := gbb c;
     workbuf := workbuf c |}.

Definition with_workbuf (w : Z -> list Z) (c : vb2_context) :=
  {| ctx_flags := ctx_flags c; nvdata := nvdata c;
     secdata_firmware := secdata_firmware c;
     secdata_kernel := secdata_kernel c; sd := sd c; gbb := gbb c;
     workbuf := w |}.

(** One updater for the shared data: each argument maps the old record to
    the new value of one field. *)
Definition sd_update
    (s : vb2_shared_data)
    (flags' : vb2_sd_flag -> bool) (status' : vb2_sd_status -> bool)
    (used' reason' last_slot' last_result' slot' version' version_secdata'
     vblock_off' key_off' key_size' pre_off' pre_size' : Z)
    (vbsd' : VbSharedDataHeader) : vb2_shared_data :=
  {| sd_flags := flags'; sd_status := status';
     workbuf_size := workbuf_size s; workbuf_used := used';
     recovery_reason := reason';
     last_fw_slot := last_slot'; last_fw_result := last_result';
     fw_slot := slot';
     fw_version := version'; fw_version_secdata := version_secdata';
     vblock_preamble_offset := vblock_off';
     data_key_offset := key_off'; data_key_size := key_size';
     preamble_offset := pre_off'; preamble_size := pre_size';
     vbsd := vbsd' |}.

Definition sd_with_flags v s :=
  sd_update s v (sd_status s) (workbuf_used s) (recovery_reason s)
    (last_fw_slot s) (last_fw_result s) (fw_slot s) (fw_version s)
    (fw_version_secdata s) (vblock_preamble_offset s) (data_key_offset s)
    (data_key_size s) (preamble_offset s) (preamble_size s) (vbsd s).
Definition sd_with_status v s :=
  sd_update s (sd_flags s) v (workbuf_used s) (recovery_reason s)
    (last_fw_slot s) (last_fw_result s) (fw_slot s) (fw_version s)
    (fw_version_secdata s) (vblock_preamble_offset s) (data_key_offset s)
    (data_key_size s) (preamble_offset s) (preamble_size s) (vbsd s).
Definition sd_with_workbuf_used v s :=
  sd_update s (sd_flags s) (sd_status s) v (recovery_reason s)
    (last_fw_slot s) (last_fw_result s) (fw_slot s) (fw_version s)
    (fw_version_secdata s) (vblock_preamble_offset s) (data_key_offset s)
    (data_key_size s) (preamble_offset s) (preamble_size s) (vbsd s).
Definition sd_with_recovery_reason v s :=
  sd_update s (sd_flags s) (sd_status s) (workbuf_used s) v
    (last_fw_slot s) (last_fw_result s) (fw_slot s) (fw_version s)
    (fw_version_secdata s) (vblock_preamble_offset s) (data_key_offset s)
    (data_key_size s) (preamble_offset s) (preamble_size s) (vbsd s).
Definition sd_with_last_fw_slot v s :=
  sd_update s (sd_flags s) (sd_status s) (workbuf_used s) (recovery_reason s)
    v (last_fw_result s) (fw_slot s) (fw_version s)
    (fw_version_secdata s) (vblock_preamble_offset s) (data_key_offset s)
    (data_key_size s) (preamble_offset s) (preamble_size s) (vbsd s).
Definition sd_with_last_fw_result v s :=
  sd_update s (sd_flags s) (sd_status s) (workbuf_used s) (recovery_reason s)
    (last_fw_slot s) v (fw_slot s) (fw_version s)
    (fw_version_secdata s) (vblock_preamble_offset s) (data_key_offset s)
    (data_key_size s) (preamble_offset s) (preamble_size s) (vbsd s).
Definition sd_with_fw_slot v s :=
  sd_update s (sd_flags s) (sd_status s) (workbuf_used s) (recovery_reason s)
    (last_fw_slot s) (last_fw_result s) v (fw_version s)
    (fw_version_secdata s) (vblock_preamble_offset s) (data_key_offset s)
    (data_key_size s) (preamble_offset s) (preamble_size s) (vbsd s).
Definition sd_with_fw_version v s :=
  sd_update s (sd_flags s) (sd_status s) (workbuf_used s) (recovery_reason s)
    (last_fw_slot s) (last_fw_result s) (fw_slot s) v
    (fw_version_secdata s) (vblock_preamble_offset s) (data_key_offset s)
    (data_key_size s) (preamble_offset s) (preamble_size s) (vbsd s).
Definition sd_with_fw_version_secdata v s :=
  sd_update s (sd_flags s) (sd_status s) (workbuf_used s) (recovery_reason s)
    (last_fw_slot s) (last_fw_result s) (fw_slot s) (fw_version s)
    v (vblock_preamble_offset s) (data_key_offset s)
    (data_key_size s) (preamble_offset s) (preamble_size s) (vbsd s).
Definition sd_with_vblock_preamble_offset v s :=
  sd_update s (sd_flags s) (sd_status s) (workbuf_used s) (recovery_reason s)
    (last_fw_slot s) (last_fw_result s) (fw_slot s) (fw_version s)
    (fw_version_secdata s) v (data_key_offset s)
    (data_key_size s) (preamble_offset s) (preamble_size s) (vbsd s).
Definition sd_with_data_key v w s :=
  sd_update s (sd_flags s) (sd_status s) (workbuf_used s) (recovery_reason s)
    (last_fw_slot s) (last_fw_result s) (fw_slot s) (fw_version s)
    (fw_version_secdata s) (vblock_preamble_offset s) v
    w (preamble_offset s) (preamble_size s) (vbsd s).
Definition sd_with_preamble v w s :=
  sd_update s (sd_flags s) (sd_status s) (workbuf_used s) (recovery_reason s)
    (last_fw_slot s) (last_fw_result s) (fw_slot s) (fw_version s)
    (fw_version_secdata s) (vblock_preamble_offset s) (data_key_offset s)
    (data_key_size s) v w (vbsd s).
Definition sd_with_vbsd v s :=
  sd_update s (sd_flags s) (sd_status s) (workbuf_used s) (recovery_reason s)
    (last_fw_slot s) (last_fw_result s) (fw_slot s) (fw_version s)
    (fw_version_secdata s) (vblock_preamble_offset s) (data_key_offset s)
    (data_key_size s) (preamble_offset s) (preamble_size s) v.

(** [ctx->flags |= F], [sd->flags |= F], [sd->status |= F]. *)
Definition ctx_flag_set (f : vb2_context_flag) (c : vb2_context) :=
  with_ctx_flags (bit_set vb2_context_flag_beq (ctx_flags c) f) c.
Definition ctx_flag_clear (f : vb2_context_flag) (c : vb2_context) :=
  with_ctx_flags (bit_clear vb2_context_flag_beq (ctx_flags c) f) c.
Definition sd_flag_set (f : vb2_sd_flag) (c : vb2_context) :=
  with_sd (sd_with_flags (bit_set vb2_sd_flag_beq (sd_flags (sd c)) f) (sd c)) c.
Definition sd_status_set (f : vb2_sd_status) (c : vb2_context) :=
  with_sd (sd_with_status (bit_set vb2_sd_status_beq (sd_status (sd c)) f) (sd c)) c.
Definition on_sd (f : vb2_shared_data -> vb2_shared_data) (c : vb2_context) :=
  with_sd (f (sd c)) c.

(** ** Values declared in headers outside the sources at hand

    The numbering of [enum vb2_fw_result] and of the recovery reasons, the
    numeric value of each return code (used where the code truncates one to
    a byte), the work-buffer alignment, the structure sizes and the disk
    flag masks are parameters of the development.  Nothing is assumed
    about them. *)
Class vb2_constants : Type := {
  VB2_FW_RESULT_UNKNOWN : Z;
  VB2_FW_RESULT_TRYING : Z;
  VB2_FW_RESULT_SUCCESS : Z;
  VB2_FW_RESULT_FAILURE : Z;
  VB2_RECOVERY_RO_MANUAL : Z;
  VB2_RECOVERY_FW_KEYBLOCK : Z;
  VB2_RECOVERY_FW_KEY_ROLLBACK : Z;
  VB2_RECOVERY_FW_PREAMBLE : Z;
  VB2_RECOVERY_FW_ROLLBACK : Z;
  VB2_RECOVERY_TPM_CLEAR_OWNER : Z;
  VB2_RECOVERY_RW_TPM_W_ERROR : Z;
  VB2_RECOVERY_RW_INVALID_OS : Z;
  VB2_RECOVERY_RW_NO_KERNEL : Z;
  VB2_RECOVERY_RW_NO_DISK : Z;
  VB2_RECOVERY_LK_UNSPECIFIED : Z;
  vb2_return_code : vb2_error_t -> Z;
  VB2_WORKBUF_ALIGN : Z;
  sizeof_vb2_keyblock : Z;
  offsetof_vb2_keyblock_data_key : Z;
  sizeof_vb2_fw_preamble : Z;
  VB_DISK_FLAG_FIXED : Z;
  VB_DISK_FLAG_EXTERNAL_GPT : Z;
  BOOT_FLAG_EXTERNAL_GPT : Z
}.

(** [VB2_RECOVERY_NOT_REQUESTED] is the zero the code tests requests
    against. *)
Definition VB2_RECOVERY_NOT_REQUESTED : Z := 0.

(** Modelled from the spec: the bound on key and preamble versions
    ("version range 0...2^16-1"); [VB2_MAX_KEY_VERSION] and
    [VB2_MAX_PREAMBLE_VERSION] are declared in a header that is not among
    the sources. *)
Definition VB2_MAX_KEY_VERSION : Z := 2 ^ 16 - 1.
Definition VB2_MAX_PREAMBLE_VERSION : Z := 2 ^ 16 - 1.

Section Engine.
Context {K : vb2_constants}.

(** ** NV storage operations *)

(** Modelled from the spec: [vb2_nv_get] of 2nvstorage.c, which is not
    among the sources.  It reads a named field. *)
Definition vb2_nv_get (c : vb2_context) (p : vb2_nv_param) : Z :=
  nv_field (nvdata c) p.

(** Modelled from the spec: [vb2_nv_set] of 2nvstorage.c, which is not
    among the sources.  "Writes only when the value differs, and then sets
    changed." *)
Definition vb2_nv_set (c : vb2_context) (p : vb2_nv_param) (v : Z) : vb2_context :=
  if vb2_nv_get c p =? v then c
  else
    ctx_flag_set VB2_CONTEXT_NVDATA_CHANGED
      (with_nvdata
         {| nv_field := fun q => if vb2_nv_param_beq p q then v else nv_field (nvdata c) q;
            nv_crc_ok := nv_crc_ok (nvdata c) |} c).

(** Modelled from the spec: the defaults [vb2_nv_init] resets to.  The
    record is cleared; the spec names one non-zero default, that of
    [kernel_max_rollforward]. *)
Definition vb2_nv_defaults : vb2_nvdata :=
  {| nv_field := fun q =>
       match q with
       | VB2_NV_KERNEL_MAX_ROLLFORWARD => 2 ^ 32 - 1
       | _ => 0
       end;
     nv_crc_ok := true |}.

(** Modelled from the spec: [vb2_nv_init] of 2nvstorage.c, which is not
    among the sources.  "Validate CRC and header; on mismatch, reset to
    defaults and mark changed"; the NV-init status bit records that it
    ran. *)
Definition vb2_nv_init (c : vb2_context) : vb2_context :=
  let c :=
    if nv_crc_ok (nvdata c) then c
    else ctx_flag_set VB2_CONTEXT_NVDATA_CHANGED (with_nvdata vb2_nv_defaults c) in
  sd_status_set VB2_SD_STATUS_NV_INIT c.

(** ** Secure storage operations *)

(** Modelled from the spec: [vb2_secdata_firmware_get] and
    [vb2_secdata_firmware_set] of 2secdata_firmware.c, and
    [vb2_secdata_kernel_set] of 2secdata_kernel.c, none of which is among
    the sources: [get(field)] and [set(field, value)] on the fixed-schema
    records; a write marks the space as changed for the commit hook.  The
    spec asks that a space be initialised before it is read or written
    outside recovery mode; the operations are those of an initialised
    space. *)
Definition vb2_secdata_firmware_get_flags (c : vb2_context)
  : vb2_secdata_firmware_flag -> bool :=
  secdata_firmware_flags (secdata_firmware c).

Definition vb2_secdata_firmware_get_versions (c : vb2_context) : Z :=
  fw_versions (secdata_firmware c).

Definition vb2_secdata_firmware_set_flags (c : vb2_context)
    (v : vb2_secdata_firmware_flag -> bool) : vb2_context :=
  ctx_flag_set VB2_CONTEXT_SECDATA_FIRMWARE_CHANGED
    (with_secdata_firmware
       {| secdata_firmware_flags := v;
          fw_versions := fw_versions (secdata_firmware c) |} c).

Definition vb2_secdata_firmware_set_versions (c : vb2_context) (v : Z)
  : vb2_context :=
  ctx_flag_set VB2_CONTEXT_SECDATA_FIRMWARE_CHANGED
    (with_secdata_firmware
       {| secdata_firmware_flags := secdata_firmware_flags (secdata_firmware c);
          fw_versions := v |} c).

Definition vb2_secdata_kernel_get_versions (c : vb2_context) : Z :=
  kernel_versions (secdata_kernel c).

Definition vb2_secdata_kernel_set_versions (c : vb2_context) (v : Z)
  : vb2_context :=
  ctx_flag_set VB2_CONTEXT_SECDATA_KERNEL_CHANGED
    (with_secdata_kernel {| kernel_versions := v |} c).

(** ** 2misc.c: the failure helper *)

(** The tail of [vb2api_fail] (2misc.c, lines 117-130): request recovery
    unless a request is already pending. *)
Definition request_recovery (c : vb2_context) (reason subcode : Z) : vb2_context :=
  if vb2_nv_get c VB2_NV_RECOVERY_REQUEST =? 0 then
    let c := vb2_nv_set c VB2_NV_RECOVERY_REQUEST reason in
    vb2_nv_set c VB2_NV_RECOVERY_SUBCODE subcode
  else c.

(** The first statement of [vb2api_fail] (lines 88-90). *)
Definition ensure_nv_init (c : vb2_context) : vb2_context :=
  if sd_status (sd c) VB2_SD_STATUS_NV_INIT then c else vb2_nv_init c.

(** The test of lines 112-113: the other slot was tried on the last boot
    and failed. *)
Definition other_slot_failed (c : vb2_context) : bool :=
  (last_fw_slot (sd c) =? u32 (1 - fw_slot (sd c)))
  && (last_fw_result (sd c) =? VB2_FW_RESULT_FAILURE).

(** Lines 96-106 of [vb2api_fail], the three writes made once a slot was
    chosen, as one function (used to state what the helper does). *)
Definition mark_slot_failed (c : vb2_context) : vb2_context :=
  let c := vb2_nv_set c VB2_NV_FW_RESULT VB2_FW_RESULT_FAILURE in
  let c := vb2_nv_set c VB2_NV_TRY_COUNT 0 in
  vb2_nv_set c VB2_NV_TRY_NEXT (u32 (1 - fw_slot (sd c))).

(** [void vb2api_fail(ctx, uint8_t reason, uint8_t subcode)] (2misc.c,
    lines 84-131).  The parameters are bytes: an argument is truncated at
    the call. *)
Definition vb2api_fail (c : vb2_context) (reason subcode : Z) : vb2_context :=
  let reason := u8 reason in
  let subcode := u8 subcode in
  let c := ensure_nv_init c in
  if sd_status (sd c) VB2_SD_STATUS_CHOSE_SLOT then
    let c := vb2_nv_set c VB2_NV_FW_RESULT VB2_FW_RESULT_FAILURE in
    let c := vb2_nv_set c VB2_NV_TRY_COUNT 0 in
    let c := vb2_nv_set c VB2_NV_TRY_NEXT (u32 (1 - fw_slot (sd c))) in
    if negb (other_slot_failed c) then c
    else request_recovery c reason subcode
  else request_recovery c reason subcode.

(** ** 2misc.c: the recovery decision *)

(** [void vb2_check_recovery(ctx)] (2misc.c, lines 133-170). *)
Definition vb2_check_recovery (c : vb2_context) : vb2_context :=
  let reason := vb2_nv_get c VB2_NV_RECOVERY_REQUEST in
  let subcode := vb2_nv_get c VB2_NV_RECOVERY_SUBCODE in
  let c :=
    if recovery_reason (sd c) =? 0
    then on_sd (sd_with_recovery_reason reason) c else c in
  let c :=
    if ctx_flags c VB2_CONTEXT_FORCE_RECOVERY_MODE then
      let c :=
        if negb (subcode =? 0) && (recovery_reason (sd c) =? 0)
        then on_sd (sd_with_recovery_reason subcode) c
        else on_sd (sd_with_recovery_reason VB2_RECOVERY_RO_MANUAL) c in
      sd_flag_set VB2_SD_FLAG_MANUAL_RECOVERY c
    else c in
  if negb (recovery_reason (sd c) =? 0)
  then ctx_flag_set VB2_CONTEXT_RECOVERY_MODE c
  else c.

(** ** 2misc.c: slot selection *)

(** [vb2_error_t vb2_select_fw_slot(ctx)] (2misc.c, lines 329-382). *)
Definition vb2_select_fw_slot (c : vb2_context) : vb2_error_t * vb2_context :=
  let c := on_sd (sd_with_last_fw_slot (vb2_nv_get c VB2_NV_FW_TRIED)) c in
  let c := on_sd (sd_with_last_fw_result (vb2_nv_get c VB2_NV_FW_RESULT)) c in
  let c := vb2_nv_set c VB2_NV_FW_PREV_TRIED (last_fw_slot (sd c)) in
  let c := vb2_nv_set c VB2_NV_FW_PREV_RESULT (last_fw_result (sd c)) in
  let c := vb2_nv_set c VB2_NV_FW_RESULT VB2_FW_RESULT_UNKNOWN in
  let c := on_sd (sd_with_fw_slot (vb2_nv_get c VB2_NV_TRY_NEXT)) c in
  let tries := vb2_nv_get c VB2_NV_TRY_COUNT in
  let c :=
    if (last_fw_result (sd c) =? VB2_FW_RESULT_TRYING)
       && (last_fw_slot (sd c) =? fw_slot (sd c))
       && (tries =? 0)
    then
      let c := on_sd (sd_with_fw_slot (u32 (1 - fw_slot (sd c)))) c in
      vb2_nv_set c VB2_NV_TRY_NEXT (fw_slot (sd c))
    else c in
  let c :=
    if 0 <? tries then
      let c := vb2_nv_set c VB2_NV_FW_RESULT VB2_FW_RESULT_TRYING in
      if negb (ctx_flags c VB2_CONTEXT_NOFAIL_BOOT)
      then vb2_nv_set c VB2_NV_TRY_COUNT (tries - 1)
      else c
    else c in
  let c := vb2_nv_set c VB2_NV_FW_TRIED (fw_slot (sd c)) in
  let c :=
    if negb (fw_slot (sd c) =? 0)
    then ctx_flag_set VB2_CONTEXT_FW_SLOT_B c else c in
  let c := sd_status_set VB2_SD_STATUS_CHOSE_SLOT c in
  (VB2_SUCCESS, c).

End Engine.

(** ** The world outside the engine *)

Inductive vb2_resource_index : Set := VB2_RES_GBB | VB2_RES_FW_VBLOCK.

(** [struct vb2_packed_key], the fields the engine reads. *)
Record vb2_packed_key : Type := {
  key_offset : Z;
  key_size : Z;
  key_version : Z
}.

(** [VbDiskInfo] of vboot_api.h.  [handle] is a [VbExDiskHandle_t], a
    pointer: [None] for [NULL]. *)
Record VbDiskInfo : Type := {
  handle : option Z;
  bytes_per_lba : Z;
  lba_count : Z;
  streaming_lba_count : Z;
  disk_flags : Z
}.

(** The file-scope [LoadKernelParams lkp] of vboot_api_kernel.c, the
    fields [VbTryLoadKernel] writes.  [disk_handle] is [None] for [NULL]. *)
Record LoadKernelParams : Type := {
  disk_handle : option Z;
  lkp_bytes_per_lba : Z;
  gpt_lba_count : Z;
  lkp_streaming_lba_count : Z;
  boot_flags : Z
}.

(** The host callbacks ([vb2ex_*], [VbEx*]) and the kernel loader
    [LoadKernel], which the engine calls and does not implement.  [W] is
    the state of the world they act on: the flash, the TPM, the disks.  A
    callback sees the context it is passed; [LoadKernel] may also change
    it. *)
Class vb2ex (W : Type) : Type := {
  vb2ex_read_resource :
    vb2_context -> vb2_resource_index -> Z -> Z -> W -> vb2_error_t * list Z * W;
  vb2ex_tpm_clear_owner : vb2_context -> W -> vb2_error_t * W;
  vb2ex_commit_data : vb2_context -> W -> vb2_error_t * W;
  VbExDiskGetInfo : Z -> W -> vb2_error_t * list VbDiskInfo * W;
  VbExDiskFreeInfo : list VbDiskInfo -> option Z -> W -> vb2_error_t * W;
  LoadKernel :
    vb2_context -> LoadKernelParams -> W -> vb2_error_t * vb2_context * W
}.

(** The key and signature primitives and the layout of the signed
    structures (2common.c, 2packed_key.c, 2struct.h), which are not among
    the sources: each is a function of the bytes it is given.  An unpacked
    key is stood for by the bytes it was unpacked from. *)
Class vb2_primitives : Type := {
  vb2_unpack_key_buffer : list Z -> Z -> vb2_error_t;
  vb2_verify_keyblock : list Z -> Z -> list Z -> Z * Z -> vb2_error_t;
  vb2_verify_fw_preamble : list Z -> Z -> list Z -> Z * Z -> vb2_error_t;
  vb2_verify_packed_key_inside : list Z -> Z -> vb2_packed_key -> vb2_error_t;
  keyblock_size : list Z -> Z;
  data_key : list Z -> vb2_packed_key;
  preamble_size_of : list Z -> Z;
  firmware_version : list Z -> Z
}.

(** What the engine asks of the world, in order. *)
Inductive vb2ex_call : Type :=
| ExReadResource (index : vb2_resource_index) (offset size : Z)
| ExTpmClearOwner (c : vb2_context)
| ExCommitData (c : vb2_context)
| ExDiskGetInfo (disk_flags : Z)
| ExDiskFreeInfo (preserve_handle : option Z)
| ExLoadKernel (c : vb2_context) (p : LoadKernelParams)
| ExAbort.

Section Firmware.
Context {K : vb2_constants} {W : Type} {H : vb2ex W} {P : vb2_primitives}.

Record machine : Type := {
  m_ctx : vb2_context;
  m_lkp : LoadKernelParams;
  m_host : W;
  m_trace : list vb2ex_call
}.

Definition with_ctx (c : vb2_context) (m : machine) : machine :=
  {| m_ctx := c; m_lkp := m_lkp m; m_host := m_host m; m_trace := m_trace m |}.
Definition with_lkp (p : LoadKernelParams) (m : machine) : machine :=
  {| m_ctx := m_ctx m; m_lkp := p; m_host := m_host m; m_trace := m_trace m |}.
Definition called (e : vb2ex_call) (w : W) (m : machine) : machine :=
  {| m_ctx := m_ctx m; m_lkp := m_lkp m; m_host := w;
     m_trace := m_trace m ++ [e] |}.

(** *** The monad of a function body

    A statement goes on with a value ([Next]), leaves the function with a
    return code ([Return]), or never comes back because the engine aborted
    ([Abort]). *)
Inductive step (A : Type) : Type :=
| Next (a : A) (m : machine)
| Return (rv : vb2_error_t) (m : machine)
| Abort (m : machine).
Arguments Next {A} a m.
Arguments Return {A} rv m.
Arguments Abort {A} m.

Definition vb2 (A : Type) : Type := machine -> step A.

Definition ret {A : Type} (a : A) : vb2 A := fun m => Next a m.

Definition bind {A B : Type} (x : vb2 A) (k : A -> vb2 B) : vb2 B :=
  fun m =>
    match x m with
    | Next a m' => k a m'
    | Return rv m' => Return rv m'
    | Abort m' => Abort m'
    end.

Definition return_ {A : Type} (rv : vb2_error_t) : vb2 A := fun m => Return rv m.
Definition get_ctx : vb2 vb2_context := fun m => Next (m_ctx m) m.
Definition modify_ctx (f : vb2_context -> vb2_context) : vb2 unit :=
  fun m => Next tt (with_ctx (f (m_ctx m)) m).
Definition when (b : bool) (x : vb2 unit) : vb2 unit :=
  if b then x else ret tt.

(** What a call of a function yields. *)
Inductive outcome : Type :=
| Returned (rv : vb2_error_t) (m : machine)
| Halted (m : machine).

Definition run (body : vb2 vb2_error_t) (m : machine) : outcome :=
  match body m with
  | Next rv m' => Returned rv m'
  | Return rv m' => Returned rv m'
  | Abort m' => Halted m'
  end.

(** A call from inside another body. *)
Definition call (f : machine -> outcome) : vb2 vb2_error_t :=
  fun m =>
    match f m with
    | Returned rv m' => Next rv m'
    | Halted m' => Abort m'
    end.

Notation "x <- c ;; k" := (bind c (fun x => k))
  (at level 61, c at next level, right associativity).
Notation "c ;; k" := (bind c (fun _ => k))
  (at level 61, right associativity).

(** *** Calls out of the engine *)

Definition read_resource (index : vb2_resource_index) (offset size : Z)
  : vb2 (vb2_error_t * list Z) :=
  fun m =>
    let '(rv, bytes, w) := vb2ex_read_resource (m_ctx m) index offset size (m_host m) in
    Next (rv, bytes) (called (ExReadResource index offset size) w m).

Definition tpm_clear_owner : vb2 vb2_error_t :=
  fun m =>
    let '(rv, w) := vb2ex_tpm_clear_owner (m_ctx m) (m_host m) in
    Next rv (called (ExTpmClearOwner (m_ctx m)) w m).

(** Modelled from the spec: the effect of the commit hook on the context,
    "clears the changed bits on success"; what is written, and whether it
    succeeds, is the host's. *)
Definition commit_data : vb2 vb2_error_t :=
  fun m =>
    let '(rv, w) := vb2ex_commit_data (m_ctx m) (m_host m) in
    let c := m_ctx m in
    let c' :=
      if failed rv then c
      else ctx_flag_clear VB2_CONTEXT_NVDATA_CHANGED
             (ctx_flag_clear VB2_CONTEXT_SECDATA_FIRMWARE_CHANGED
                (ctx_flag_clear VB2_CONTEXT_SECDATA_KERNEL_CHANGED c)) in
    Next rv (with_ctx c' (called (ExCommitData c) w m)).

Definition disk_get_info (get_info_flags : Z)
  : vb2 (vb2_error_t * list VbDiskInfo) :=
  fun m =>
    let '(rv, disks, w) := VbExDiskGetInfo get_info_flags (m_host m) in
    Next (rv, disks) (called (ExDiskGetInfo get_info_flags) w m).

(** [VbExDiskFreeInfo(infos, preserve_handle)]; the engine ignores what it
    returns. *)
Definition disk_free_info (infos : list VbDiskInfo) (preserve : option Z)
  : vb2 unit :=
  fun m =>
    let '(_, w) := VbExDiskFreeInfo infos preserve (m_host m) in
    Next tt (called (ExDiskFreeInfo preserve) w m).

Definition load_kernel : vb2 vb2_error_t :=
  fun m =>
    let '(rv, c, w) := LoadKernel (m_ctx m) (m_lkp m) (m_host m) in
    Next rv (with_ctx c (called (ExLoadKernel (m_ctx m) (m_lkp m)) w m)).

(** Modelled from the spec: the macro [VB2_REC_OR_DIE] of 2common.h, which
    is not among the sources.  "Fatal ... when not already in recovery:
    the contract is to halt"; the comment at its use in [vb2_commit_data]
    reads "just die (unless already in recovery)". *)
Definition VB2_REC_OR_DIE : vb2 unit :=
  fun m =>
    if ctx_flags (m_ctx m) VB2_CONTEXT_RECOVERY_MODE then Next tt m
    else Abort (called ExAbort (m_host m) m).

(** ** The work buffer *)

Record vb2_workbuf : Type := {
  wb_buf : Z;
  wb_size : Z
}.

(** Modelled from the spec: the arena of 2common.c, which is not among the
    sources.  "All sizes are rounded up to the alignment"; "alloc fails
    with out-of-space when the rounded size exceeds remaining";
    realloc-last gives the last allocation back and allocates again at the
    same place.  A pointer is the offset from the base of the work buffer;
    [None] is [NULL]. *)
Definition vb2_wb_round_up (v : Z) : Z :=
  (v + VB2_WORKBUF_ALIGN - 1) / VB2_WORKBUF_ALIGN * VB2_WORKBUF_ALIGN.

Definition vb2_workbuf_from_ctx (c : vb2_context) : vb2_workbuf :=
  {| wb_buf := workbuf_used (sd c);
     wb_size := workbuf_size (sd c) - workbuf_used (sd c) |}.

Definition vb2_workbuf_alloc (wb : vb2_workbuf) (size : Z)
  : option Z * vb2_workbuf :=
  let size := vb2_wb_round_up size in
  if wb_size wb <? size then (None, wb)
  else (Some (wb_buf wb),
        {| wb_buf := wb_buf wb + size; wb_size := wb_size wb - size |}).

Definition vb2_workbuf_free (wb : vb2_workbuf) (size : Z) : vb2_workbuf :=
  let size := vb2_wb_round_up size in
  {| wb_buf := wb_buf wb - size; wb_size := wb_size wb + size |}.

Definition vb2_workbuf_realloc (wb : vb2_workbuf) (oldsize newsize : Z)
  : option Z * vb2_workbuf :=
  vb2_workbuf_alloc (vb2_workbuf_free wb oldsize) newsize.

Definition vb2_set_workbuf_used (used : Z) (c : vb2_context) : vb2_context :=
  on_sd (sd_with_workbuf_used (vb2_wb_round_up used)) c.

(** [memmove] into the work buffer: the bytes now found at [off]. *)
Definition workbuf_store (off : Z) (bytes : list Z) (c : vb2_context)
  : vb2_context :=
  with_workbuf (fun o => if o =? off then bytes else workbuf c o) c.

Definition sub_bytes (off len : Z) (bytes : list Z) : list Z :=
  firstn (Z.to_nat len) (skipn (Z.to_nat off) bytes).

(** [p = vb2_workbuf_alloc(...); if (!p) return rv;] *)
Definition alloc_or_return (r : option Z * vb2_workbuf) (rv : vb2_error_t)
  : vb2 (Z * vb2_workbuf) :=
  match r with
  | (Some p, wb) => ret (p, wb)
  | (None, _) => return_ rv
  end.

(** [if (rv) return rv;] *)
Definition check (rv : vb2_error_t) : vb2 unit :=
  if failed rv then return_ rv else ret tt.

(** [rv = vb2ex_read_resource(...); if (rv) return rv;] *)
Definition read_or_return (index : vb2_resource_index) (offset size : Z)
  : vb2 (list Z) :=
  r <- read_resource index offset size ;;
  check (fst r) ;;
  ret (snd r).

(** ** lib20/misc.c: the firmware keyblock *)

(** [vb2_load_fw_keyblock], lines 83-134: read the root key and the
    keyblock into the work buffer and verify the keyblock.  What is read
    goes to the part of the work buffer past [workbuf_used], which is
    scratch: the context keeps no record of it.  [vb2_report_dev_firmware]
    (lines 35-66) "has no effect on boot; just logs this to the debug
    console".  The result is the offset of the root key buffer, the
    keyblock and its size. *)
Definition load_fw_keyblock_verify : vb2 (Z * list Z * Z) :=
  c <- get_ctx ;;
  let wb := vb2_workbuf_from_ctx c in
  let key_size := rootkey_size (gbb c) in
  a <- alloc_or_return (vb2_workbuf_alloc wb key_size)
         VB2_ERROR_FW_KEYBLOCK_WORKBUF_ROOT_KEY ;;
  let '(key_data, wb) := a in
  root_key <- read_or_return VB2_RES_GBB (rootkey_offset (gbb c)) key_size ;;
  check (vb2_unpack_key_buffer root_key key_size) ;;
  a <- alloc_or_return (vb2_workbuf_alloc wb sizeof_vb2_keyblock)
         VB2_ERROR_FW_KEYBLOCK_WORKBUF_HEADER ;;
  let '(_, wb) := a in
  kb <- read_or_return VB2_RES_FW_VBLOCK 0 sizeof_vb2_keyblock ;;
  let block_size := keyblock_size kb in
  a <- alloc_or_return (vb2_workbuf_realloc wb sizeof_vb2_keyblock block_size)
         VB2_ERROR_FW_KEYBLOCK_WORKBUF ;;
  let '(_, wb) := a in
  kb <- read_or_return VB2_RES_FW_VBLOCK 0 block_size ;;
  let rv := vb2_verify_keyblock kb block_size root_key (wb_buf wb, wb_size wb) in
  (if failed rv then
     modify_ctx (fun c => vb2api_fail c VB2_RECOVERY_FW_KEYBLOCK (vb2_return_code rv)) ;;
     return_ rv
   else ret tt) ;;
  ret (key_data, kb, block_size).

(** The version checks of lines 136-144: the return code they leave in
    [rv]. *)
Definition fw_keyblock_version_check (c : vb2_context) (kb : list Z)
  : vb2_error_t :=
  let rv :=
    if VB2_MAX_KEY_VERSION <? key_version (data_key kb)
    then VB2_ERROR_FW_KEYBLOCK_VERSION_RANGE else VB2_SUCCESS in
  if negb (failed rv)
     && (key_version (data_key kb) <? Z.shiftr (fw_version_secdata (sd c)) 16)
  then
    if gbb_flags (gbb c) VB2_GBB_FLAG_DISABLE_FW_ROLLBACK_CHECK then rv
    else VB2_ERROR_FW_KEYBLOCK_VERSION_ROLLBACK
  else rv.

(** [vb2_load_fw_keyblock], lines 136-189. *)
Definition load_fw_keyblock_accept (key_data : Z) (kb : list Z) (block_size : Z)
  : vb2 vb2_error_t :=
  c <- get_ctx ;;
  let rv := fw_keyblock_version_check c kb in
  (if failed rv then
     modify_ctx (fun c => vb2api_fail c VB2_RECOVERY_FW_KEY_ROLLBACK (vb2_return_code rv)) ;;
     return_ rv
   else ret tt) ;;
  modify_ctx (on_sd (sd_with_fw_version (u32 (Z.shiftl (key_version (data_key kb)) 16)))) ;;
  modify_ctx (on_sd (sd_with_vblock_preamble_offset (keyblock_size kb))) ;;
  check (vb2_verify_packed_key_inside kb block_size (data_key kb)) ;;
  let size := u32 (key_offset (data_key kb) + key_size (data_key kb)) in
  modify_ctx (on_sd (sd_with_data_key key_data size)) ;;
  modify_ctx (workbuf_store key_data
                (sub_bytes offsetof_vb2_keyblock_data_key size kb)) ;;
  modify_ctx (vb2_set_workbuf_used (key_data + size)) ;;
  ret VB2_SUCCESS.

(** [vb2_error_t vb2_load_fw_keyblock(ctx)] (lib20/misc.c, lines 68-190). *)
Definition vb2_load_fw_keyblock : machine -> outcome :=
  run (v <- load_fw_keyblock_verify ;;
       let '(key_data, kb, block_size) := v in
       load_fw_keyblock_accept key_data kb block_size).

(** ** lib20/misc.c: the firmware preamble *)

(** [vb2_load_fw_preamble], lines 198-249: unpack the data key, read the
    preamble and verify it.  The result is the offset of the preamble in
    the work buffer, the preamble and its size. *)
Definition load_fw_preamble_verify : vb2 (Z * list Z * Z) :=
  c <- get_ctx ;;
  let key_data :=
    sub_bytes 0 (data_key_size (sd c)) (workbuf c (data_key_offset (sd c))) in
  let key_size := data_key_size (sd c) in
  let wb := vb2_workbuf_from_ctx c in
  (if data_key_size (sd c) =? 0
   then return_ VB2_ERROR_FW_PREAMBLE2_DATA_KEY else ret tt) ;;
  check (vb2_unpack_key_buffer key_data key_size) ;;
  a <- alloc_or_return (vb2_workbuf_alloc wb sizeof_vb2_fw_preamble)
         VB2_ERROR_FW_PREAMBLE2_WORKBUF_HEADER ;;
  let '(_, wb) := a in
  pre <- read_or_return VB2_RES_FW_VBLOCK (vblock_preamble_offset (sd c))
           sizeof_vb2_fw_preamble ;;
  let pre_size := preamble_size_of pre in
  a <- alloc_or_return (vb2_workbuf_realloc wb sizeof_vb2_fw_preamble pre_size)
         VB2_ERROR_FW_PREAMBLE2_WORKBUF ;;
  let '(pre_off, wb) := a in
  pre <- read_or_return VB2_RES_FW_VBLOCK (vblock_preamble_offset (sd c))
           pre_size ;;
  let rv := vb2_verify_fw_preamble pre pre_size key_data (wb_buf wb, wb_size wb) in
  (if failed rv then
     modify_ctx (fun c => vb2api_fail c VB2_RECOVERY_FW_PREAMBLE (vb2_return_code rv)) ;;
     return_ rv
   else ret tt) ;;
  ret (pre_off, pre, pre_size).

(** The test of lines 281-283, on the composite version [v]. *)
Definition fw_roll_forward (c : vb2_context) (v : Z) : bool :=
  (fw_version_secdata (sd c) <? v)
  && (last_fw_slot (sd c) =? fw_slot (sd c))
  && (last_fw_result (sd c) =? VB2_FW_RESULT_SUCCESS).

(** [vb2_load_fw_preamble], lines 251-307. *)
Definition load_fw_preamble_accept (pre_off : Z) (pre : list Z) (pre_size : Z)
  : vb2 vb2_error_t :=
  let rv :=
    if VB2_MAX_PREAMBLE_VERSION <? firmware_version pre
    then VB2_ERROR_FW_PREAMBLE_VERSION_RANGE else VB2_SUCCESS in
  modify_ctx (fun c =>
    on_sd (sd_with_fw_version (Z.lor (fw_version (sd c)) (firmware_version pre))) c) ;;
  c <- get_ctx ;;
  let rv :=
    if negb (failed rv) && (fw_version (sd c) <? fw_version_secdata (sd c)) then
      if gbb_flags (gbb c) VB2_GBB_FLAG_DISABLE_FW_ROLLBACK_CHECK then rv
      else VB2_ERROR_FW_PREAMBLE_VERSION_ROLLBACK
    else rv in
  (if failed rv then
     modify_ctx (fun c => vb2api_fail c VB2_RECOVERY_FW_ROLLBACK (vb2_return_code rv)) ;;
     return_ rv
   else ret tt) ;;
  (if fw_roll_forward c (fw_version (sd c)) then
     modify_ctx (on_sd (sd_with_fw_version_secdata (fw_version (sd c)))) ;;
     modify_ctx (fun c' => vb2_secdata_firmware_set_versions c' (fw_version (sd c)))
   else ret tt) ;;
  modify_ctx (on_sd (sd_with_preamble pre_off pre_size)) ;;
  modify_ctx (workbuf_store pre_off pre) ;;
  modify_ctx (vb2_set_workbuf_used (pre_off + pre_size)) ;;
  ret VB2_SUCCESS.

(** [vb2_error_t vb2_load_fw_preamble(ctx)] (lib20/misc.c, lines 192-308). *)
Definition vb2_load_fw_preamble : machine -> outcome :=
  run (v <- load_fw_preamble_verify ;;
       let '(pre_off, pre, pre_size) := v in
       load_fw_preamble_accept pre_off pre pre_size).

(** ** 2misc.c: the developer switch *)

Definition secdata_firmware_flags_eqb
    (f g : vb2_secdata_firmware_flag -> bool) : bool :=
  Bool.eqb (f VB2_SECDATA_FIRMWARE_FLAG_LAST_BOOT_DEVELOPER)
           (g VB2_SECDATA_FIRMWARE_FLAG_LAST_BOOT_DEVELOPER)
  && Bool.eqb (f VB2_SECDATA_FIRMWARE_FLAG_DEV_MODE)
              (g VB2_SECDATA_FIRMWARE_FLAG_DEV_MODE).

(** [vb2_check_dev_switch], line 220: the disable request is honoured. *)
Definition dev_disable_requested (c : vb2_context) : bool :=
  sd_status (sd c) VB2_SD_STATUS_SECDATA_FIRMWARE_INIT
  && negb (vb2_nv_get c VB2_NV_DISABLE_DEV_REQUEST =? 0).

(** [vb2_check_dev_switch], lines 215-232: the local [flags] once the two
    ways of disabling developer mode have been applied. *)
Definition dev_switch_flags (c : vb2_context)
  : vb2_secdata_firmware_flag -> bool :=
  let flags := vb2_secdata_firmware_get_flags c in
  let flags :=
    if dev_disable_requested c
    then bit_clear vb2_secdata_firmware_flag_beq flags VB2_SECDATA_FIRMWARE_FLAG_DEV_MODE
    else flags in
  if ctx_flags c VB2_CONTEXT_DISABLE_DEVELOPER_MODE
  then bit_clear vb2_secdata_firmware_flag_beq flags VB2_SECDATA_FIRMWARE_FLAG_DEV_MODE
  else flags.

(** [vb2_check_dev_switch], lines 234-240: the local [is_dev]. *)
Definition dev_switch_is_dev (c : vb2_context) : bool :=
  dev_switch_flags c VB2_SECDATA_FIRMWARE_FLAG_DEV_MODE
  || gbb_flags (gbb c) VB2_GBB_FLAG_FORCE_DEV_SWITCH_ON.

(** [vb2_check_dev_switch], lines 253-261. *)
Definition disable_dev_boot_flags (c : vb2_context) : vb2_context :=
  let c := vb2_nv_set c VB2_NV_DEV_BOOT_USB 0 in
  let c := vb2_nv_set c VB2_NV_DEV_BOOT_LEGACY 0 in
  let c := vb2_nv_set c VB2_NV_DEV_BOOT_SIGNED_ONLY 0 in
  vb2_nv_set c VB2_NV_DEV_DEFAULT_BOOT 0.

(** [vb2_error_t vb2_check_dev_switch(ctx)] (2misc.c, lines 201-299). *)
Definition vb2_check_dev_switch : machine -> outcome :=
  run (c0 <- get_ctx ;;
       let valid_secdata := sd_status (sd c0) VB2_SD_STATUS_SECDATA_FIRMWARE_INIT in
       let old_flags := vb2_secdata_firmware_get_flags c0 in
       let flags := dev_switch_flags c0 in
       let is_dev := dev_switch_is_dev c0 in
       when (dev_disable_requested c0)
         (modify_ctx (fun c => vb2_nv_set c VB2_NV_DISABLE_DEV_REQUEST 0)) ;;
       (if is_dev then
          modify_ctx (sd_flag_set VB2_SD_FLAG_DEV_MODE_ENABLED) ;;
          modify_ctx (ctx_flag_set VB2_CONTEXT_DEVELOPER_MODE)
        else
          modify_ctx disable_dev_boot_flags) ;;
       let flags :=
         if is_dev
         then bit_set vb2_secdata_firmware_flag_beq flags
                VB2_SECDATA_FIRMWARE_FLAG_LAST_BOOT_DEVELOPER
         else bit_clear vb2_secdata_firmware_flag_beq flags
                VB2_SECDATA_FIRMWARE_FLAG_LAST_BOOT_DEVELOPER in
       when (ctx_flags c0 VB2_CONTEXT_FORCE_WIPEOUT_MODE)
         (modify_ctx (fun c => vb2_nv_set c VB2_NV_REQ_WIPEOUT 1)) ;;
       (if negb (secdata_firmware_flags_eqb flags old_flags) then
          rv <- tpm_clear_owner ;;
          (if valid_secdata && failed rv then
             modify_ctx (fun c => vb2api_fail c VB2_RECOVERY_TPM_CLEAR_OWNER
                                    (vb2_return_code rv)) ;;
             return_ rv
           else ret tt) ;;
          modify_ctx (fun c => vb2_secdata_firmware_set_flags c flags)
        else ret tt) ;;
       ret VB2_SUCCESS).

(** ** 2misc.c: the TPM owner clear request *)


(** ** vboot_api_kernel.c: committing NV and secure storage *)

(** [vb2_error_t vb2_commit_data(ctx)] (vboot_api_kernel.c, lines
    293-334).  The two secure-storage cases have the same body; [default]
    falls through to the [VB2_ERROR_NV_WRITE] case. *)
Definition vb2_commit_data : machine -> outcome :=
  run (rv <- commit_data ;;
       c <- get_ctx ;;
       match rv with
       | VB2_SUCCESS => ret VB2_SUCCESS
       | VB2_ERROR_SECDATA_FIRMWARE_WRITE
       | VB2_ERROR_SECDATA_KERNEL_WRITE =>
           if negb (ctx_flags c VB2_CONTEXT_RECOVERY_MODE) then
             modify_ctx (fun c => vb2api_fail c VB2_RECOVERY_RW_TPM_W_ERROR
                                    (vb2_return_code rv)) ;;
             _ <- commit_data ;;
             return_ rv
           else ret VB2_SUCCESS
       | _ =>
           VB2_REC_OR_DIE ;;
           ret VB2_SUCCESS
       end).

(** ** vboot_api_kernel.c: the normal boot path *)

(** The guard of the disk loop, lines 84-89. *)
Definition skip_disk (get_info_flags : Z) (d : VbDiskInfo) : bool :=
  (bytes_per_lba d <? 512)
  || negb (Z.land (bytes_per_lba d) (bytes_per_lba d - 1) =? 0)
  || (lba_count d <? 16)
  || negb (get_info_flags =? Z.land (disk_flags d) (Z.lnot VB_DISK_FLAG_EXTERNAL_GPT)).

(** Lines 97-103. *)
Definition lkp_for_disk (d : VbDiskInfo) (p : LoadKernelParams)
  : LoadKernelParams :=
  {| disk_handle := handle d;
     lkp_bytes_per_lba := bytes_per_lba d;
     gpt_lba_count := lba_count d;
     lkp_streaming_lba_count :=
       if streaming_lba_count d =? 0 then lba_count d else streaming_lba_count d;
     boot_flags :=
       Z.lor (boot_flags p)
         (if Z.land (disk_flags d) VB_DISK_FLAG_EXTERNAL_GPT =? 0
          then 0 else BOOT_FLAG_EXTERNAL_GPT) |}.

(** The loop over the disks, lines 75-117: [disk_info] is the whole array,
    [disks] what is left of it, [rv] the error kept so far.  When a kernel
    is found, [VbExDiskFreeInfo] is passed [lkp.disk_handle] (line 110). *)
Fixpoint try_disks (get_info_flags : Z) (disk_info disks : list VbDiskInfo)
    (rv : vb2_error_t) : vb2 vb2_error_t :=
  match disks with
  | [] => ret rv
  | d :: rest =>
      if skip_disk get_info_flags d
      then try_disks get_info_flags disk_info rest rv
      else
        (fun m => Next tt (with_lkp (lkp_for_disk d (m_lkp m)) m)) ;;
        new_rv <- load_kernel ;;
        if failed new_rv then
          try_disks get_info_flags disk_info rest
            match rv with
            | VB2_ERROR_LK_INVALID_KERNEL_FOUND => rv
            | _ => new_rv
            end
        else
          (fun m => disk_free_info disk_info (disk_handle (m_lkp m)) m) ;;
          return_ VB2_SUCCESS
  end.

(** [vb2_error_t VbTryLoadKernel(ctx, get_info_flags)] (lines 60-141). *)
Definition VbTryLoadKernel (get_info_flags : Z) : machine -> outcome :=
  run ((fun m =>
          Next tt (with_lkp {| disk_handle := None;
                               lkp_bytes_per_lba := lkp_bytes_per_lba (m_lkp m);
                               gpt_lba_count := gpt_lba_count (m_lkp m);
                               lkp_streaming_lba_count := lkp_streaming_lba_count (m_lkp m);
                               boot_flags := boot_flags (m_lkp m) |} m)) ;;
       r <- disk_get_info get_info_flags ;;
       let disks := if failed (fst r) then [] else snd r in
       rv <- try_disks get_info_flags disks disks VB2_ERROR_LK_NO_DISK_FOUND ;;
       when (negb (Z.land get_info_flags VB_DISK_FLAG_FIXED =? 0))
         (modify_ctx (fun c =>
            vb2api_fail c
              match rv with
              | VB2_ERROR_LK_INVALID_KERNEL_FOUND => VB2_RECOVERY_RW_INVALID_OS
              | VB2_ERROR_LK_NO_KERNEL_FOUND => VB2_RECOVERY_RW_NO_KERNEL
              | VB2_ERROR_LK_NO_DISK_FOUND => VB2_RECOVERY_RW_NO_DISK
              | _ => VB2_RECOVERY_LK_UNSPECIFIED
              end
              (vb2_return_code rv))) ;;
       disk_free_info disks None ;;
       ret rv).

(** [static int vb2_reset_nv_requests(ctx)] (lines 149-166). *)
Definition vb2_reset_nv_requests (c : vb2_context) : bool * vb2_context :=
  let '(need_reboot, c) :=
    if negb (vb2_nv_get c VB2_NV_DISPLAY_REQUEST =? 0)
    then (true, vb2_nv_set c VB2_NV_DISPLAY_REQUEST 0)
    else (false, c) in
  if negb (vb2_nv_get c VB2_NV_DIAG_REQUEST =? 0)
  then (true, vb2_nv_set c VB2_NV_DIAG_REQUEST 0)
  else (need_reboot, c).

(** Lines 206-215 of [VbBootNormal]: the value left in
    [shared->kernel_version_tpm]. *)
Definition limit_rollforward (max_rollforward : Z) (shared : VbSharedDataHeader)
  : Z :=
  let max_rollforward :=
    if max_rollforward <? kernel_version_tpm_start shared
    then kernel_version_tpm_start shared else max_rollforward in
  if max_rollforward <? kernel_version_tpm shared
  then max_rollforward else kernel_version_tpm shared.

(** [vb2_error_t VbBootNormal(ctx)] (vboot_api_kernel.c, lines 168-223). *)
Definition VbBootNormal : machine -> outcome :=
  run (c <- get_ctx ;;
       let max_rollforward := vb2_nv_get c VB2_NV_KERNEL_MAX_ROLLFORWARD in
       modify_ctx (fun c => snd (vb2_reset_nv_requests c)) ;;
       (if fst (vb2_reset_nv_requests c)
        then return_ VBERROR_REBOOT_REQUIRED else ret tt) ;;
       rv <- call (VbTryLoadKernel VB_DISK_FLAG_FIXED) ;;
       c <- get_ctx ;;
       (if vb2_nv_get c VB2_NV_FW_RESULT =? VB2_FW_RESULT_TRYING
        then return_ rv else ret tt) ;;
       let shared := vbsd (sd c) in
       let v := limit_rollforward max_rollforward shared in
       modify_ctx (on_sd (sd_with_vbsd
                            {| kernel_version_tpm := v;
                               kernel_version_tpm_start := kernel_version_tpm_start shared |})) ;;
       when (kernel_version_tpm_start shared <? v)
         (modify_ctx (fun c => vb2_secdata_kernel_set_versions c v)) ;;
       ret rv).

(** ** A frame condition for the stages that read and verify *)

(** A statement that only reads: when it goes on, the context is as it
    was; when it leaves the function, it does so with an error and with
    the firmware secure storage as it was; and it never aborts. *)
Definition reads_only {A : Type} (x : vb2 A) : Prop :=
  forall m,
    match x m with
    | Next _ m' => m_ctx m' = m_ctx m
    | Return rv m' =>
        failed rv = true
        /\ secdata_firmware (m_ctx m') = secdata_firmware (m_ctx m)
    | Abort _ => False
    end.

End Firmware.

Arguments Next {W A} a m.
Arguments Return {W A} rv m.
Arguments Abort {W A} m.

(** * 2sha_utility.c: message digests

    The utility layer over the three SHA implementations.  The build
    switches [VB2_SUPPORT_SHA1], [VB2_SUPPORT_SHA256] and
    [VB2_SUPPORT_SHA512] are at their default, 1 (2sha.h, lines 19-29). *)

(** [enum vb2_hash_algorithm]; [VB2_HASH_OTHER n] stands for any other
    value, as the byte [vb2_hash.algo] may hold. *)
Inductive vb2_hash_algorithm : Set :=
| VB2_HASH_INVALID
| VB2_HASH_SHA1
| VB2_HASH_SHA256
| VB2_HASH_SHA512
| VB2_HASH_OTHER (n : positive).

(** The numbering of [enum vb2_hash_algorithm] (2crypto.h), which is not
    among the sources: the value of an algorithm and the algorithm of a
    value, one the inverse of the other.  The named algorithms are below
    [VB2_HASH_ALG_COUNT], and 2sha.h (line 130) asserts
    [VB2_HASH_ALG_COUNT <= UINT8_MAX]: their values fit in a byte. *)
Class vb2_hash_numbering : Type := {
  vb2_hash_algorithm_value : vb2_hash_algorithm -> Z;
  vb2_hash_algorithm_of_value : Z -> vb2_hash_algorithm;
  vb2_hash_algorithm_of_value_value :
    forall a, vb2_hash_algorithm_of_value (vb2_hash_algorithm_value a) = a;
  vb2_hash_algorithm_value_byte :
    forall a,
      match a with
      | VB2_HASH_OTHER _ => True
      | _ => 0 <= vb2_hash_algorithm_value a <= 255
      end
}.

(** An algorithm stored in the [uint8_t] field [vb2_hash.algo] and read
    back: the value is truncated to a byte. *)
Definition vb2_hash_algo_byte {HN : vb2_hash_numbering}
    (alg : vb2_hash_algorithm) : vb2_hash_algorithm :=
  vb2_hash_algorithm_of_value (u8 (vb2_hash_algorithm_value alg)).

(** The return codes of the digest functions: five of the codes
    [VB2_ERROR_EX] stands for. *)
Definition VB2_ERROR_SHA_INIT_ALGORITHM : vb2_error_t := VB2_ERROR_EX 101.
Definition VB2_ERROR_SHA_EXTEND_ALGORITHM : vb2_error_t := VB2_ERROR_EX 102.
Definition VB2_ERROR_SHA_FINALIZE_ALGORITHM : vb2_error_t := VB2_ERROR_EX 103.
Definition VB2_ERROR_SHA_FINALIZE_DIGEST_SIZE : vb2_error_t := VB2_ERROR_EX 104.
Definition VB2_ERROR_SHA_MISMATCH : vb2_error_t := VB2_ERROR_EX 105.

(** 2sha.h, lines 33-69. *)
Definition VB2_SHA1_DIGEST_SIZE : Z := 20.
Definition VB2_SHA1_BLOCK_SIZE : Z := 64.
Definition VB2_SHA256_DIGEST_SIZE : Z := 32.
Definition VB2_SHA256_BLOCK_SIZE : Z := 64.
Definition VB2_SHA512_DIGEST_SIZE : Z := 64.
Definition VB2_SHA512_BLOCK_SIZE : Z := 128.
Definition VB2_MAX_DIGEST_SIZE : Z := VB2_SHA512_DIGEST_SIZE.
Definition VB2_MAX_BLOCK_SIZE : Z := VB2_SHA512_BLOCK_SIZE.

(** The table of lines 30-49, indexed by [enum vb2_crypto_algorithm]. *)
Definition crypto_to_hash : list vb2_hash_algorithm :=
  [ VB2_HASH_SHA1; VB2_HASH_SHA256; VB2_HASH_SHA512;
    VB2_HASH_SHA1; VB2_HASH_SHA256; VB2_HASH_SHA512;
    VB2_HASH_SHA1; VB2_HASH_SHA256; VB2_HASH_SHA512;
    VB2_HASH_SHA1; VB2_HASH_SHA256; VB2_HASH_SHA512;
    VB2_HASH_SHA1; VB2_HASH_SHA256; VB2_HASH_SHA512;
    VB2_HASH_SHA1; VB2_HASH_SHA256; VB2_HASH_SHA512 ].

(** [enum vb2_hash_algorithm vb2_crypto_to_hash(uint32_t algorithm)]
    (lines 51-57). *)
Definition vb2_crypto_to_hash (algorithm : Z) : vb2_hash_algorithm :=
  let algorithm := u32 algorithm in
  if algorithm <? Z.of_nat (length crypto_to_hash)
  then nth (Z.to_nat algorithm) crypto_to_hash VB2_HASH_INVALID
  else VB2_HASH_INVALID.

(** [size_t vb2_digest_size(hash_alg)] (lines 59-77). *)
Definition vb2_digest_size (hash_alg : vb2_hash_algorithm) : Z :=
  match hash_alg with
  | VB2_HASH_SHA1 => VB2_SHA1_DIGEST_SIZE
  | VB2_HASH_SHA256 => VB2_SHA256_DIGEST_SIZE
  | VB2_HASH_SHA512 => VB2_SHA512_DIGEST_SIZE
  | _ => 0
  end.

(** [size_t vb2_hash_block_size(alg)] (lines 79-97). *)
Definition vb2_hash_block_size (alg : vb2_hash_algorithm) : Z :=
  match alg with
  | VB2_HASH_SHA1 => VB2_SHA1_BLOCK_SIZE
  | VB2_HASH_SHA256 => VB2_SHA256_BLOCK_SIZE
  | VB2_HASH_SHA512 => VB2_SHA512_BLOCK_SIZE
  | _ => 0
  end.

(** The three SHA implementations (2sha1.c, 2sha256.c, 2sha512.c), which
    are not among the sources.  [St] is the state of a hash computation, the
    content of the context union: [init] starts one, [update] absorbs
    [size] bytes of [data], [finalize] pads and yields the digest, of the
    size 2sha.h declares for the algorithm. *)
Class vb2_sha (St : Type) : Type := {
  vb2_sha1_init : St;
  vb2_sha1_update : St -> list Z -> Z -> St;
  vb2_sha1_finalize : St -> St * list Z;
  vb2_sha256_init : St;
  vb2_sha256_update : St -> list Z -> Z -> St;
  vb2_sha256_finalize : St -> St * list Z;
  vb2_sha512_init : St;
  vb2_sha512_update : St -> list Z -> Z -> St;
  vb2_sha512_finalize : St -> St * list Z;
  vb2_sha1_digest_length :
    forall s, Z.of_nat (length (snd (vb2_sha1_finalize s))) = VB2_SHA1_DIGEST_SIZE;
  vb2_sha256_digest_length :
    forall s, Z.of_nat (length (snd (vb2_sha256_finalize s))) = VB2_SHA256_DIGEST_SIZE;
  vb2_sha512_digest_length :
    forall s, Z.of_nat (length (snd (vb2_sha512_finalize s))) = VB2_SHA512_DIGEST_SIZE
}.

(** [struct vb2_digest_context] (2sha.h, lines 78-97). *)
Record vb2_digest_context (St : Type) : Type := {
  dc_sha : St;
  hash_alg : vb2_hash_algorithm;
  using_hwcrypto : Z
}.
Arguments dc_sha {St} _.
Arguments hash_alg {St} _.
Arguments using_hwcrypto {St} _.

(** [struct vb2_hash] (2sha.h, lines 107-127).  [algo] is a byte, read as
    an [enum vb2_hash_algorithm]. *)
Record vb2_hash : Type := {
  reserved : list Z;
  algo : vb2_hash_algorithm;
  raw : list Z
}.

(** A digest written to the start of a buffer. *)
Definition write_digest (d buffer : list Z) : list Z :=
  d ++ skipn (length d) buffer.

Fixpoint bytes_eqb (a b : list Z) : bool :=
  match a, b with
  | [], [] => true
  | x :: a, y :: b => (x =? y) && bytes_eqb a b
  | _, _ => false
  end.

(** [memcmp(a, b, n)], as the test [if (memcmp(...))] reads it: [true]
    when the first [n] bytes differ. *)
Definition memcmp (a b : list Z) (n : Z) : bool :=
  negb (bytes_eqb (firstn (Z.to_nat n) a) (firstn (Z.to_nat n) b)).

Section Digest.
Context {St : Type} {SHA : vb2_sha St} {HN : vb2_hash_numbering}.

(** [vb2_error_t vb2_digest_init(dc, hash_alg)] (lines 119-144). *)
Definition vb2_digest_init (dc : vb2_digest_context St)
    (alg : vb2_hash_algorithm) : vb2_error_t * vb2_digest_context St :=
  let dc := {| dc_sha := dc_sha dc; hash_alg := alg; using_hwcrypto := 0 |} in
  match hash_alg dc with
  | VB2_HASH_SHA1 =>
      (VB2_SUCCESS,
       {| dc_sha := vb2_sha1_init; hash_alg := hash_alg dc;
          using_hwcrypto := using_hwcrypto dc |})
  | VB2_HASH_SHA256 =>
      (VB2_SUCCESS,
       {| dc_sha := vb2_sha256_init; hash_alg := hash_alg dc;
          using_hwcrypto := using_hwcrypto dc |})
  | VB2_HASH_SHA512 =>
      (VB2_SUCCESS,
       {| dc_sha := vb2_sha512_init; hash_alg := hash_alg dc;
          using_hwcrypto := using_hwcrypto dc |})
  | _ => (VB2_ERROR_SHA_INIT_ALGORITHM, dc)
  end.

(** [vb2_error_t vb2_digest_extend(dc, buf, size)] (lines 146-168). *)
Definition vb2_digest_extend (dc : vb2_digest_context St) (buf : list Z)
    (size : Z) : vb2_error_t * vb2_digest_context St :=
  let size := u32 size in
  match hash_alg dc with
  | VB2_HASH_SHA1 =>
      (VB2_SUCCESS,
       {| dc_sha := vb2_sha1_update (dc_sha dc) buf size;
          hash_alg := hash_alg dc; using_hwcrypto := using_hwcrypto dc |})
  | VB2_HASH_SHA256 =>
      (VB2_SUCCESS,
       {| dc_sha := vb2_sha256_update (dc_sha dc) buf size;
          hash_alg := hash_alg dc; using_hwcrypto := using_hwcrypto dc |})
  | VB2_HASH_SHA512 =>
      (VB2_SUCCESS,
       {| dc_sha := vb2_sha512_update (dc_sha dc) buf size;
          hash_alg := hash_alg dc; using_hwcrypto := using_hwcrypto dc |})
  | _ => (VB2_ERROR_SHA_EXTEND_ALGORITHM, dc)
  end.

(** [vb2_error_t vb2_digest_finalize(dc, digest, digest_size)] (lines
    170-195).  The result carries the context and the digest buffer as the
    call leaves them. *)
Definition vb2_digest_finalize (dc : vb2_digest_context St) (digest : list Z)
    (digest_size : Z) : vb2_error_t * vb2_digest_context St * list Z :=
  let digest_size := u32 digest_size in
  if digest_size <? vb2_digest_size (hash_alg dc)
  then (VB2_ERROR_SHA_FINALIZE_DIGEST_SIZE, dc, digest)
  else
    match hash_alg dc with
    | VB2_HASH_SHA1 =>
        let '(s, d) := vb2_sha1_finalize (dc_sha dc) in
        (VB2_SUCCESS,
         {| dc_sha := s; hash_alg := hash_alg dc;
            using_hwcrypto := using_hwcrypto dc |},
         write_digest d digest)
    | VB2_HASH_SHA256 =>
        let '(s, d) := vb2_sha256_finalize (dc_sha dc) in
        (VB2_SUCCESS,
         {| dc_sha := s; hash_alg := hash_alg dc;
            using_hwcrypto := using_hwcrypto dc |},
         write_digest d digest)
    | VB2_HASH_SHA512 =>
        let '(s, d) := vb2_sha512_finalize (dc_sha dc) in
        (VB2_SUCCESS,
         {| dc_sha := s; hash_alg := hash_alg dc;
            using_hwcrypto := using_hwcrypto dc |},
         write_digest d digest)
    | _ => (VB2_ERROR_SHA_FINALIZE_ALGORITHM, dc, digest)
    end.

(** [vb2_error_t vb2_digest_buffer(buf, size, hash_alg, digest,
    digest_size)] (lines 197-213).  The first argument is the local [dc],
    which C leaves indeterminate on entry; the result carries the digest
    buffer as the call leaves it. *)
Definition vb2_digest_buffer (dc : vb2_digest_context St) (buf : list Z)
    (size : Z) (alg : vb2_hash_algorithm) (digest : list Z) (digest_size : Z)
  : vb2_error_t * list Z :=
  let '(rv, dc) := vb2_digest_init dc alg in
  if failed rv then (rv, digest)
  else
    let '(rv, dc) := vb2_digest_extend dc buf size in
    if failed rv then (rv, digest)
    else
      let '(rv, _, digest) := vb2_digest_finalize dc digest digest_size in
      (rv, digest).

(** [static inline vb2_error_t vb2_hash_calculate(buf, size, algo, hash)]
    (2sha.h, lines 270-277).  [hash->algo = algo] stores a byte; the
    digest is computed for [algo] as it was passed. *)
Definition vb2_hash_calculate (dc : vb2_digest_context St) (buf : list Z)
    (size : Z) (alg : vb2_hash_algorithm) (hash : vb2_hash)
  : vb2_error_t * vb2_hash :=
  let hash := {| reserved := reserved hash; algo := vb2_hash_algo_byte alg;
                 raw := raw hash |} in
  let '(rv, digest) :=
    vb2_digest_buffer dc buf size alg (raw hash) (vb2_digest_size alg) in
  (rv, {| reserved := reserved hash; algo := algo hash; raw := digest |}).

(** [vb2_error_t vb2_hash_verify(buf, size, hash)] (lines 215-228).
    [dc] and [hash_buf] are the locals of the call chain, indeterminate on
    entry. *)
Definition vb2_hash_verify (dc : vb2_digest_context St) (hash_buf : list Z)
    (buf : list Z) (size : Z) (hash : vb2_hash) : vb2_error_t :=
  let hash_size := vb2_digest_size (algo hash) in
  let '(rv, hash_buf) :=
    vb2_digest_buffer dc buf size (algo hash) hash_buf hash_size in
  if failed rv then rv
  else if memcmp hash_buf (raw hash) hash_size
  then VB2_ERROR_SHA_MISMATCH
  else VB2_SUCCESS.

(** The digest of [size] bytes at [buf]: one [init], one [update], one
    [finalize] (used to state what the functions above compute). *)
Definition digest_of (alg : vb2_hash_algorithm) (buf : list Z) (size : Z)
  : list Z :=
  match alg with
  | VB2_HASH_SHA1 =>
      snd (vb2_sha1_finalize (vb2_sha1_update vb2_sha1_init buf (u32 size)))
  | VB2_HASH_SHA256 =>
      snd (vb2_sha256_finalize (vb2_sha256_update vb2_sha256_init buf (u32 size)))
  | VB2_HASH_SHA512 =>
      snd (vb2_sha512_finalize (vb2_sha512_update vb2_sha512_init buf (u32 size)))
  | _ => []
  end.

End Digest.

(** * The remaining functions of 2misc.c, vboot_api_kernel.c and
      lib20/api_kernel.c *)

(** The EC callbacks [vb2ex_ec_trusted] and [vb2ex_ec_battery_cutoff]
    (2api.h), on the state [W] of the world. *)
Class vb2ex_ec (W : Type) : Type := {
  vb2ex_ec_trusted : W -> Z * W;
  vb2ex_ec_battery_cutoff : W -> vb2_error_t * W
}.

(** Further fields of the signed structures and further primitives
    (2struct.h, 2common.c), which are not among the sources:
    [body_signature.data_size] of a firmware and of a kernel preamble, the
    hash algorithm of an unpacked key, the size of a digest context, and
    [vb2_verify_digest], which answers for a key, a signature and a digest
    and "destroys the signature": the second component is the preamble as
    the call leaves it. *)
Class vb2_body_primitives : Type := {
  fw_body_signature_data_size : list Z -> Z;
  kernel_body_signature_data_size : list Z -> Z;
  key_hash_alg : list Z -> Z -> vb2_hash_algorithm;
  sizeof_vb2_digest_context : Z;
  vb2_verify_digest : list Z -> list Z -> list Z -> Z * Z -> vb2_error_t * list Z
}.

(** Return codes of lib20/api_kernel.c, among those [VB2_ERROR_EX] stands
    for. *)
Definition VB2_ERROR_API_GET_KERNEL_SIZE_PREAMBLE : vb2_error_t := VB2_ERROR_EX 111.
Definition VB2_ERROR_API_VERIFY_KDATA_PREAMBLE : vb2_error_t := VB2_ERROR_EX 112.
Definition VB2_ERROR_API_VERIFY_KDATA_SIZE : vb2_error_t := VB2_ERROR_EX 113.
Definition VB2_ERROR_API_VERIFY_KDATA_WORKBUF : vb2_error_t := VB2_ERROR_EX 114.
Definition VB2_ERROR_API_VERIFY_KDATA_KEY : vb2_error_t := VB2_ERROR_EX 115.
Definition VB2_ERROR_API_CHECK_HASH_WORKBUF_DIGEST : vb2_error_t := VB2_ERROR_EX 116.

Section Further.
Context {K : vb2_constants} {W : Type} {H : vb2ex W} {E : vb2ex_ec W}
        {P : vb2_primitives} {B : vb2_body_primitives}
        {St : Type} {SHA : vb2_sha St}.

Notation "x <- c ;; k" := (bind c (fun x => k))
  (at level 61, c at next level, right associativity).
Notation "c ;; k" := (bind c (fun _ => k))
  (at level 61, right associativity).

(** ** 2misc.c *)

(** [uint32_t vb2api_get_firmware_size(ctx)] (2misc.c, lines 40-49). *)
Definition vb2api_get_firmware_size (c : vb2_context) : Z :=
  if preamble_size (sd c) =? 0 then 0
  else fw_body_signature_data_size (workbuf c (preamble_offset (sd c))).

(** [vb2_error_t vb2_enable_developer_mode(ctx)] (lines 384-397). *)
Definition vb2_enable_developer_mode (c : vb2_context)
  : vb2_error_t * vb2_context :=
  let flags := vb2_secdata_firmware_get_flags c in
  let flags :=
    bit_set vb2_secdata_firmware_flag_beq flags VB2_SECDATA_FIRMWARE_FLAG_DEV_MODE in
  (VB2_SUCCESS, vb2_secdata_firmware_set_flags c flags).

(** [int vb2_allow_recovery(ctx)] (lines 399-417). *)
Definition vb2_allow_recovery (c : vb2_context) (w : W) : Z * W :=
  if gbb_flags (gbb c) VB2_GBB_FLAG_FORCE_MANUAL_RECOVERY then (1, w)
  else
    let '(trusted, w) := vb2ex_ec_trusted w in
    if trusted =? 0 then (0, w)
    else ((if sd_flags (sd c) VB2_SD_FLAG_MANUAL_RECOVERY then 1 else 0), w).

(** [int vb2api_need_reboot_for_display(ctx)] (lines 419-427). *)
Definition vb2api_need_reboot_for_display (c : vb2_context)
  : Z * vb2_context :=
  if negb (sd_flags (sd c) VB2_SD_FLAG_DISPLAY_AVAILABLE)
  then (1, vb2_nv_set c VB2_NV_DISPLAY_REQUEST 1)
  else (0, c).

(** [vb2_select_fw_slot] in four steps (lines 335-346, 351-360, 362-369
    and 372-379); [tries] is the local read at line 349.  The steps are
    the statements of [vb2_select_fw_slot] above, cut at these lines. *)
Definition select_last_boot (c : vb2_context) : vb2_context :=
  let c := on_sd (sd_with_last_fw_slot (vb2_nv_get c VB2_NV_FW_TRIED)) c in
  let c := on_sd (sd_with_last_fw_result (vb2_nv_get c VB2_NV_FW_RESULT)) c in
  let c := vb2_nv_set c VB2_NV_FW_PREV_TRIED (last_fw_slot (sd c)) in
  let c := vb2_nv_set c VB2_NV_FW_PREV_RESULT (last_fw_result (sd c)) in
  let c := vb2_nv_set c VB2_NV_FW_RESULT VB2_FW_RESULT_UNKNOWN in
  on_sd (sd_with_fw_slot (vb2_nv_get c VB2_NV_TRY_NEXT)) c.

Definition select_fall_back (tries : Z) (c : vb2_context) : vb2_context :=
  if (last_fw_result (sd c) =? VB2_FW_RESULT_TRYING)
     && (last_fw_slot (sd c) =? fw_slot (sd c))
     && (tries =? 0)
  then
    let c := on_sd (sd_with_fw_slot (u32 (1 - fw_slot (sd c)))) c in
    vb2_nv_set c VB2_NV_TRY_NEXT (fw_slot (sd c))
  else c.

Definition select_count_try (tries : Z) (c : vb2_context) : vb2_context :=
  if 0 <? tries then
    let c := vb2_nv_set c VB2_NV_FW_RESULT VB2_FW_RESULT_TRYING in
    if negb (ctx_flags c VB2_CONTEXT_NOFAIL_BOOT)
    then vb2_nv_set c VB2_NV_TRY_COUNT (tries - 1)
    else c
  else c.

Definition select_record (c : vb2_context) : vb2_context :=
  let c := vb2_nv_set c VB2_NV_FW_TRIED (fw_slot (sd c)) in
  let c :=
    if negb (fw_slot (sd c) =? 0)
    then ctx_flag_set VB2_CONTEXT_FW_SLOT_B c else c in
  sd_status_set VB2_SD_STATUS_CHOSE_SLOT c.

(** The test of lines 351-353 and the slot lines 346-360 settle on, in
    terms of the NV fields on entry. *)
Definition select_fallback (c : vb2_context) : bool :=
  (vb2_nv_get c VB2_NV_FW_RESULT =? VB2_FW_RESULT_TRYING)
  && (vb2_nv_get c VB2_NV_FW_TRIED =? vb2_nv_get c VB2_NV_TRY_NEXT)
  && (vb2_nv_get c VB2_NV_TRY_COUNT =? 0).

Definition select_slot (c : vb2_context) : Z :=
  if select_fallback c then u32 (1 - vb2_nv_get c VB2_NV_TRY_NEXT)
  else vb2_nv_get c VB2_NV_TRY_NEXT.

(** The NV fields [vb2_select_fw_slot] leaves, in terms of those on
    entry. *)
Definition select_nv (c : vb2_context) (q : vb2_nv_param) : Z :=
  let tries := vb2_nv_get c VB2_NV_TRY_COUNT in
  match q with
  | VB2_NV_FW_PREV_TRIED => vb2_nv_get c VB2_NV_FW_TRIED
  | VB2_NV_FW_PREV_RESULT => vb2_nv_get c VB2_NV_FW_RESULT
  | VB2_NV_FW_RESULT =>
      if 0 <? tries then VB2_FW_RESULT_TRYING else VB2_FW_RESULT_UNKNOWN
  | VB2_NV_TRY_NEXT => select_slot c
  | VB2_NV_FW_TRIED => select_slot c
  | VB2_NV_TRY_COUNT =>
      if (0 <? tries) && negb (ctx_flags c VB2_CONTEXT_NOFAIL_BOOT)
      then tries - 1 else tries
  | _ => vb2_nv_get c q
  end.

(** [vb2_check_dev_switch], lines 243-251: the local [flags] at the
    comparison of line 267. *)
Definition dev_switch_new_flags (c0 : vb2_context)
  : vb2_secdata_firmware_flag -> bool :=
  if dev_switch_is_dev c0
  then bit_set vb2_secdata_firmware_flag_beq (dev_switch_flags c0)
         VB2_SECDATA_FIRMWARE_FLAG_LAST_BOOT_DEVELOPER
  else bit_clear vb2_secdata_firmware_flag_beq (dev_switch_flags c0)
         VB2_SECDATA_FIRMWARE_FLAG_LAST_BOOT_DEVELOPER.

(** [vb2_check_dev_switch], lines 220-265: the context at the comparison
    of line 267, before the TPM and the secure storage are touched. *)
Definition dev_switch_settled (c0 : vb2_context) : vb2_context :=
  let c :=
    if dev_disable_requested c0
    then vb2_nv_set c0 VB2_NV_DISABLE_DEV_REQUEST 0 else c0 in
  let c :=
    if dev_switch_is_dev c0
    then ctx_flag_set VB2_CONTEXT_DEVELOPER_MODE
           (sd_flag_set VB2_SD_FLAG_DEV_MODE_ENABLED c)
    else disable_dev_boot_flags c in
  if ctx_flags c0 VB2_CONTEXT_FORCE_WIPEOUT_MODE
  then vb2_nv_set c VB2_NV_REQ_WIPEOUT 1 else c.

(** ** vboot_api_kernel.c *)

(** The call [vb2ex_ec_battery_cutoff()]; what it returns is not read. *)
Definition ec_battery_cutoff : @vb2 W unit :=
  fun m =>
    Next tt {| m_ctx := m_ctx m; m_lkp := m_lkp m;
               m_host := snd (vb2ex_ec_battery_cutoff (m_host m));
               m_trace := m_trace m |}.

(** [static vb2_error_t handle_battery_cutoff(ctx)] (vboot_api_kernel.c,
    lines 34-58). *)
Definition handle_battery_cutoff : @machine W -> @outcome W :=
  run (c <- get_ctx ;;
       if negb (vb2_nv_get c VB2_NV_BATTERY_CUTOFF_REQUEST =? 0) then
         modify_ctx (fun c => vb2_nv_set c VB2_NV_BATTERY_CUTOFF_REQUEST 0) ;;
         rv <- call vb2_commit_data ;;
         check rv ;;
         ec_battery_cutoff ;;
         return_ VBERROR_SHUTDOWN_REQUESTED
       else ret VB2_SUCCESS).

(** ** lib20/api_kernel.c *)

(** [vb2_error_t vb2api_get_kernel_size(ctx, offset_ptr, size_ptr)]
    (lib20/api_kernel.c, lines 105-130).  An output pointer is [None] for
    [NULL], and else holds what it points to; the result carries the two
    outputs as the call leaves them. *)
Definition vb2api_get_kernel_size (c : vb2_context)
    (offset_ptr size_ptr : option Z) : vb2_error_t * option Z * option Z :=
  if preamble_size (sd c) =? 0
  then (VB2_ERROR_API_GET_KERNEL_SIZE_PREAMBLE, offset_ptr, size_ptr)
  else
    let pre := workbuf c (preamble_offset (sd c)) in
    (VB2_SUCCESS,
     match offset_ptr with
     | Some _ => Some (u32 (vblock_preamble_offset (sd c) + preamble_size (sd c)))
     | None => None
     end,
     match size_ptr with
     | Some _ => Some (kernel_body_signature_data_size pre)
     | None => None
     end).

(** [vb2_error_t vb2api_verify_kernel_data(ctx, buf, size)] (lines
    132-209).  [dc] and [digest] are what the two work buffer allocations
    hold on entry, which is indeterminate.  The allocations are scratch:
    [workbuf_used] stays.  The result carries the context, in which
    [vb2_verify_digest] has overwritten the preamble. *)
Definition vb2api_verify_kernel_data (dc : vb2_digest_context St)
    (digest : list Z) (c : vb2_context) (buf : list Z) (size : Z)
  : vb2_error_t * vb2_context :=
  let size := u32 size in
  let wb := vb2_workbuf_from_ctx c in
  if preamble_size (sd c) =? 0 then (VB2_ERROR_API_VERIFY_KDATA_PREAMBLE, c)
  else
    let pre := workbuf c (preamble_offset (sd c)) in
    if negb (size =? kernel_body_signature_data_size pre)
    then (VB2_ERROR_API_VERIFY_KDATA_SIZE, c)
    else
      match vb2_workbuf_alloc wb sizeof_vb2_digest_context with
      | (None, _) => (VB2_ERROR_API_VERIFY_KDATA_WORKBUF, c)
      | (Some _, wb) =>
          if data_key_size (sd c) =? 0 then (VB2_ERROR_API_VERIFY_KDATA_KEY, c)
          else
            let key :=
              sub_bytes 0 (data_key_size (sd c))
                (workbuf c (data_key_offset (sd c))) in
            let rv := vb2_unpack_key_buffer key (data_key_size (sd c)) in
            if failed rv then (rv, c)
            else
              let alg := key_hash_alg key (data_key_size (sd c)) in
              let '(rv, dc) := vb2_digest_init dc alg in
              if failed rv then (rv, c)
              else
                let '(rv, dc) := vb2_digest_extend dc buf size in
                if failed rv then (rv, c)
                else
                  let digest_size := vb2_digest_size alg in
                  match vb2_workbuf_alloc wb digest_size with
                  | (None, _) => (VB2_ERROR_API_CHECK_HASH_WORKBUF_DIGEST, c)
                  | (Some _, wb) =>
                      let '(rv, _, digest) :=
                        vb2_digest_finalize dc digest digest_size in
                      if failed rv then (rv, c)
                      else
                        let '(rv, pre) :=
                          vb2_verify_digest key pre
                            (sub_bytes 0 digest_size digest)
                            (wb_buf wb, wb_size wb) in
                        (rv, workbuf_store (preamble_offset (sd c)) pre c)
                  end
      end.

(** ** Predicates used to state what the functions above ensure *)


(** What a statement ensures from a machine [m]: [Q] when it goes on, [R]
    (and an error code) when it leaves the function; it does not abort. *)
Definition ensures {A : Type} (x : @vb2 W A) (m : @machine W)
    (Q : A -> @machine W -> Prop) (R : vb2_error_t -> @machine W -> Prop)
  : Prop :=
  match x m with
  | Next a m' => Q a m'
  | Return rv m' => failed rv = true /\ R rv m'
  | Abort _ => False
  end.

(** The context a successful [vb2_load_fw_keyblock] leaves (lib20/misc.c,
    lines 150-187), for the keyblock [kb] and the offset [key_data] of the
    buffer the root key was read to, which is where the data key goes. *)
Definition keyblock_accepted (c : vb2_context) (key_data : Z) (kb : list Z)
  : vb2_context :=
  let size := u32 (key_offset (data_key kb) + key_size (data_key kb)) in
  vb2_set_workbuf_used (key_data + size)
    (workbuf_store key_data (sub_bytes offsetof_vb2_keyblock_data_key size kb)
       (on_sd (sd_with_data_key key_data size)
          (on_sd (sd_with_vblock_preamble_offset (keyblock_size kb))
             (on_sd (sd_with_fw_version
                       (u32 (Z.shiftl (key_version (data_key kb)) 16))) c)))).

(** What makes [vb2_load_fw_keyblock] succeed. *)
Definition keyblock_ok (m m' : @machine W) : Prop :=
  let c := m_ctx m in
  let root_key :=
    snd (fst (vb2ex_read_resource c VB2_RES_GBB (rootkey_offset (gbb c))
                (rootkey_size (gbb c)) (m_host m))) in
  exists kb block_size wb,
    vb2_unpack_key_buffer root_key (rootkey_size (gbb c)) = VB2_SUCCESS
    /\ vb2_verify_keyblock kb block_size root_key wb = VB2_SUCCESS
    /\ fw_keyblock_version_check c kb = VB2_SUCCESS
    /\ vb2_verify_packed_key_inside kb block_size (data_key kb) = VB2_SUCCESS
    /\ m_ctx m' = keyblock_accepted c (workbuf_used (sd c)) kb.

(** The context a successful [vb2_load_fw_preamble] leaves (lib20/misc.c,
    lines 258-305), for the preamble [pre] of size [pre_size] read to the
    offset [pre_off] of the work buffer. *)
Definition preamble_accepted (c : vb2_context) (pre_off : Z) (pre : list Z)
    (pre_size : Z) : vb2_context :=
  let c1 :=
    on_sd (sd_with_fw_version
             (Z.lor (fw_version (sd c)) (firmware_version pre))) c in
  let v := fw_version (sd c1) in
  let c2 :=
    if fw_roll_forward c1 v
    then vb2_secdata_firmware_set_versions
           (on_sd (sd_with_fw_version_secdata v) c1) v
    else c1 in
  vb2_set_workbuf_used (pre_off + pre_size)
    (workbuf_store pre_off pre
       (on_sd (sd_with_preamble pre_off pre_size) c2)).

(** What makes [vb2_load_fw_preamble] succeed. *)
Definition preamble_ok (m m' : @machine W) : Prop :=
  let c := m_ctx m in
  let key_data :=
    sub_bytes 0 (data_key_size (sd c)) (workbuf c (data_key_offset (sd c))) in
  exists pre_off pre pre_size wb,
    data_key_size (sd c) <> 0
    /\ vb2_unpack_key_buffer key_data (data_key_size (sd c)) = VB2_SUCCESS
    /\ vb2_verify_fw_preamble pre pre_size key_data wb = VB2_SUCCESS
    /\ firmware_version pre <= VB2_MAX_PREAMBLE_VERSION
    /\ (gbb_flags (gbb c) VB2_GBB_FLAG_DISABLE_FW_ROLLBACK_CHECK = false ->
        fw_version_secdata (sd c)
        <= Z.lor (fw_version (sd c)) (firmware_version pre))
    /\ m_ctx m' = preamble_accepted c pre_off pre pre_size.

End Further.

(** * vboot_ui.c: asking the user to confirm *)

(** The key codes, the flag masks and the build switch
    [PHYSICAL_PRESENCE_KEYBOARD] that [VbUserConfirms] names (vboot_api.h,
    vboot_ui_common.h and the build), which are not among the sources. *)
Class vb2_ui_constants : Type := {
  VB_KEY_ENTER : Z;
  VB_KEY_ESC : Z;
  VB_CONFIRM_MUST_TRUST_KEYBOARD : Z;
  VB_CONFIRM_SPACE_MEANS_NO : Z;
  VB_KEY_FLAG_TRUSTED_KEYBOARD : Z;
  PHYSICAL_PRESENCE_KEYBOARD : bool
}.

(** What one turn of the loop of [VbUserConfirms] gets from outside: the
    key [VbExKeyboardReadWithFlags] reads and its flags, the answer of
    [vb2_want_shutdown], and the answer [VbExGetSwitches] has for the
    physical presence button. *)
Record ui_poll : Type := {
  poll_key : Z;
  poll_key_flags : Z;
  poll_want_shutdown : Z;
  poll_presence_pressed : Z
}.

Section Ui.
Context {U : vb2_ui_constants}.

(** The loop of [VbUserConfirms] (vboot_ui.c, lines 51-115) over the
    turns to come; [was_pressed] is the local
    [phys_presence_button_was_pressed].  The answer is [None] when the
    turns given are used up and the loop still waits.  The cases of the
    [switch] are tried in the order they are written. *)
Fixpoint user_confirms_loop (confirm_flags : Z) (polls : list ui_poll)
    (was_pressed : bool) : option Z :=
  match polls with
  | [] => None
  | p :: rest =>
      let go_on (was_pressed : bool) :=
        if negb (poll_want_shutdown p =? 0) then Some (-1)
        else user_confirms_loop confirm_flags rest was_pressed in
      if poll_key p =? VB_KEY_ENTER then
        if (Z.land confirm_flags VB_CONFIRM_MUST_TRUST_KEYBOARD =? 0)
           || negb (Z.land (poll_key_flags p) VB_KEY_FLAG_TRUSTED_KEYBOARD =? 0)
        then Some 1
        else go_on was_pressed
      else if poll_key p =? 32 then
        if negb (Z.land confirm_flags VB_CONFIRM_SPACE_MEANS_NO =? 0)
        then Some 0
        else go_on was_pressed
      else if poll_key p =? VB_KEY_ESC then Some 0
      else if negb PHYSICAL_PRESENCE_KEYBOARD then
        if negb (poll_presence_pressed p =? 0) then go_on true
        else if was_pressed then Some 1
        else go_on was_pressed
      else go_on was_pressed
  end.

(** [int VbUserConfirms(ctx, confirm_flags)] (vboot_ui.c, lines 40-118). *)
Definition VbUserConfirms (confirm_flags : Z) (polls : list ui_poll)
  : option Z :=
  user_confirms_loop confirm_flags polls false.

End Ui.

(** * Statements of the specification, as they are worded

    The failure handler, the priority of recovery reasons, the handling of
    a failed slot, the keyblock rollback and the commit failure, written
    out the way the specification words them, to be compared with
    [vb2api_fail], [vb2_check_recovery], [vb2_load_fw_keyblock] and
    [vb2_commit_data]. *)

Section AsWorded.
Context {K : vb2_constants} {W : Type} {H : vb2ex W} {P : vb2_primitives}.

(** "Calling [vb2api_fail(R, S)] when [nv.recovery_request] is zero sets
    [nv.recovery_request = R] and [nv.recovery_subcode = S], and calling it
    when [nv.recovery_request] is already non-zero changes neither
    field." *)
Definition failure_handler_as_worded (c : vb2_context) (R S : Z) : Prop :=
  let c' := vb2api_fail c R S in
  (vb2_nv_get c VB2_NV_RECOVERY_REQUEST = 0 ->
   vb2_nv_get c' VB2_NV_RECOVERY_REQUEST = R
   /\ vb2_nv_get c' VB2_NV_RECOVERY_SUBCODE = S)
  /\ (vb2_nv_get c VB2_NV_RECOVERY_REQUEST <> 0 ->
      vb2_nv_get c' VB2_NV_RECOVERY_REQUEST = vb2_nv_get c VB2_NV_RECOVERY_REQUEST
      /\ vb2_nv_get c' VB2_NV_RECOVERY_SUBCODE = vb2_nv_get c VB2_NV_RECOVERY_SUBCODE).

(** "The first applicable rule in this priority order: (a) a reason already
    present in [SharedState.recovery_reason], then (b)
    [nv.recovery_request], then (c) [VB2_RECOVERY_RO_MANUAL] when the
    manual-recovery flag is set and no subcode is present, then (d) the
    [nv.recovery_subcode] promoted to reason when manual recovery is set
    with a subcode." *)
Definition recovery_reason_as_worded (c : vb2_context) : Z :=
  if negb (recovery_reason (sd c) =? 0) then recovery_reason (sd c)
  else if negb (vb2_nv_get c VB2_NV_RECOVERY_REQUEST =? 0)
  then vb2_nv_get c VB2_NV_RECOVERY_REQUEST
  else if ctx_flags c VB2_CONTEXT_FORCE_RECOVERY_MODE then
    if vb2_nv_get c VB2_NV_RECOVERY_SUBCODE =? 0
    then VB2_RECOVERY_RO_MANUAL
    else vb2_nv_get c VB2_NV_RECOVERY_SUBCODE
  else 0.

(** "Sets [nv.fw_result] to FAILURE, sets [nv.try_count] to 0, and flips
    [nv.try_next] to the other slot unless the alternate slot already
    failed on the previous boot": with the exception read as it is worded,
    [try_next] stays as it is when the alternate slot already failed. *)
Definition slot_failure_as_worded (c : vb2_context) (R S : Z) : Prop :=
  let c' := vb2api_fail c R S in
  vb2_nv_get c' VB2_NV_FW_RESULT = VB2_FW_RESULT_FAILURE
  /\ vb2_nv_get c' VB2_NV_TRY_COUNT = 0
  /\ vb2_nv_get c' VB2_NV_TRY_NEXT =
       (if other_slot_failed c then vb2_nv_get c VB2_NV_TRY_NEXT
        else u32 (1 - fw_slot (sd c))).

(** "For every firmware keyblock that verifies against the root key, if the
    keyblock's data-key version is less than the upper 16 bits of the
    secdata firmware version counter and the GBB flag is not set, then
    [vb2_load_fw_keyblock] fails with the firmware-keyblock
    version-rollback error and records recovery reason fw-key-rollback;
    when the GBB flag is set the rollback check is ignored and phase 2
    succeeds": once the call has returned, the recovery request in NV is
    that reason. *)
Definition keyblock_rollback_as_worded (m : @machine W) : Prop :=
  forall key_data kb block_size m1,
    load_fw_keyblock_verify m = Next (key_data, kb, block_size) m1 ->
    key_version (data_key kb)
    < Z.shiftr (vb2_secdata_firmware_get_versions (m_ctx m)) 16 ->
    if gbb_flags (gbb (m_ctx m)) VB2_GBB_FLAG_DISABLE_FW_ROLLBACK_CHECK
    then exists m', vb2_load_fw_keyblock m = Returned VB2_SUCCESS m'
    else exists m',
           vb2_load_fw_keyblock m
           = Returned VB2_ERROR_FW_KEYBLOCK_VERSION_ROLLBACK m'
           /\ vb2_nv_get (m_ctx m') VB2_NV_RECOVERY_REQUEST
              = VB2_RECOVERY_FW_KEY_ROLLBACK.

(** "When [vb2_commit_data] is called outside recovery mode and the
    underlying commit fails with a secdata-firmware-write or
    secdata-kernel-write error, the engine records recovery reason
    rw-tpm-w-error (via the failure helper), re-invokes the commit exactly
    once to persist the recovery request, and returns the original error;
    an nv-write failure outside recovery mode is fatal": the context the
    second commit is made on carries that reason as the recovery request
    in NV. *)
Definition commit_failure_as_worded (m : @machine W) : Prop :=
  ctx_flags (m_ctx m) VB2_CONTEXT_RECOVERY_MODE = false ->
  let rv := fst (vb2ex_commit_data (m_ctx m) (m_host m)) in
  (rv = VB2_ERROR_SECDATA_FIRMWARE_WRITE \/ rv = VB2_ERROR_SECDATA_KERNEL_WRITE ->
   exists c1 m',
     vb2_commit_data m = Returned rv m'
     /\ m_trace m' = m_trace m ++ [ExCommitData (m_ctx m); ExCommitData c1]
     /\ vb2_nv_get c1 VB2_NV_RECOVERY_REQUEST = VB2_RECOVERY_RW_TPM_W_ERROR)
  /\ (rv = VB2_ERROR_NV_WRITE -> exists m', vb2_commit_data m = Halted m').

End AsWorded.

(** * A platform for the examples

    A numbering of the enumerations, a toy layout of the signed structures
    (one list entry per field) and a scripted host.  The theorems below
    hold for every numbering, layout and host; the examples run the engine
    on this one. *)

Definition sample_return_code (rv : vb2_error_t) : Z :=
  match rv with
  | VB2_SUCCESS => 0
  | VB2_ERROR_NV_WRITE => 0x10030001
  | VB2_ERROR_SECDATA_FIRMWARE_WRITE => 0x10040001
  | VB2_ERROR_SECDATA_KERNEL_WRITE => 0x10040002
  | VB2_ERROR_FW_KEYBLOCK_WORKBUF_ROOT_KEY => 0x10080001
  | VB2_ERROR_FW_KEYBLOCK_WORKBUF_HEADER => 0x10080002
  | VB2_ERROR_FW_KEYBLOCK_WORKBUF => 0x10080003
  | VB2_ERROR_FW_KEYBLOCK_VERSION_RANGE => 0x10080004
  | VB2_ERROR_FW_KEYBLOCK_VERSION_ROLLBACK => 0x10080005
  | VB2_ERROR_FW_PREAMBLE2_DATA_KEY => 0x10080006
  | VB2_ERROR_FW_PREAMBLE2_WORKBUF_HEADER => 0x10080007
  | VB2_ERROR_FW_PREAMBLE2_WORKBUF => 0x10080008
  | VB2_ERROR_FW_PREAMBLE_VERSION_RANGE => 0x10080009
  | VB2_ERROR_FW_PREAMBLE_VERSION_ROLLBACK => 0x1008000a
  | VB2_ERROR_LK_NO_DISK_FOUND => 0x100b0001
  | VB2_ERROR_LK_NO_KERNEL_FOUND => 0x100b0002
  | VB2_ERROR_LK_INVALID_KERNEL_FOUND => 0x100b0003
  | VBERROR_REBOOT_REQUIRED => 0x10020
  | VBERROR_SHUTDOWN_REQUESTED => 0x10021
  | VB2_ERROR_EX n => 0x10f00000 + Z.pos n
  end.

Definition sample_constants : vb2_constants :=
  {| VB2_FW_RESULT_UNKNOWN := 0;
     VB2_FW_RESULT_TRYING := 1;
     VB2_FW_RESULT_SUCCESS := 2;
     VB2_FW_RESULT_FAILURE := 3;
     VB2_RECOVERY_RO_MANUAL := 0x02;
     VB2_RECOVERY_FW_KEYBLOCK := 0x13;
     VB2_RECOVERY_FW_KEY_ROLLBACK := 0x14;
     VB2_RECOVERY_FW_PREAMBLE := 0x16;
     VB2_RECOVERY_FW_ROLLBACK := 0x17;
     VB2_RECOVERY_TPM_CLEAR_OWNER := 0x2d;
     VB2_RECOVERY_RW_TPM_W_ERROR := 0x55;
     VB2_RECOVERY_RW_INVALID_OS := 0x43;
     VB2_RECOVERY_RW_NO_KERNEL := 0x5b;
     VB2_RECOVERY_RW_NO_DISK := 0x48;
     VB2_RECOVERY_LK_UNSPECIFIED := 0x5c;
     vb2_return_code := sample_return_code;
     VB2_WORKBUF_ALIGN := 8;
     sizeof_vb2_keyblock := 8;
     offsetof_vb2_keyblock_data_key := 1;
     sizeof_vb2_fw_preamble := 8;
     VB_DISK_FLAG_FIXED := 2;
     VB_DISK_FLAG_EXTERNAL_GPT := 4;
     BOOT_FLAG_EXTERNAL_GPT := 4 |}.

(** The toy keyblock is [size; key_offset; key_size; key_version; valid;
    ...] and the toy preamble [size; firmware_version; valid; ...]; a
    structure verifies when its [valid] entry is 1. *)
Definition sample_primitives : vb2_primitives :=
  {| vb2_unpack_key_buffer := fun _ _ => VB2_SUCCESS;
     vb2_verify_keyblock := fun kb _ _ _ =>
       if nth 4 kb 0 =? 1 then VB2_SUCCESS else VB2_ERROR_EX 2;
     vb2_verify_fw_preamble := fun pre _ _ _ =>
       if nth 2 pre 0 =? 1 then VB2_SUCCESS else VB2_ERROR_EX 3;
     vb2_verify_packed_key_inside := fun _ size k =>
       if key_offset k + key_size k <? size then VB2_SUCCESS else VB2_ERROR_EX 4;
     keyblock_size := fun kb => nth 0 kb 0;
     data_key := fun kb =>
       {| key_offset := nth 1 kb 0; key_size := nth 2 kb 0;
          key_version := nth 3 kb 0 |};
     preamble_size_of := fun pre => nth 0 pre 0;
     firmware_version := fun pre => nth 1 pre 0 |}.

(** The scripted host: the two flash resources, the answer of the TPM
    owner clear, the answers of the successive commits (success once the
    script is used up), the disks, and what [LoadKernel] finds: its return
    code and the kernel version it leaves in [kernel_version_tpm]. *)
Record sample_world : Type := {
  flash_gbb : list Z;
  flash_vblock : list Z;
  tpm_clear_answer : vb2_error_t;
  commit_answers : list vb2_error_t;
  disks : list VbDiskInfo;
  kernel_answer : vb2_error_t;
  kernel_version_found : Z
}.

Definition sample_read (index : vb2_resource_index) (offset size : Z)
    (w : sample_world) : vb2_error_t * list Z * sample_world :=
  let res := match index with
             | VB2_RES_GBB => flash_gbb w
             | VB2_RES_FW_VBLOCK => flash_vblock w
             end in
  if Z.of_nat (length res) <? offset + size
  then (VB2_ERROR_EX 1, [], w)
  else (VB2_SUCCESS, firstn (Z.to_nat size) (skipn (Z.to_nat offset) res), w).

Definition sample_commit (w : sample_world) : vb2_error_t * sample_world :=
  match commit_answers w with
  | [] => (VB2_SUCCESS, w)
  | rv :: rest =>
      (rv, {| flash_gbb := flash_gbb w; flash_vblock := flash_vblock w;
              tpm_clear_answer := tpm_clear_answer w;
              commit_answers := rest; disks := disks w;
              kernel_answer := kernel_answer w;
              kernel_version_found := kernel_version_found w |})
  end.

Definition sample_load_kernel (c : vb2_context) (w : sample_world)
  : vb2_error_t * vb2_context * sample_world :=
  (kernel_answer w,
   on_sd (fun s =>
            sd_with_vbsd
              {| kernel_version_tpm := kernel_version_found w;
                 kernel_version_tpm_start := kernel_version_tpm_start (vbsd s) |} s) c,
   w).

Definition sample_host : vb2ex sample_world :=
  {| vb2ex_read_resource := fun _ => sample_read;
     vb2ex_tpm_clear_owner := fun _ w => (tpm_clear_answer w, w);
     vb2ex_commit_data := fun _ => sample_commit;
     VbExDiskGetInfo := fun _ w => (VB2_SUCCESS, disks w, w);
     VbExDiskFreeInfo := fun _ _ w => (VB2_SUCCESS, w);
     LoadKernel := fun c _ => sample_load_kernel c |}.

(** A toy digest: the state is the bytes absorbed so far, and the digest
    their first [n], padded with zeros. *)
Definition sample_digest (n : nat) (s : list Z) : list Z :=
  firstn n (s ++ repeat 0 n).

Lemma sample_digest_length (n : nat) (s : list Z) :
  Z.of_nat (length (sample_digest n s)) = Z.of_nat n.
Proof.
  unfold sample_digest. rewrite length_firstn, length_app, repeat_length. lia.
Qed.

Definition sample_sha_update (s data : list Z) (size : Z) : list Z :=
  s ++ firstn (Z.to_nat size) data.

Definition sample_sha : vb2_sha (list Z) :=
  {| vb2_sha1_init := [1];
     vb2_sha1_update := sample_sha_update;
     vb2_sha1_finalize := fun s => (s, sample_digest 20 s);
     vb2_sha256_init := [2];
     vb2_sha256_update := sample_sha_update;
     vb2_sha256_finalize := fun s => (s, sample_digest 32 s);
     vb2_sha512_init := [5];
     vb2_sha512_update := sample_sha_update;
     vb2_sha512_finalize := fun s => (s, sample_digest 64 s);
     vb2_sha1_digest_length := sample_digest_length 20;
     vb2_sha256_digest_length := sample_digest_length 32;
     vb2_sha512_digest_length := sample_digest_length 64 |}.

(** A numbering of the hash algorithms: 0 to 3 for the named ones, and
    [VB2_HASH_OTHER n] for the value [3 + n]. *)
Definition sample_hash_value (a : vb2_hash_algorithm) : Z :=
  match a with
  | VB2_HASH_INVALID => 0
  | VB2_HASH_SHA1 => 1
  | VB2_HASH_SHA256 => 2
  | VB2_HASH_SHA512 => 3
  | VB2_HASH_OTHER n => 3 + Z.pos n
  end.

Definition sample_hash_of_value (z : Z) : vb2_hash_algorithm :=
  if z =? 0 then VB2_HASH_INVALID
  else if z =? 1 then VB2_HASH_SHA1
  else if z =? 2 then VB2_HASH_SHA256
  else if z =? 3 then VB2_HASH_SHA512
  else VB2_HASH_OTHER (Z.to_pos (z - 3)).

Lemma sample_hash_of_value_value (a : vb2_hash_algorithm) :
  sample_hash_of_value (sample_hash_value a) = a.
Proof.
  destruct a; try reflexivity.
  cbn [sample_hash_value]. unfold sample_hash_of_value.
  repeat match goal with
         | |- context [?a =? ?b] => destruct (Z.eqb_spec a b); [lia|]
         end.
  replace (3 + Z.pos n - 3) with (Z.pos n) by lia. reflexivity.
Qed.

Lemma sample_hash_value_byte (a : vb2_hash_algorithm) :
  match a with
  | VB2_HASH_OTHER _ => True
  | _ => 0 <= sample_hash_value a <= 255
  end.
Proof. destruct a; cbn; try exact I; lia. Qed.

Definition sample_hash_numbering : vb2_hash_numbering :=
  {| vb2_hash_algorithm_value := sample_hash_value;
     vb2_hash_algorithm_of_value := sample_hash_of_value;
     vb2_hash_algorithm_of_value_value := sample_hash_of_value_value;
     vb2_hash_algorithm_value_byte := sample_hash_value_byte |}.

(** The EC of the sample world is trusted; a battery cut-off shows as the
    disks being gone. *)
Definition sample_ec : vb2ex_ec sample_world :=
  {| vb2ex_ec_trusted := fun w => (1, w);
     vb2ex_ec_battery_cutoff := fun w =>
       (VB2_SUCCESS,
        {| flash_gbb := flash_gbb w; flash_vblock := flash_vblock w;
           tpm_clear_answer := tpm_clear_answer w;
           commit_answers := commit_answers w; disks := [];
           kernel_answer := kernel_answer w;
           kernel_version_found := kernel_version_found w |}) |}.

(** In the toy layout a preamble carries the size of the signed body in
    its entry 3 and the body signature from entry 4 on; a key names its
    crypto algorithm in its entry 0; the toy signature of a body is its
    digest. *)
Definition sample_body : vb2_body_primitives :=
  {| fw_body_signature_data_size := fun pre => nth 3 pre 0;
     kernel_body_signature_data_size := fun pre => nth 3 pre 0;
     key_hash_alg := fun key _ => vb2_crypto_to_hash (nth 0 key 0);
     sizeof_vb2_digest_context := 16;
     vb2_verify_digest := fun _ pre digest _ =>
       (if bytes_eqb digest (firstn (length digest) (skipn 4 pre))
        then VB2_SUCCESS else VB2_ERROR_EX 9,
        firstn 4 pre) |}.

Section Samples.
#[local] Existing Instance sample_constants.
#[local] Existing Instance sample_primitives.
#[local] Existing Instance sample_host.

(** A context after a good boot of slot A: NV cleared and initialised,
    firmware version 2.2 and kernel version 1.1 in secure storage. *)
Definition sample_sd : vb2_shared_data :=
  {| sd_flags := no_bits;
     sd_status :=
       bit_set vb2_sd_status_beq
         (bit_set vb2_sd_status_beq no_bits VB2_SD_STATUS_NV_INIT)
         VB2_SD_STATUS_SECDATA_FIRMWARE_INIT;
     workbuf_size := 4096; workbuf_used := 64;
     recovery_reason := 0;
     last_fw_slot := 0; last_fw_result := VB2_FW_RESULT_SUCCESS; fw_slot := 0;
     fw_version := 0; fw_version_secdata := 0x20002;
     vblock_preamble_offset := 0;
     data_key_offset := 0; data_key_size := 0;
     preamble_offset := 0; preamble_size := 0;
     vbsd := {| kernel_version_tpm := 0x10001;
                kernel_version_tpm_start := 0x10001 |} |}.

Definition sample_ctx : vb2_context :=
  {| ctx_flags := no_bits;
     nvdata := {| nv_field := fun _ => 0; nv_crc_ok := true |};
     secdata_firmware := {| secdata_firmware_flags := no_bits;
                            fw_versions := 0x20002 |};
     secdata_kernel := {| kernel_versions := 0x10001 |};
     sd := sample_sd;
     gbb := {| gbb_flags := no_bits; rootkey_offset := 0; rootkey_size := 8 |};
     workbuf := fun _ => [] |}.

(** The vblock: a keyblock of 16 entries with the given data-key version,
    then a preamble of 8 entries with the given firmware version. *)
Definition sample_vblock (key_ver fw_ver : Z) : list Z :=
  [16; 2; 4; key_ver; 1; 0; 0; 0; 0; 0; 0; 0; 0; 0; 0; 0]
  ++ [8; fw_ver; 1; 0; 0; 0; 0; 0].

Definition sample_disk : VbDiskInfo :=
  {| handle := Some 1; bytes_per_lba := 512; lba_count := 1000;
     streaming_lba_count := 0; disk_flags := 2 |}.

Definition sample_flash (key_ver fw_ver : Z) : sample_world :=
  {| flash_gbb := [0; 0; 0; 0; 0; 0; 0; 0];
     flash_vblock := sample_vblock key_ver fw_ver;
     tpm_clear_answer := VB2_SUCCESS;
     commit_answers := [];
     disks := [sample_disk];
     kernel_answer := VB2_SUCCESS;
     kernel_version_found := 0x10001 |}.

Definition sample_lkp : LoadKernelParams :=
  {| disk_handle := None; lkp_bytes_per_lba := 0; gpt_lba_count := 0;
     lkp_streaming_lba_count := 0; boot_flags := 0 |}.

Definition sample_machine (c : vb2_context) (w : sample_world)
  : @machine sample_world :=
  {| m_ctx := c; m_lkp := sample_lkp; m_host := w; m_trace := [] |}.

(** The same context once slot A has been chosen for this boot. *)
Definition sample_chose_slot : vb2_context :=
  sd_status_set VB2_SD_STATUS_CHOSE_SLOT sample_ctx.

(** Slot A chosen, and slot B failed on the last boot. *)
Definition sample_both_failing : vb2_context :=
  on_sd (fun s => sd_with_last_fw_result VB2_FW_RESULT_FAILURE
                    (sd_with_last_fw_slot 1 s)) sample_chose_slot.

(** The recovery button held while NV carries a request from the last
    boot. *)
Definition sample_manual_recovery : vb2_context :=
  ctx_flag_set VB2_CONTEXT_FORCE_RECOVERY_MODE
    (vb2_nv_set sample_ctx VB2_NV_RECOVERY_REQUEST 0x2b).

(** The NV state of an exhausted try count on slot A. *)
Definition sample_tries_exhausted : vb2_context :=
  vb2_nv_set sample_ctx VB2_NV_FW_RESULT VB2_FW_RESULT_TRYING.

(** The machine an outcome, or a step, ends in. *)
Definition machine_of (o : @outcome sample_world) : @machine sample_world :=
  match o with
  | Returned _ m => m
  | Halted m => m
  end.

Definition machine_of_step {A : Type} (s : @step sample_world A)
  : @machine sample_world :=
  match s with
  | Next _ m => m
  | Return _ m => m
  | Abort m => m
  end.

(** The start of the firmware vblock stage, for a vblock with the given
    versions, and the machine once the keyblock has been loaded from it. *)
Definition sample_boot (key_ver fw_ver : Z) : @machine sample_world :=
  sample_machine sample_ctx (sample_flash key_ver fw_ver).

Definition sample_after_keyblock (key_ver fw_ver : Z) : @machine sample_world :=
  machine_of (vb2_load_fw_keyblock (sample_boot key_ver fw_ver)).

(** The GBB flag that disables the firmware rollback check, set. *)
Definition sample_no_rollback_check (c : vb2_context) : vb2_context :=
  {| ctx_flags := ctx_flags c; nvdata := nvdata c;
     secdata_firmware := secdata_firmware c;
     secdata_kernel := secdata_kernel c; sd := sd c;
     gbb := {| gbb_flags := fun f =>
                 match f with
                 | VB2_GBB_FLAG_DISABLE_FW_ROLLBACK_CHECK => true
                 | _ => gbb_flags (gbb c) f
                 end;
               rootkey_offset := rootkey_offset (gbb c);
               rootkey_size := rootkey_size (gbb c) |};
     workbuf := workbuf c |}.

(** A kernel of version 1.5 on the disk, with roll-forward limited to
    1.3 by NV. *)
Definition sample_new_kernel : @machine sample_world :=
  sample_machine
    (vb2_nv_set sample_ctx VB2_NV_KERNEL_MAX_ROLLFORWARD 0x10003)
    {| flash_gbb := []; flash_vblock := [];
       tpm_clear_answer := VB2_SUCCESS; commit_answers := [];
       disks := [sample_disk];
       kernel_answer := VB2_SUCCESS; kernel_version_found := 0x10005 |}.

(** A host whose first commit cannot write the kernel secure storage. *)
Definition sample_commit_fails (rv : vb2_error_t) : @machine sample_world :=
  sample_machine sample_ctx
    {| flash_gbb := []; flash_vblock := [];
       tpm_clear_answer := VB2_SUCCESS; commit_answers := [rv];
       disks := []; kernel_answer := VB2_SUCCESS;
       kernel_version_found := 0 |}.

(** The keyblock stage of a boot that has chosen slot A (the other slot
    has not failed, no recovery request is pending), on a vblock whose data
    key has version 1, below the 2 of secure storage. *)
Definition sample_rollback_after_selection : @machine sample_world :=
  with_ctx sample_chose_slot (sample_boot 1 2).

(** Slot A chosen, and a host whose first commit cannot write the kernel
    secure storage. *)
Definition sample_commit_fails_after_selection : @machine sample_world :=
  with_ctx sample_chose_slot (sample_commit_fails VB2_ERROR_SECDATA_KERNEL_WRITE).

(** Normal mode, with USB boot left enabled by an earlier developer
    session. *)
Definition sample_leaving_dev : @machine sample_world :=
  sample_machine (vb2_nv_set sample_ctx VB2_NV_DEV_BOOT_USB 1)
    (sample_flash 2 2).


End Samples.

(** Keys and flags for the user interface: confirmation by keyboard. *)
Definition sample_ui : vb2_ui_constants :=
  {| VB_KEY_ENTER := 13;
     VB_KEY_ESC := 27;
     VB_CONFIRM_MUST_TRUST_KEYBOARD := 1;
     VB_CONFIRM_SPACE_MEANS_NO := 2;
     VB_KEY_FLAG_TRUSTED_KEYBOARD := 1;
     PHYSICAL_PRESENCE_KEYBOARD := true |}.

Section MoreSamples.
#[local] Existing Instance sample_constants.
#[local] Existing Instance sample_primitives.
#[local] Existing Instance sample_host.
#[local] Existing Instance sample_ec.
#[local] Existing Instance sample_body.
#[local] Existing Instance sample_sha.
#[local] Existing Instance sample_hash_numbering.
#[local] Existing Instance sample_ui.

(** The start of the next boot: the NV record and the secure storage are
    those of [c], the shared data and the context flags are fresh. *)
Definition sample_next_boot (c : vb2_context) : vb2_context :=
  with_ctx_flags no_bits (with_sd sample_sd c).

(** Slot A selected, and then a failure. *)
Definition sample_first_failure : vb2_context :=
  vb2api_fail (snd (vb2_select_fw_slot sample_ctx)) 0x14 5.

(** Two tries left for slot A. *)
Definition sample_two_tries : vb2_context :=
  vb2_nv_set sample_ctx VB2_NV_TRY_COUNT 2.

(** The boot after [vb2_enable_developer_mode]. *)
Definition sample_dev_enabled : @machine sample_world :=
  sample_machine
    (sample_next_boot (snd (vb2_enable_developer_mode sample_ctx)))
    (sample_flash 2 2).

(** Recovery mode, with a commit that cannot write NV. *)
Definition sample_recovery_commit_fails : @machine sample_world :=
  with_ctx (ctx_flag_set VB2_CONTEXT_RECOVERY_MODE sample_ctx)
    (sample_commit_fails VB2_ERROR_NV_WRITE).

(** The boot after [vb2api_need_reboot_for_display]. *)
Definition sample_display_request : @machine sample_world :=
  sample_machine
    (sample_next_boot (snd (vb2api_need_reboot_for_display sample_ctx)))
    (sample_flash 2 2).

(** A disk with blocks of 100 bytes, and a world that has no other. *)
Definition sample_small_disk : VbDiskInfo :=
  {| handle := Some 2; bytes_per_lba := 100; lba_count := 1000;
     streaming_lba_count := 0; disk_flags := 2 |}.

Definition sample_no_usable_disk : @machine sample_world :=
  sample_machine sample_ctx
    {| flash_gbb := []; flash_vblock := [];
       tpm_clear_answer := VB2_SUCCESS; commit_answers := [];
       disks := [sample_small_disk];
       kernel_answer := VB2_SUCCESS; kernel_version_found := 0 |}.

(** A disk that passes the guard and has a [NULL] handle, with a kernel
    on it. *)
Definition sample_null_handle_disk : VbDiskInfo :=
  {| handle := None; bytes_per_lba := 512; lba_count := 1000;
     streaming_lba_count := 0; disk_flags := 2 |}.

Definition sample_null_handle : @machine sample_world :=
  sample_machine sample_ctx
    {| flash_gbb := []; flash_vblock := [];
       tpm_clear_answer := VB2_SUCCESS; commit_answers := [];
       disks := [sample_null_handle_disk];
       kernel_answer := VB2_SUCCESS; kernel_version_found := 0x10001 |}.

(** An empty hash. *)
Definition sample_hash : vb2_hash :=
  {| reserved := [0; 0; 0]; algo := VB2_HASH_INVALID; raw := [] |}.

(** A request to cut off the battery. *)
Definition sample_cutoff_request : @machine sample_world :=
  sample_machine (vb2_nv_set sample_ctx VB2_NV_BATTERY_CUTOFF_REQUEST 1)
    (sample_flash 2 2).

(** A kernel body of three bytes, and a context whose work buffer holds a
    data key for crypto algorithm 1 (SHA256) at offset 64 and, at offset
    72, a kernel preamble that signs three bytes with the toy signature of
    that body. *)
Definition sample_kernel_body : list Z := [7; 8; 9].

Definition sample_kernel_ctx : vb2_context :=
  workbuf_store 72
    ([8; 2; 1; 3] ++ sample_digest 32 ([2] ++ sample_kernel_body))
    (workbuf_store 64 [1; 0; 0; 0]
       (on_sd (fun s => sd_with_workbuf_used 128
                          (sd_with_preamble 72 36 (sd_with_data_key 64 4 s)))
          sample_ctx)).

Definition sample_dc : vb2_digest_context (list Z) :=
  {| dc_sha := []; hash_alg := VB2_HASH_INVALID; using_hwcrypto := 0 |}.

(** ENTER from an untrusted keyboard, then ENTER from the trusted one; and
    a turn in which a shutdown is asked for. *)
Definition sample_polls : list ui_poll :=
  [ {| poll_key := 13; poll_key_flags := 0; poll_want_shutdown := 0;
       poll_presence_pressed := 0 |};
    {| poll_key := 13; poll_key_flags := 1; poll_want_shutdown := 0;
       poll_presence_pressed := 0 |} ].

Definition sample_shutdown_polls : list ui_poll :=
  [ {| poll_key := 0; poll_key_flags := 0; poll_want_shutdown := 1;
       poll_presence_pressed := 0 |} ].

End MoreSamples.

(** * Properties *)

(** Case analysis on every test the goal branches on. *)
Ltac branches :=
  repeat (cbn -[Z.eqb Z.ltb] in *;
          match goal with
          | |- context [?a =? ?b] => destruct (Z.eqb_spec a b)
          | |- context [?a <? ?b] => destruct (Z.ltb_spec a b)
          | |- context [if ?x then _ else _] => destruct x eqn:?
          end);
  cbn -[Z.eqb Z.ltb] in *.

(** Projections of an updated machine. *)
Ltac mred :=
  cbn [m_ctx m_lkp m_host m_trace with_ctx with_lkp called fst snd] in *.

Section NvFacts.
Context {K : vb2_constants}.

Lemma vb2_nv_param_beq_refl (p : vb2_nv_param) : vb2_nv_param_beq p p = true.
Proof. destruct p; reflexivity. Qed.

Lemma vb2_nv_param_beq_neq (p q : vb2_nv_param) :
  p <> q -> vb2_nv_param_beq p q = false.
Proof.
  intros Hpq. destruct (vb2_nv_param_beq p q) eqn:E; [|reflexivity].
  exfalso. apply Hpq. now apply internal_vb2_nv_param_dec_bl.
Qed.

Lemma nv_get_set_same c p v : vb2_nv_get (vb2_nv_set c p v) p = v.
Proof.
  unfold vb2_nv_set. destruct (Z.eqb_spec (vb2_nv_get c p) v) as [E|E]; [exact E|].
  unfold vb2_nv_get. simpl. now rewrite vb2_nv_param_beq_refl.
Qed.

Lemma nv_get_set_other c p q v :
  p <> q -> vb2_nv_get (vb2_nv_set c p v) q = vb2_nv_get c q.
Proof.
  intros Hpq. unfold vb2_nv_set.
  destruct (vb2_nv_get c p =? v); [reflexivity|].
  unfold vb2_nv_get. simpl. now rewrite vb2_nv_param_beq_neq.
Qed.

Lemma nv_get_on_sd f c p : vb2_nv_get (on_sd f c) p = vb2_nv_get c p.
Proof. reflexivity. Qed.

Lemma sd_nv_set c p v : sd (vb2_nv_set c p v) = sd c.
Proof. unfold vb2_nv_set. now destruct (vb2_nv_get c p =? v). Qed.

Lemma gbb_nv_set c p v : gbb (vb2_nv_set c p v) = gbb c.
Proof. unfold vb2_nv_set. now destruct (vb2_nv_get c p =? v). Qed.

Lemma secdata_firmware_nv_set c p v :
  secdata_firmware (vb2_nv_set c p v) = secdata_firmware c.
Proof. unfold vb2_nv_set. now destruct (vb2_nv_get c p =? v). Qed.

Lemma secdata_kernel_nv_set c p v :
  secdata_kernel (vb2_nv_set c p v) = secdata_kernel c.
Proof. unfold vb2_nv_set. now destruct (vb2_nv_get c p =? v). Qed.

Lemma other_slot_failed_nv_set c p v :
  other_slot_failed (vb2_nv_set c p v) = other_slot_failed c.
Proof. unfold other_slot_failed. now rewrite sd_nv_set. Qed.

(** [vb2_nv_init] leaves everything in the shared data alone but one
    status bit. *)
Lemma sd_status_ensure_nv_init c s :
  s <> VB2_SD_STATUS_NV_INIT ->
  sd_status (sd (ensure_nv_init c)) s = sd_status (sd c) s.
Proof.
  intros H1. unfold ensure_nv_init, vb2_nv_init.
  destruct (sd_status (sd c) VB2_SD_STATUS_NV_INIT); [reflexivity|].
  destruct (nv_crc_ok (nvdata c)); destruct s;
    cbv [sd_status_set bit_set]; simpl; congruence.
Qed.

Lemma other_slot_failed_ensure_nv_init c :
  other_slot_failed (ensure_nv_init c) = other_slot_failed c.
Proof.
  unfold other_slot_failed, ensure_nv_init, vb2_nv_init.
  destruct (sd_status (sd c) VB2_SD_STATUS_NV_INIT); [reflexivity|].
  now destruct (nv_crc_ok (nvdata c)).
Qed.

Lemma fw_slot_ensure_nv_init c :
  fw_slot (sd (ensure_nv_init c)) = fw_slot (sd c).
Proof.
  unfold ensure_nv_init, vb2_nv_init.
  destruct (sd_status (sd c) VB2_SD_STATUS_NV_INIT); [reflexivity|].
  now destruct (nv_crc_ok (nvdata c)).
Qed.

(** The request and the subcode after [request_recovery]. *)
Lemma request_recovery_pending c r s :
  vb2_nv_get c VB2_NV_RECOVERY_REQUEST <> 0 ->
  request_recovery c r s = c.
Proof.
  intros Hreq. unfold request_recovery.
  now destruct (Z.eqb_spec (vb2_nv_get c VB2_NV_RECOVERY_REQUEST) 0).
Qed.

Lemma request_recovery_records c r s :
  vb2_nv_get c VB2_NV_RECOVERY_REQUEST = 0 ->
  vb2_nv_get (request_recovery c r s) VB2_NV_RECOVERY_REQUEST = r
  /\ vb2_nv_get (request_recovery c r s) VB2_NV_RECOVERY_SUBCODE = s.
Proof.
  intros Hreq. unfold request_recovery. rewrite Hreq. simpl. split.
  - rewrite nv_get_set_other by discriminate. apply nv_get_set_same.
  - apply nv_get_set_same.
Qed.

Lemma request_recovery_other c r s p :
  p <> VB2_NV_RECOVERY_REQUEST -> p <> VB2_NV_RECOVERY_SUBCODE ->
  vb2_nv_get (request_recovery c r s) p = vb2_nv_get c p.
Proof.
  intros H1 H2. unfold request_recovery.
  destruct (vb2_nv_get c VB2_NV_RECOVERY_REQUEST =? 0); [|reflexivity].
  now rewrite !nv_get_set_other by congruence.
Qed.

(** [vb2api_fail] by cases, on the context with NV initialised. *)
Lemma vb2api_fail_cases c r s :
  let c0 := ensure_nv_init c in
  vb2api_fail c r s =
    if sd_status (sd c0) VB2_SD_STATUS_CHOSE_SLOT then
      if other_slot_failed c0
      then request_recovery (mark_slot_failed c0) (u8 r) (u8 s)
      else mark_slot_failed c0
    else request_recovery c0 (u8 r) (u8 s).
Proof.
  intros c0. unfold vb2api_fail. fold c0.
  destruct (sd_status (sd c0) VB2_SD_STATUS_CHOSE_SLOT); [|reflexivity].
  unfold mark_slot_failed. cbv zeta.
  rewrite !sd_nv_set, !other_slot_failed_nv_set.
  now destruct (other_slot_failed c0).
Qed.

Lemma mark_slot_failed_other c p :
  p <> VB2_NV_FW_RESULT -> p <> VB2_NV_TRY_COUNT -> p <> VB2_NV_TRY_NEXT ->
  vb2_nv_get (mark_slot_failed c) p = vb2_nv_get c p.
Proof.
  intros H1 H2 H3. unfold mark_slot_failed. cbv zeta.
  now rewrite !nv_get_set_other by congruence.
Qed.

Lemma mark_slot_failed_writes c :
  vb2_nv_get (mark_slot_failed c) VB2_NV_FW_RESULT = VB2_FW_RESULT_FAILURE
  /\ vb2_nv_get (mark_slot_failed c) VB2_NV_TRY_COUNT = 0
  /\ vb2_nv_get (mark_slot_failed c) VB2_NV_TRY_NEXT = u32 (1 - fw_slot (sd c)).
Proof.
  unfold mark_slot_failed. cbv zeta. rewrite !sd_nv_set. repeat split.
  - rewrite !nv_get_set_other by discriminate. apply nv_get_set_same.
  - rewrite nv_get_set_other by discriminate. apply nv_get_set_same.
  - apply nv_get_set_same.
Qed.

(** [vb2api_fail] by the state it is called in: a request is pending; no
    request is pending and the helper goes on to request recovery; a slot
    was chosen and the other slot is still to be tried. *)
Lemma vb2api_fail_pending c R S :
  vb2_nv_get (ensure_nv_init c) VB2_NV_RECOVERY_REQUEST <> 0 ->
  vb2_nv_get (vb2api_fail c R S) VB2_NV_RECOVERY_REQUEST
  = vb2_nv_get (ensure_nv_init c) VB2_NV_RECOVERY_REQUEST
  /\ vb2_nv_get (vb2api_fail c R S) VB2_NV_RECOVERY_SUBCODE
     = vb2_nv_get (ensure_nv_init c) VB2_NV_RECOVERY_SUBCODE.
Proof.
  intros Hreq. rewrite vb2api_fail_cases. cbv zeta.
  assert (Hm : request_recovery (mark_slot_failed (ensure_nv_init c)) (u8 R) (u8 S)
               = mark_slot_failed (ensure_nv_init c)).
  { apply request_recovery_pending.
    now rewrite mark_slot_failed_other by discriminate. }
  destruct (sd_status _ _); [destruct (other_slot_failed _)|];
    rewrite ?Hm, ?request_recovery_pending by exact Hreq;
    rewrite ?mark_slot_failed_other by discriminate; split; reflexivity.
Qed.

Lemma vb2api_fail_records c R S :
  vb2_nv_get (ensure_nv_init c) VB2_NV_RECOVERY_REQUEST = 0 ->
  sd_status (sd c) VB2_SD_STATUS_CHOSE_SLOT = false
  \/ other_slot_failed c = true ->
  vb2_nv_get (vb2api_fail c R S) VB2_NV_RECOVERY_REQUEST = u8 R
  /\ vb2_nv_get (vb2api_fail c R S) VB2_NV_RECOVERY_SUBCODE = u8 S.
Proof.
  intros H0 Hcase. rewrite vb2api_fail_cases. cbv zeta.
  rewrite sd_status_ensure_nv_init by discriminate.
  rewrite other_slot_failed_ensure_nv_init.
  destruct (sd_status (sd c) VB2_SD_STATUS_CHOSE_SLOT).
  - destruct Hcase as [Hc | ->]; [discriminate|].
    apply request_recovery_records.
    now rewrite mark_slot_failed_other by discriminate.
  - now apply request_recovery_records.
Qed.

Lemma vb2api_fail_falls_back c R S :
  sd_status (sd c) VB2_SD_STATUS_CHOSE_SLOT = true ->
  other_slot_failed c = false ->
  vb2_nv_get (vb2api_fail c R S) VB2_NV_FW_RESULT = VB2_FW_RESULT_FAILURE
  /\ vb2_nv_get (vb2api_fail c R S) VB2_NV_TRY_COUNT = 0
  /\ vb2_nv_get (vb2api_fail c R S) VB2_NV_TRY_NEXT = u32 (1 - fw_slot (sd c))
  /\ vb2_nv_get (vb2api_fail c R S) VB2_NV_RECOVERY_REQUEST
     = vb2_nv_get (ensure_nv_init c) VB2_NV_RECOVERY_REQUEST
  /\ vb2_nv_get (vb2api_fail c R S) VB2_NV_RECOVERY_SUBCODE
     = vb2_nv_get (ensure_nv_init c) VB2_NV_RECOVERY_SUBCODE.
Proof.
  intros Hc Ho. rewrite vb2api_fail_cases. cbv zeta.
  rewrite sd_status_ensure_nv_init by discriminate.
  rewrite other_slot_failed_ensure_nv_init, Hc, Ho.
  destruct (mark_slot_failed_writes (ensure_nv_init c)) as (H1 & H2 & H3).
  rewrite fw_slot_ensure_nv_init in H3.
  split; [exact H1|]. split; [exact H2|]. split; [exact H3|].
  split; apply mark_slot_failed_other; discriminate.
Qed.

End NvFacts.

(** ** The failure helper, the recovery decision and slot selection *)

Section Misc.
Context {K : vb2_constants}.

(** C3, amended.  For all bytes [R] and [S], with the NV fields read once
    [vb2api_fail] has made sure NV is initialised: a pending (non-zero)
    recovery request is never overwritten, request and subcode stay as they
    are; with no request pending, [vb2api_fail(R, S)] sets
    [nv.recovery_request = R] and [nv.recovery_subcode = S] when no slot has
    been chosen yet or the other slot failed on the last boot too; and when
    a slot has been chosen and the other slot did not fail on the last
    boot, it marks the slot as failed ([nv.fw_result] is FAILURE and
    [nv.try_count] is 0), turns to the other slot ([nv.try_next] is
    [1 - fw_slot]) and changes neither the request nor the subcode. *)
Theorem vb2api_fail_recovery_request (c : vb2_context) (R S : Z) :
  let c0 := ensure_nv_init c in
  let c' := vb2api_fail c R S in
  (vb2_nv_get c0 VB2_NV_RECOVERY_REQUEST <> 0 ->
   vb2_nv_get c' VB2_NV_RECOVERY_REQUEST = vb2_nv_get c0 VB2_NV_RECOVERY_REQUEST
   /\ vb2_nv_get c' VB2_NV_RECOVERY_SUBCODE = vb2_nv_get c0 VB2_NV_RECOVERY_SUBCODE)
  /\ (vb2_nv_get c0 VB2_NV_RECOVERY_REQUEST = 0 ->
      sd_status (sd c) VB2_SD_STATUS_CHOSE_SLOT = false
      \/ other_slot_failed c = true ->
      vb2_nv_get c' VB2_NV_RECOVERY_REQUEST = u8 R
      /\ vb2_nv_get c' VB2_NV_RECOVERY_SUBCODE = u8 S)
  /\ (sd_status (sd c) VB2_SD_STATUS_CHOSE_SLOT = true ->
      other_slot_failed c = false ->
      vb2_nv_get c' VB2_NV_FW_RESULT = VB2_FW_RESULT_FAILURE
      /\ vb2_nv_get c' VB2_NV_TRY_COUNT = 0
      /\ vb2_nv_get c' VB2_NV_TRY_NEXT = u32 (1 - fw_slot (sd c))
      /\ vb2_nv_get c' VB2_NV_RECOVERY_REQUEST = vb2_nv_get c0 VB2_NV_RECOVERY_REQUEST
      /\ vb2_nv_get c' VB2_NV_RECOVERY_SUBCODE = vb2_nv_get c0 VB2_NV_RECOVERY_SUBCODE).
Proof.
  intros c0 c'. subst c'. rewrite vb2api_fail_cases. fold c0.
  assert (Hst : sd_status (sd c0) VB2_SD_STATUS_CHOSE_SLOT
                = sd_status (sd c) VB2_SD_STATUS_CHOSE_SLOT)
    by (apply sd_status_ensure_nv_init; discriminate).
  assert (Hos : other_slot_failed c0 = other_slot_failed c)
    by apply other_slot_failed_ensure_nv_init.
  rewrite Hst, Hos.
  assert (Hm : forall p, p = VB2_NV_RECOVERY_REQUEST \/ p = VB2_NV_RECOVERY_SUBCODE ->
                         vb2_nv_get (mark_slot_failed c0) p = vb2_nv_get c0 p)
    by (intros p [-> | ->]; apply mark_slot_failed_other; discriminate).
  split; [|split].
  - intros Hreq.
    destruct (sd_status (sd c) VB2_SD_STATUS_CHOSE_SLOT);
      [destruct (other_slot_failed c)|];
      rewrite ?request_recovery_pending; rewrite ?Hm; auto.
  - intros H0 [Hc | Ho]; rewrite ?Hc, ?Ho.
    + now apply request_recovery_records.
    + destruct (sd_status (sd c) VB2_SD_STATUS_CHOSE_SLOT).
      * apply request_recovery_records. now rewrite Hm by auto.
      * now apply request_recovery_records.
  - intros -> ->.
    destruct (mark_slot_failed_writes c0) as (H1 & H2 & H3).
    subst c0. rewrite fw_slot_ensure_nv_init in H3.
    split; [exact H1|]. split; [exact H2|]. split; [exact H3|].
    split; apply Hm; auto.
Qed.

(** C5, amended.  In every state in which a slot has been chosen,
    [vb2api_fail] sets [nv.fw_result] to FAILURE, [nv.try_count] to 0 and
    [nv.try_next] to the other slot, [1 - fw_slot], whether or not the
    other slot failed on the last boot; unless the other slot failed on the
    last boot, it then returns and requests no recovery: request and
    subcode stay as they are. *)
Theorem vb2api_fail_chosen_slot (c : vb2_context) (R S : Z) :
  sd_status (sd c) VB2_SD_STATUS_CHOSE_SLOT = true ->
  let c' := vb2api_fail c R S in
  vb2_nv_get c' VB2_NV_FW_RESULT = VB2_FW_RESULT_FAILURE
  /\ vb2_nv_get c' VB2_NV_TRY_COUNT = 0
  /\ vb2_nv_get c' VB2_NV_TRY_NEXT = u32 (1 - fw_slot (sd c))
  /\ (other_slot_failed c = false ->
      vb2_nv_get c' VB2_NV_RECOVERY_REQUEST
      = vb2_nv_get (ensure_nv_init c) VB2_NV_RECOVERY_REQUEST
      /\ vb2_nv_get c' VB2_NV_RECOVERY_SUBCODE
         = vb2_nv_get (ensure_nv_init c) VB2_NV_RECOVERY_SUBCODE).
Proof.
  intros Hc c'. subst c'. rewrite vb2api_fail_cases. cbv zeta.
  rewrite sd_status_ensure_nv_init by discriminate. rewrite Hc.
  rewrite other_slot_failed_ensure_nv_init.
  destruct (mark_slot_failed_writes (ensure_nv_init c)) as (H1 & H2 & H3).
  rewrite fw_slot_ensure_nv_init in H3.
  destruct (other_slot_failed c).
  - rewrite !request_recovery_other by discriminate.
    split; [exact H1 | split; [exact H2 | split; [exact H3 | discriminate]]].
  - split; [exact H1 | split; [exact H2 | split; [exact H3 |]]].
    intros _. split; apply mark_slot_failed_other; discriminate.
Qed.

(** C4, amended.  Without the manual-recovery (force-recovery) context
    flag, the resulting reason is the first non-zero of (a) the reason
    already in [SharedState.recovery_reason] and (b) [nv.recovery_request].
    With the flag set, the result is [nv.recovery_subcode] promoted to
    reason when neither (a) nor (b) is set and the subcode is non-zero, and
    [VB2_RECOVERY_RO_MANUAL] in every other case: a forced recovery
    overrides the reasons (a) and (b).  Whenever the resulting reason is
    non-zero the context recovery-mode flag is set. *)
Theorem vb2_check_recovery_reason (c : vb2_context) :
  let c' := vb2_check_recovery c in
  let prior :=
    if recovery_reason (sd c) =? 0
    then vb2_nv_get c VB2_NV_RECOVERY_REQUEST else recovery_reason (sd c) in
  recovery_reason (sd c') =
    (if ctx_flags c VB2_CONTEXT_FORCE_RECOVERY_MODE then
       if (prior =? 0) && negb (vb2_nv_get c VB2_NV_RECOVERY_SUBCODE =? 0)
       then vb2_nv_get c VB2_NV_RECOVERY_SUBCODE
       else VB2_RECOVERY_RO_MANUAL
     else prior)
  /\ (recovery_reason (sd c') <> 0 ->
      ctx_flags c' VB2_CONTEXT_RECOVERY_MODE = true).
Proof.
  cbv zeta. unfold vb2_check_recovery, vb2_nv_get.
  destruct c as [fl nv sf sk s g w]; destruct s; destruct nv as [nvf ok].
  branches.
  all: split; [reflexivity || congruence
              | intros; try reflexivity; try contradiction; congruence].
Qed.

(** C6.  If the last boot's result was TRYING, the slot tried then is
    [nv.try_next] and [nv.try_count] is 0, [vb2_select_fw_slot] selects the
    other slot, [1 - try_next], and rewrites [nv.try_next] to it; from
    try_next = 0, fw_tried = 0, fw_result = TRYING, try_count = 0 the
    selected slot is 1 and [nv.try_next] becomes 1. *)
Theorem vb2_select_fw_slot_falls_back (c : vb2_context) :
  vb2_nv_get c VB2_NV_FW_RESULT = VB2_FW_RESULT_TRYING ->
  vb2_nv_get c VB2_NV_FW_TRIED = vb2_nv_get c VB2_NV_TRY_NEXT ->
  vb2_nv_get c VB2_NV_TRY_COUNT = 0 ->
  let c' := snd (vb2_select_fw_slot c) in
  fst (vb2_select_fw_slot c) = VB2_SUCCESS
  /\ fw_slot (sd c') = u32 (1 - vb2_nv_get c VB2_NV_TRY_NEXT)
  /\ vb2_nv_get c' VB2_NV_TRY_NEXT = u32 (1 - vb2_nv_get c VB2_NV_TRY_NEXT)
  /\ (vb2_nv_get c VB2_NV_TRY_NEXT = 0 ->
      fw_slot (sd c') = 1 /\ vb2_nv_get c' VB2_NV_TRY_NEXT = 1).
Proof.
  intros Hres Htried Hcount c'.
  assert (Hgoal : fw_slot (sd c') = u32 (1 - vb2_nv_get c VB2_NV_TRY_NEXT)
                  /\ vb2_nv_get c' VB2_NV_TRY_NEXT
                     = u32 (1 - vb2_nv_get c VB2_NV_TRY_NEXT)).
  { subst c'. unfold vb2_select_fw_slot. cbv zeta. cbn [snd].
    cbn [on_sd with_sd sd sd_with_last_fw_slot sd_with_last_fw_result
         sd_with_fw_slot sd_update last_fw_slot last_fw_result fw_slot].
    repeat (rewrite ?sd_nv_set;
            cbn [on_sd with_sd sd sd_with_last_fw_slot sd_with_last_fw_result
                 sd_with_fw_slot sd_update last_fw_slot last_fw_result fw_slot]).
    set (c1 := on_sd _ (on_sd _ c)).
    set (c2 := vb2_nv_set (vb2_nv_set (vb2_nv_set c1 _ _) _ _) _ _).
    assert (Hget : forall p, p <> VB2_NV_FW_PREV_TRIED ->
                             p <> VB2_NV_FW_PREV_RESULT ->
                             p <> VB2_NV_FW_RESULT ->
                             vb2_nv_get c2 p = vb2_nv_get c p).
    { intros p H1 H2 H3. subst c2.
      now rewrite !nv_get_set_other by congruence. }
    rewrite !nv_get_on_sd, !Hget by discriminate.
    rewrite Hres, Htried, Hcount, !Z.eqb_refl. cbn [andb Z.ltb Z.compare].
    set (c3 := vb2_nv_set _ VB2_NV_TRY_NEXT _).
    assert (Hslot : fw_slot (sd c3) = u32 (1 - vb2_nv_get c VB2_NV_TRY_NEXT)).
    { subst c3. now rewrite sd_nv_set. }
    assert (Hnext : vb2_nv_get c3 VB2_NV_TRY_NEXT
                    = u32 (1 - vb2_nv_get c VB2_NV_TRY_NEXT)).
    { subst c3. rewrite nv_get_set_same. reflexivity. }
    set (c4 := vb2_nv_set c3 VB2_NV_FW_TRIED _).
    assert (Hslot4 : fw_slot (sd c4) = u32 (1 - vb2_nv_get c VB2_NV_TRY_NEXT)).
    { subst c4. now rewrite sd_nv_set. }
    assert (Hnext4 : vb2_nv_get c4 VB2_NV_TRY_NEXT
                     = u32 (1 - vb2_nv_get c VB2_NV_TRY_NEXT)).
    { subst c4. now rewrite nv_get_set_other by discriminate. }
    destruct (negb (fw_slot (sd c3) =? 0)); split; assumption. }
  destruct Hgoal as [Hs Hn].
  repeat split; try assumption.
  - rewrite Hs, H. reflexivity.
  - rewrite Hn, H. reflexivity.
Qed.

End Misc.

(** ** What the failure helper leaves alone *)

Section FailFrame.
Context {K : vb2_constants}.

Lemma ensure_nv_init_get c p :
  vb2_nv_get (ensure_nv_init c) p = vb2_nv_get c p
  \/ vb2_nv_get (ensure_nv_init c) p = nv_field vb2_nv_defaults p.
Proof.
  unfold ensure_nv_init, vb2_nv_init.
  destruct (sd_status (sd c) VB2_SD_STATUS_NV_INIT); [now left|].
  destruct (nv_crc_ok (nvdata c)); [now left | now right].
Qed.

Lemma vb2api_fail_nv_other c r s p :
  p <> VB2_NV_FW_RESULT -> p <> VB2_NV_TRY_COUNT -> p <> VB2_NV_TRY_NEXT ->
  p <> VB2_NV_RECOVERY_REQUEST -> p <> VB2_NV_RECOVERY_SUBCODE ->
  vb2_nv_get (vb2api_fail c r s) p = vb2_nv_get (ensure_nv_init c) p.
Proof.
  intros H1 H2 H3 H4 H5. rewrite vb2api_fail_cases. cbv zeta.
  destruct (sd_status _ _); [destruct (other_slot_failed _)|];
    rewrite ?request_recovery_other, ?mark_slot_failed_other by assumption;
    reflexivity.
Qed.

(** A field that is zero, and zero by default, is zero after a failure
    was recorded. *)
Lemma vb2api_fail_keeps_zero c r s p :
  p <> VB2_NV_FW_RESULT -> p <> VB2_NV_TRY_COUNT -> p <> VB2_NV_TRY_NEXT ->
  p <> VB2_NV_RECOVERY_REQUEST -> p <> VB2_NV_RECOVERY_SUBCODE ->
  p <> VB2_NV_KERNEL_MAX_ROLLFORWARD ->
  vb2_nv_get c p = 0 -> vb2_nv_get (vb2api_fail c r s) p = 0.
Proof.
  intros H1 H2 H3 H4 H5 H6 Hz. rewrite vb2api_fail_nv_other by assumption.
  destruct (ensure_nv_init_get c p) as [-> | ->]; [exact Hz|].
  destruct p; try reflexivity. contradiction.
Qed.

Lemma secdata_firmware_ensure_nv_init c :
  secdata_firmware (ensure_nv_init c) = secdata_firmware c.
Proof.
  unfold ensure_nv_init, vb2_nv_init.
  destruct (sd_status (sd c) VB2_SD_STATUS_NV_INIT); [reflexivity|].
  now destruct (nv_crc_ok (nvdata c)).
Qed.

Lemma secdata_firmware_request_recovery c r s :
  secdata_firmware (request_recovery c r s) = secdata_firmware c.
Proof.
  unfold request_recovery.
  destruct (vb2_nv_get c VB2_NV_RECOVERY_REQUEST =? 0); [|reflexivity].
  now rewrite !secdata_firmware_nv_set.
Qed.

Lemma secdata_firmware_vb2api_fail c r s :
  secdata_firmware (vb2api_fail c r s) = secdata_firmware c.
Proof.
  rewrite vb2api_fail_cases. cbv zeta. unfold mark_slot_failed.
  destruct (sd_status _ _); [destruct (other_slot_failed _)|];
    rewrite ?secdata_firmware_request_recovery, ?secdata_firmware_nv_set;
    apply secdata_firmware_ensure_nv_init.
Qed.

End FailFrame.

(** ** The TPM owner clear request and the developer switch *)

Section TpmAndDevSwitch.
Context {K : vb2_constants} {W : Type} {H : vb2ex W}.


Lemma disable_dev_boot_flags_zero c p :
  p = VB2_NV_DEV_BOOT_USB \/ p = VB2_NV_DEV_BOOT_LEGACY
  \/ p = VB2_NV_DEV_BOOT_SIGNED_ONLY \/ p = VB2_NV_DEV_DEFAULT_BOOT ->
  vb2_nv_get (disable_dev_boot_flags c) p = 0.
Proof.
  unfold disable_dev_boot_flags. cbv zeta.
  intros [-> | [-> | [-> | ->]]];
    repeat first [apply nv_get_set_same
                 | rewrite nv_get_set_other by discriminate].
Qed.

(** C9.  Whenever [vb2_check_dev_switch] resolves the mode to normal (its
    [is_dev] is 0), it returns with the NV fields [dev_boot_usb],
    [dev_boot_legacy], [dev_boot_signed_only] and [dev_default_boot] all at
    0, whether the call succeeds or the TPM owner clear fails. *)
Theorem vb2_check_dev_switch_normal_mode (m : @machine W) :
  dev_switch_is_dev (m_ctx m) = false ->
  exists rv m',
    vb2_check_dev_switch m = Returned rv m'
    /\ vb2_nv_get (m_ctx m') VB2_NV_DEV_BOOT_USB = 0
    /\ vb2_nv_get (m_ctx m') VB2_NV_DEV_BOOT_LEGACY = 0
    /\ vb2_nv_get (m_ctx m') VB2_NV_DEV_BOOT_SIGNED_ONLY = 0
    /\ vb2_nv_get (m_ctx m') VB2_NV_DEV_DEFAULT_BOOT = 0.
Proof.
  intros Hdev.
  assert (Hz : forall c p,
             p = VB2_NV_DEV_BOOT_USB \/ p = VB2_NV_DEV_BOOT_LEGACY
             \/ p = VB2_NV_DEV_BOOT_SIGNED_ONLY \/ p = VB2_NV_DEV_DEFAULT_BOOT ->
             vb2_nv_get c p = 0 ->
             forall r s, vb2_nv_get (vb2api_fail c r s) p = 0).
  { intros c p Hp Hc r s. apply vb2api_fail_keeps_zero; try exact Hc;
      destruct Hp as [-> | [-> | [-> | ->]]]; discriminate. }
  assert (Hw : forall c p v,
             p = VB2_NV_DEV_BOOT_USB \/ p = VB2_NV_DEV_BOOT_LEGACY
             \/ p = VB2_NV_DEV_BOOT_SIGNED_ONLY \/ p = VB2_NV_DEV_DEFAULT_BOOT ->
             vb2_nv_get (vb2_nv_set c VB2_NV_REQ_WIPEOUT v) p = vb2_nv_get c p).
  { intros c p v Hp. apply nv_get_set_other.
    destruct Hp as [-> | [-> | [-> | ->]]]; discriminate. }
  unfold vb2_check_dev_switch, run, bind, get_ctx, modify_ctx, return_, ret,
    when, tpm_clear_owner.
  rewrite Hdev.
  assert (Hs : forall c f p,
             vb2_nv_get (vb2_secdata_firmware_set_flags c f) p = vb2_nv_get c p)
    by reflexivity.
  destruct (dev_disable_requested (m_ctx m));
    destruct (ctx_flags (m_ctx m) VB2_CONTEXT_FORCE_WIPEOUT_MODE);
    destruct (negb (secdata_firmware_flags_eqb _ _));
    unfold ret; mred;
    try (destruct (vb2ex_tpm_clear_owner _ _) as [rv0 w];
         destruct (sd_status (sd (m_ctx m)) VB2_SD_STATUS_SECDATA_FIRMWARE_INIT
                   && failed rv0));
    mred; do 2 eexists; (split; [reflexivity|]); mred;
    repeat split;
    repeat first [ apply Hz; [tauto|]
                 | rewrite Hs
                 | rewrite Hw by tauto
                 | apply disable_dev_boot_flags_zero; tauto ].
Qed.

End TpmAndDevSwitch.

(** ** Committing NV and secure storage *)

Section Commit.
Context {K : vb2_constants} {W : Type} {H : vb2ex W}.

(** C8, amended.  Outside recovery mode, when the commit fails with a
    secdata-firmware-write or a secdata-kernel-write error,
    [vb2_commit_data] hands the failure to [vb2api_fail] with reason
    [VB2_RECOVERY_RW_TPM_W_ERROR], calls the commit again, exactly once and
    on the context the failure helper left, and returns the error of the
    first commit whatever the second one answers.  What the second commit
    persists depends on the state: a request that is pending stays; with
    none pending, the reason becomes the recovery request when no slot has
    been chosen or the other slot failed on the last boot too; and when a
    slot has been chosen and the other slot did not fail on the last boot,
    the slot is marked as failed, [nv.try_next] turns to the other slot,
    and no recovery reason is recorded.  When the commit fails with an
    nv-write error outside recovery mode, the engine aborts: the call does
    not return. *)
Theorem vb2_commit_data_write_failure (m : @machine W) :
  ctx_flags (m_ctx m) VB2_CONTEXT_RECOVERY_MODE = false ->
  let rv := fst (vb2ex_commit_data (m_ctx m) (m_host m)) in
  let w := snd (vb2ex_commit_data (m_ctx m) (m_host m)) in
  let c0 := ensure_nv_init (m_ctx m) in
  let c1 := vb2api_fail (m_ctx m) VB2_RECOVERY_RW_TPM_W_ERROR (vb2_return_code rv) in
  (rv = VB2_ERROR_SECDATA_FIRMWARE_WRITE \/ rv = VB2_ERROR_SECDATA_KERNEL_WRITE ->
   (exists m',
      vb2_commit_data m = Returned rv m'
      /\ m_trace m' = m_trace m ++ [ExCommitData (m_ctx m); ExCommitData c1]
      /\ m_host m' = snd (vb2ex_commit_data c1 w)
      /\ nvdata (m_ctx m') = nvdata c1)
   /\ (vb2_nv_get c0 VB2_NV_RECOVERY_REQUEST <> 0 ->
       vb2_nv_get c1 VB2_NV_RECOVERY_REQUEST
       = vb2_nv_get c0 VB2_NV_RECOVERY_REQUEST
       /\ vb2_nv_get c1 VB2_NV_RECOVERY_SUBCODE
          = vb2_nv_get c0 VB2_NV_RECOVERY_SUBCODE)
   /\ (vb2_nv_get c0 VB2_NV_RECOVERY_REQUEST = 0 ->
       sd_status (sd (m_ctx m)) VB2_SD_STATUS_CHOSE_SLOT = false
       \/ other_slot_failed (m_ctx m) = true ->
       vb2_nv_get c1 VB2_NV_RECOVERY_REQUEST = u8 VB2_RECOVERY_RW_TPM_W_ERROR
       /\ vb2_nv_get c1 VB2_NV_RECOVERY_SUBCODE = u8 (vb2_return_code rv))
   /\ (sd_status (sd (m_ctx m)) VB2_SD_STATUS_CHOSE_SLOT = true ->
       other_slot_failed (m_ctx m) = false ->
       vb2_nv_get c1 VB2_NV_FW_RESULT = VB2_FW_RESULT_FAILURE
       /\ vb2_nv_get c1 VB2_NV_TRY_COUNT = 0
       /\ vb2_nv_get c1 VB2_NV_TRY_NEXT = u32 (1 - fw_slot (sd (m_ctx m)))
       /\ vb2_nv_get c1 VB2_NV_RECOVERY_REQUEST
          = vb2_nv_get c0 VB2_NV_RECOVERY_REQUEST
       /\ vb2_nv_get c1 VB2_NV_RECOVERY_SUBCODE
          = vb2_nv_get c0 VB2_NV_RECOVERY_SUBCODE))
  /\ (rv = VB2_ERROR_NV_WRITE ->
      exists m',
        vb2_commit_data m = Halted m'
        /\ m_trace m' = m_trace m ++ [ExCommitData (m_ctx m); ExAbort]).
Proof.
  intros Hrec rv w c0 c1. split.
  - intros Hrv.
    split; [|split; [apply vb2api_fail_pending|
             split; [apply vb2api_fail_records | apply vb2api_fail_falls_back]]].
    unfold vb2_commit_data, run, bind, get_ctx, modify_ctx, return_, ret,
      commit_data, VB2_REC_OR_DIE.
    subst c1 w rv.
    destruct (vb2ex_commit_data (m_ctx m) (m_host m)) as [rv w] eqn:E1.
    cbn [fst snd] in *.
    destruct Hrv as [-> | ->]; cbn [failed]; mred; rewrite Hrec; cbn [negb]; mred;
      match goal with
      | |- context [vb2ex_commit_data ?c ?h] =>
          destruct (vb2ex_commit_data c h) as [rv2 w2] eqn:E2
      end; mred;
      (eexists; split; [reflexivity|]; mred;
       split; [now rewrite <- app_assoc|]; split; [reflexivity|];
       now destruct (failed rv2)).
  - unfold vb2_commit_data, run, bind, get_ctx, modify_ctx, return_, ret,
      commit_data, VB2_REC_OR_DIE.
    subst c1 w rv.
    destruct (vb2ex_commit_data (m_ctx m) (m_host m)) as [rv w] eqn:E1.
    cbn [fst snd].
    intros ->. cbn [failed]. mred. rewrite Hrec. mred.
    eexists. split; [reflexivity|]. mred. now rewrite <- app_assoc.
Qed.

End Commit.

(** ** The normal boot path *)

Section NormalBoot.
Context {K : vb2_constants} {W : Type} {H : vb2ex W}.

Lemma limit_rollforward_min_max max_rollforward shared :
  limit_rollforward max_rollforward shared
  = Z.min (kernel_version_tpm shared)
      (Z.max max_rollforward (kernel_version_tpm_start shared)).
Proof.
  unfold limit_rollforward.
  destruct (Z.ltb_spec max_rollforward (kernel_version_tpm_start shared));
    match goal with
    | |- context [?a <? ?b] => destruct (Z.ltb_spec a b)
    end; lia.
Qed.

(** The disk loop comes back: it goes on or returns, and never aborts. *)
Lemma try_disks_returns flags disk_info disks :
  forall rv (m : @machine W), exists rv' m',
    try_disks flags disk_info disks rv m = Next rv' m'
    \/ try_disks flags disk_info disks rv m = Return rv' m'.
Proof.
  induction disks as [|d rest IH]; intros rv m; cbn [try_disks].
  - exists rv, m. now left.
  - destruct (skip_disk flags d); [apply IH|].
    unfold bind, load_kernel, return_, disk_free_info.
    destruct (LoadKernel _ _ _) as [[new_rv c] w].
    destruct (failed new_rv); [apply IH|].
    destruct (VbExDiskFreeInfo _ _ _) as [rvf wf].
    do 2 eexists. right. reflexivity.
Qed.

Lemma VbTryLoadKernel_returns flags (m : @machine W) :
  exists rv m', VbTryLoadKernel flags m = Returned rv m'.
Proof.
  unfold VbTryLoadKernel, run, bind, disk_get_info, disk_free_info, when,
    modify_ctx, ret.
  destruct (VbExDiskGetInfo _ _) as [[rv0 disks] w]. cbn [fst snd].
  match goal with
  | |- context [try_disks ?f ?di ?ds ?r ?m0] =>
      destruct (try_disks_returns f di ds r m0) as (rv' & m' & [E | E]); rewrite E
  end.
  - destruct (negb _); mred; destruct (VbExDiskFreeInfo _ _ _) as [rvf wf];
      do 2 eexists; reflexivity.
  - do 2 eexists; reflexivity.
Qed.

(** C7.  On the normal boot path, with no NV request to reset and a last
    firmware result other than TRYING, [VbBootNormal] leaves in
    [kernel_version_tpm] the minimum of the version the kernel load left
    there and of the maximum of [nv.kernel_max_rollforward] and
    [kernel_version_tpm_start]; when that value is above
    [kernel_version_tpm_start], the version advances, and it is the value
    written to the kernel version counter in secure storage; otherwise
    nothing is written.  The cap never takes the version below
    [kernel_version_tpm_start]. *)
Theorem VbBootNormal_limits_rollforward (m : @machine W) rv m1 :
  vb2_nv_get (m_ctx m) VB2_NV_DISPLAY_REQUEST = 0 ->
  vb2_nv_get (m_ctx m) VB2_NV_DIAG_REQUEST = 0 ->
  VbTryLoadKernel VB_DISK_FLAG_FIXED m = Returned rv m1 ->
  vb2_nv_get (m_ctx m1) VB2_NV_FW_RESULT <> VB2_FW_RESULT_TRYING ->
  let shared := vbsd (sd (m_ctx m1)) in
  let start := kernel_version_tpm_start shared in
  let v := Z.min (kernel_version_tpm shared)
             (Z.max (vb2_nv_get (m_ctx m) VB2_NV_KERNEL_MAX_ROLLFORWARD) start) in
  exists m2,
    VbBootNormal m = Returned rv m2
    /\ kernel_version_tpm (vbsd (sd (m_ctx m2))) = v
    /\ kernel_version_tpm_start (vbsd (sd (m_ctx m2))) = start
    /\ (start < v -> kernel_versions (secdata_kernel (m_ctx m2)) = v)
    /\ (v <= start -> secdata_kernel (m_ctx m2) = secdata_kernel (m_ctx m1))
    /\ (start <= kernel_version_tpm shared -> start <= v).
Proof.
  intros Hdisp Hdiag Htry Hres shared start v.
  assert (Hreset : vb2_reset_nv_requests (m_ctx m) = (false, m_ctx m)).
  { unfold vb2_reset_nv_requests. rewrite Hdisp. cbn [Z.eqb negb].
    now rewrite Hdiag. }
  unfold VbBootNormal, run, bind, get_ctx, modify_ctx, return_, ret, call, when.
  rewrite Hreset. cbn [fst snd].
  destruct m as [c p w t]. mred.
  change (with_ctx c {| m_ctx := c; m_lkp := p; m_host := w; m_trace := t |})
    with {| m_ctx := c; m_lkp := p; m_host := w; m_trace := t |}.
  rewrite Htry.
  destruct (Z.eqb_spec (vb2_nv_get (m_ctx m1) VB2_NV_FW_RESULT) VB2_FW_RESULT_TRYING)
    as [E|_]; [contradiction|].
  rewrite limit_rollforward_min_max. fold shared start v.
  destruct (Z.ltb_spec start v) as [Hlt|Hge]; mred;
    (eexists; split; [reflexivity|]); mred; cbn;
    repeat split; intros; try reflexivity; try lia.
Qed.

End NormalBoot.

(** ** The firmware keyblock and preamble *)

Section Vblock.
Context {K : vb2_constants} {W : Type} {H : vb2ex W} {P : vb2_primitives}.

Lemma reads_only_bind {A B : Type} (x : @vb2 W A) (k : A -> @vb2 W B) :
  reads_only x -> (forall a, reads_only (k a)) -> reads_only (bind x k).
Proof.
  intros Hx Hk m. unfold bind. specialize (Hx m).
  destruct (x m) as [a m'|rv m'|m']; [|exact Hx|exact Hx].
  specialize (Hk a m'). destruct (k a m') as [b m''|rv m''|m''].
  - congruence.
  - now rewrite <- Hx.
  - exact Hk.
Qed.

Lemma reads_only_ret {A : Type} (a : A) : reads_only (@ret W A a).
Proof. intros m. reflexivity. Qed.

Lemma reads_only_get_ctx : reads_only (@get_ctx W).
Proof. intros m. reflexivity. Qed.

Lemma reads_only_return {A : Type} rv :
  failed rv = true -> reads_only (@return_ W A rv).
Proof. intros Hf m. now split. Qed.

Lemma reads_only_alloc r rv :
  failed rv = true -> reads_only (@alloc_or_return W r rv).
Proof. intros Hf m. destruct r as [[p|] wb]; [reflexivity | now split]. Qed.

Lemma reads_only_check rv : reads_only (@check W rv).
Proof. intros m. unfold check. destruct (failed rv) eqn:E; [now split | reflexivity]. Qed.

Lemma reads_only_read index offset size :
  reads_only (read_or_return index offset size).
Proof.
  apply reads_only_bind.
  - intros m. unfold read_resource.
    now destruct (vb2ex_read_resource _ _ _ _ _) as [[rv bytes] w].
  - intros r. apply reads_only_bind; [apply reads_only_check|].
    intros _. apply reads_only_ret.
Qed.

Lemma reads_only_fail rv reason :
  reads_only
    (if failed rv
     then bind (modify_ctx (fun c => vb2api_fail c reason (vb2_return_code rv)))
            (fun _ => @return_ W unit rv)
     else ret tt).
Proof.
  intros m. destruct (failed rv) eqn:E; [|reflexivity].
  split; [exact E|]. apply secdata_firmware_vb2api_fail.
Qed.

Ltac reads_only_steps :=
  repeat first
    [ apply reads_only_ret
    | apply reads_only_get_ctx
    | apply reads_only_read
    | apply reads_only_check
    | apply reads_only_fail
    | apply reads_only_alloc; reflexivity
    | apply reads_only_return; reflexivity
    | apply reads_only_bind; [|intros ?]
    | match goal with
      | |- reads_only (let '(_, _) := ?a in _) => destruct a
      | |- reads_only (if ?b then _ else _) => destruct b
      end ].

Lemma load_fw_keyblock_verify_reads_only : reads_only load_fw_keyblock_verify.
Proof. unfold load_fw_keyblock_verify. reads_only_steps. Qed.

Lemma load_fw_preamble_verify_reads_only : reads_only load_fw_preamble_verify.
Proof. unfold load_fw_preamble_verify. reads_only_steps. Qed.

Lemma fw_keyblock_version_check_rollback c kb :
  is_u32 (fw_version_secdata (sd c)) ->
  key_version (data_key kb) < Z.shiftr (fw_version_secdata (sd c)) 16 ->
  fw_keyblock_version_check c kb
  = if gbb_flags (gbb c) VB2_GBB_FLAG_DISABLE_FW_ROLLBACK_CHECK
    then VB2_SUCCESS else VB2_ERROR_FW_KEYBLOCK_VERSION_ROLLBACK.
Proof.
  intros [Hlo Hhi] Hlt. unfold fw_keyblock_version_check, VB2_MAX_KEY_VERSION.
  assert (Hs : Z.shiftr (fw_version_secdata (sd c)) 16 < 2 ^ 16).
  { rewrite Z.shiftr_div_pow2 by lia.
    apply Z.div_lt_upper_bound; [lia|]. change (2 ^ 16 * 2 ^ 16) with (2 ^ 32). lia. }
  destruct (Z.ltb_spec (2 ^ 16 - 1) (key_version (data_key kb))); [lia|].
  cbn [failed negb andb].
  destruct (Z.ltb_spec (key_version (data_key kb))
              (Z.shiftr (fw_version_secdata (sd c)) 16)); [reflexivity | lia].
Qed.

(** C1, amended.  For every keyblock that is read and verifies against
    the root key, with a data-key version below the upper 16 bits of the
    secdata firmware version ([fw_version_secdata >> 16], a 32-bit value):
    when the GBB flag [DISABLE_FW_ROLLBACK_CHECK] is not set,
    [vb2_load_fw_keyblock] returns [VB2_ERROR_FW_KEYBLOCK_VERSION_ROLLBACK]
    and hands the failure to [vb2api_fail] with reason
    [VB2_RECOVERY_FW_KEY_ROLLBACK].  What that leaves in NV depends on the
    state: a request that is pending stays; with none pending, the reason
    becomes the recovery request when no slot has been chosen or the other
    slot failed on the last boot too; and when a slot has been chosen and
    the other slot did not fail on the last boot, the slot is marked as
    failed, [nv.try_next] turns to the other slot, and no recovery reason
    is recorded.  When the flag is set, the rollback is ignored and the
    call succeeds (the data key lying inside the keyblock, which the
    keyblock verification covers), with the key version in the upper half
    of [sd->fw_version]. *)
Theorem vb2_load_fw_keyblock_rollback (m : @machine W) key_data kb block_size m1 :
  load_fw_keyblock_verify m = Next (key_data, kb, block_size) m1 ->
  is_u32 (fw_version_secdata (sd (m_ctx m))) ->
  key_version (data_key kb) < Z.shiftr (fw_version_secdata (sd (m_ctx m))) 16 ->
  let c0 := ensure_nv_init (m_ctx m) in
  let failure :=
    vb2api_fail (m_ctx m) VB2_RECOVERY_FW_KEY_ROLLBACK
      (vb2_return_code VB2_ERROR_FW_KEYBLOCK_VERSION_ROLLBACK) in
  (gbb_flags (gbb (m_ctx m)) VB2_GBB_FLAG_DISABLE_FW_ROLLBACK_CHECK = false ->
   vb2_load_fw_keyblock m
   = Returned VB2_ERROR_FW_KEYBLOCK_VERSION_ROLLBACK (with_ctx failure m1)
   /\ (vb2_nv_get c0 VB2_NV_RECOVERY_REQUEST <> 0 ->
       vb2_nv_get failure VB2_NV_RECOVERY_REQUEST
       = vb2_nv_get c0 VB2_NV_RECOVERY_REQUEST
       /\ vb2_nv_get failure VB2_NV_RECOVERY_SUBCODE
          = vb2_nv_get c0 VB2_NV_RECOVERY_SUBCODE)
   /\ (vb2_nv_get c0 VB2_NV_RECOVERY_REQUEST = 0 ->
       sd_status (sd (m_ctx m)) VB2_SD_STATUS_CHOSE_SLOT = false
       \/ other_slot_failed (m_ctx m) = true ->
       vb2_nv_get failure VB2_NV_RECOVERY_REQUEST
       = u8 VB2_RECOVERY_FW_KEY_ROLLBACK
       /\ vb2_nv_get failure VB2_NV_RECOVERY_SUBCODE
          = u8 (vb2_return_code VB2_ERROR_FW_KEYBLOCK_VERSION_ROLLBACK))
   /\ (sd_status (sd (m_ctx m)) VB2_SD_STATUS_CHOSE_SLOT = true ->
       other_slot_failed (m_ctx m) = false ->
       vb2_nv_get failure VB2_NV_FW_RESULT = VB2_FW_RESULT_FAILURE
       /\ vb2_nv_get failure VB2_NV_TRY_COUNT = 0
       /\ vb2_nv_get failure VB2_NV_TRY_NEXT = u32 (1 - fw_slot (sd (m_ctx m)))
       /\ vb2_nv_get failure VB2_NV_RECOVERY_REQUEST
          = vb2_nv_get c0 VB2_NV_RECOVERY_REQUEST
       /\ vb2_nv_get failure VB2_NV_RECOVERY_SUBCODE
          = vb2_nv_get c0 VB2_NV_RECOVERY_SUBCODE))
  /\ (gbb_flags (gbb (m_ctx m)) VB2_GBB_FLAG_DISABLE_FW_ROLLBACK_CHECK = true ->
      vb2_verify_packed_key_inside kb block_size (data_key kb) = VB2_SUCCESS ->
      exists m2,
        vb2_load_fw_keyblock m = Returned VB2_SUCCESS m2
        /\ fw_version (sd (m_ctx m2)) = u32 (Z.shiftl (key_version (data_key kb)) 16)
        /\ nvdata (m_ctx m2) = nvdata (m_ctx m)).
Proof.
  intros Hv Hu Hlt c0 failure.
  assert (Hctx : m_ctx m1 = m_ctx m).
  { pose proof (load_fw_keyblock_verify_reads_only m) as Hr.
    now rewrite Hv in Hr. }
  pose proof (fw_keyblock_version_check_rollback (m_ctx m) kb Hu Hlt) as Hchk.
  unfold vb2_load_fw_keyblock, run, bind. rewrite Hv.
  unfold load_fw_keyblock_accept, bind, get_ctx, modify_ctx, return_, ret, check.
  rewrite Hctx, Hchk. split.
  - intros Hflag. rewrite Hflag. cbn [failed]. mred. rewrite Hctx.
    split; [reflexivity|].
    split; [apply vb2api_fail_pending|].
    split; [apply vb2api_fail_records | apply vb2api_fail_falls_back].
  - intros Hflag Hinside. rewrite Hflag. cbn [failed]. mred.
    rewrite Hinside. cbn [failed]. mred.
    eexists. split; [reflexivity|]. mred. rewrite Hctx. split; reflexivity.
Qed.


End Vblock.

(** * The engine on the sample platform *)

Section Scenarios.
#[local] Existing Instance sample_constants.
#[local] Existing Instance sample_primitives.
#[local] Existing Instance sample_host.

(** ** The failure helper *)

(** C3 fails as worded: slot A has been chosen and no recovery request is
    pending; [vb2api_fail(0x14, 5)] marks the slot as failed, turns to slot
    B and returns, and the request is still 0, not 0x14. *)
Lemma failure_handler_as_worded_fails :
  sd_status (sd sample_chose_slot) VB2_SD_STATUS_CHOSE_SLOT = true
  /\ vb2_nv_get sample_chose_slot VB2_NV_RECOVERY_REQUEST = 0
  /\ vb2_nv_get (vb2api_fail sample_chose_slot 0x14 5) VB2_NV_RECOVERY_REQUEST = 0
  /\ ~ failure_handler_as_worded sample_chose_slot 0x14 5.
Proof.
  assert (H0 : vb2_nv_get sample_chose_slot VB2_NV_RECOVERY_REQUEST = 0)
    by (vm_compute; reflexivity).
  split; [vm_compute; reflexivity|].
  split; [exact H0|]. split; [vm_compute; reflexivity|].
  intros [Hset _]. destruct (Hset H0) as [Hreq _].
  vm_compute in Hreq. discriminate Hreq.
Qed.

(** C5 fails as worded: slot A has been chosen, slot B failed on the last
    boot and [nv.try_next] is 0; [vb2api_fail] sets [nv.try_next] to 1 all
    the same (and goes on to request recovery). *)
Lemma slot_failure_as_worded_fails :
  sd_status (sd sample_both_failing) VB2_SD_STATUS_CHOSE_SLOT = true
  /\ other_slot_failed sample_both_failing = true
  /\ vb2_nv_get sample_both_failing VB2_NV_TRY_NEXT = 0
  /\ vb2_nv_get (vb2api_fail sample_both_failing 0x14 5) VB2_NV_TRY_NEXT = 1
  /\ ~ slot_failure_as_worded sample_both_failing 0x14 5.
Proof.
  split; [vm_compute; reflexivity|].
  split; [vm_compute; reflexivity|]. split; [vm_compute; reflexivity|].
  split; [vm_compute; reflexivity|].
  intros (_ & _ & Hnext). vm_compute in Hnext. discriminate Hnext.
Qed.

Lemma vb2api_fail_chosen_slot_witness :
  let c' := vb2api_fail sample_both_failing 0x14 5 in
  vb2_nv_get c' VB2_NV_FW_RESULT = VB2_FW_RESULT_FAILURE
  /\ vb2_nv_get c' VB2_NV_TRY_COUNT = 0
  /\ vb2_nv_get c' VB2_NV_TRY_NEXT = 1.
Proof.
  assert (Hc : sd_status (sd sample_both_failing) VB2_SD_STATUS_CHOSE_SLOT = true)
    by (vm_compute; reflexivity).
  destruct (vb2api_fail_chosen_slot sample_both_failing 0x14 5 Hc)
    as (Hres & Hcount & Hnext & _).
  exact (conj Hres (conj Hcount Hnext)).
Defined.

(** ** The recovery decision *)

(** C4 fails as worded: with the recovery button held and a request
    0x2b left in NV by the last boot, the order as worded gives 0x2b, rule
    (b); [vb2_check_recovery] gives [VB2_RECOVERY_RO_MANUAL]. *)
Lemma recovery_reason_as_worded_fails :
  recovery_reason_as_worded sample_manual_recovery = 0x2b
  /\ recovery_reason (sd (vb2_check_recovery sample_manual_recovery))
     = VB2_RECOVERY_RO_MANUAL
  /\ recovery_reason (sd (vb2_check_recovery sample_manual_recovery))
     <> recovery_reason_as_worded sample_manual_recovery.
Proof.
  split; [vm_compute; reflexivity|]. split; [vm_compute; reflexivity|].
  vm_compute. discriminate.
Qed.

(** ** Slot selection *)

Lemma vb2_select_fw_slot_falls_back_witness :
  fw_slot (sd (snd (vb2_select_fw_slot sample_tries_exhausted))) = 1
  /\ vb2_nv_get (snd (vb2_select_fw_slot sample_tries_exhausted)) VB2_NV_TRY_NEXT = 1.
Proof.
  assert (Hres : vb2_nv_get sample_tries_exhausted VB2_NV_FW_RESULT
                 = VB2_FW_RESULT_TRYING)
    by (vm_compute; reflexivity).
  assert (Htried : vb2_nv_get sample_tries_exhausted VB2_NV_FW_TRIED
                   = vb2_nv_get sample_tries_exhausted VB2_NV_TRY_NEXT)
    by (vm_compute; reflexivity).
  assert (Hcount : vb2_nv_get sample_tries_exhausted VB2_NV_TRY_COUNT = 0)
    by (vm_compute; reflexivity).
  assert (Hnext : vb2_nv_get sample_tries_exhausted VB2_NV_TRY_NEXT = 0)
    by (vm_compute; reflexivity).
  destruct (vb2_select_fw_slot_falls_back sample_tries_exhausted
              Hres Htried Hcount) as (_ & _ & _ & Hzero).
  exact (Hzero Hnext).
Defined.

(** ** The firmware keyblock *)

(** C1 fails as worded: slot A has been chosen, the other slot has not
    failed and no recovery request is pending; the keyblock, with data-key
    version 1 against version 2.2 in secure storage, verifies and is
    refused as a rollback, and the recovery request in NV is still 0: the
    failure helper has marked slot A as failed and turned to slot B. *)
Lemma keyblock_rollback_as_worded_fails :
  load_fw_keyblock_verify sample_rollback_after_selection
  = Next (64, firstn 16 (sample_vblock 1 2), 16)
      (machine_of_step (load_fw_keyblock_verify sample_rollback_after_selection))
  /\ key_version (data_key (firstn 16 (sample_vblock 1 2))) = 1
  /\ Z.shiftr (vb2_secdata_firmware_get_versions
                 (m_ctx sample_rollback_after_selection)) 16 = 2
  /\ gbb_flags (gbb (m_ctx sample_rollback_after_selection))
       VB2_GBB_FLAG_DISABLE_FW_ROLLBACK_CHECK = false
  /\ vb2_nv_get (m_ctx sample_rollback_after_selection)
       VB2_NV_RECOVERY_REQUEST = 0
  /\ vb2_load_fw_keyblock sample_rollback_after_selection
     = Returned VB2_ERROR_FW_KEYBLOCK_VERSION_ROLLBACK
         (machine_of (vb2_load_fw_keyblock sample_rollback_after_selection))
  /\ vb2_nv_get
       (m_ctx (machine_of (vb2_load_fw_keyblock sample_rollback_after_selection)))
       VB2_NV_RECOVERY_REQUEST = 0
  /\ ~ keyblock_rollback_as_worded sample_rollback_after_selection.
Proof.
  assert (Hv : load_fw_keyblock_verify sample_rollback_after_selection
               = Next (64, firstn 16 (sample_vblock 1 2), 16)
                   (machine_of_step
                      (load_fw_keyblock_verify sample_rollback_after_selection)))
    by (vm_compute; reflexivity).
  assert (Hret : vb2_load_fw_keyblock sample_rollback_after_selection
                 = Returned VB2_ERROR_FW_KEYBLOCK_VERSION_ROLLBACK
                     (machine_of
                        (vb2_load_fw_keyblock sample_rollback_after_selection)))
    by (vm_compute; reflexivity).
  assert (Hreq : vb2_nv_get
                   (m_ctx (machine_of
                             (vb2_load_fw_keyblock sample_rollback_after_selection)))
                   VB2_NV_RECOVERY_REQUEST = 0)
    by (vm_compute; reflexivity).
  split; [exact Hv|]. split; [vm_compute; reflexivity|].
  split; [vm_compute; reflexivity|]. split; [reflexivity|].
  split; [vm_compute; reflexivity|]. split; [exact Hret|]. split; [exact Hreq|].
  intros Hw.
  assert (Hlt : key_version (data_key (firstn 16 (sample_vblock 1 2)))
                < Z.shiftr (vb2_secdata_firmware_get_versions
                              (m_ctx sample_rollback_after_selection)) 16)
    by (vm_compute; reflexivity).
  specialize (Hw _ _ _ _ Hv Hlt).
  change (gbb_flags (gbb (m_ctx sample_rollback_after_selection))
            VB2_GBB_FLAG_DISABLE_FW_ROLLBACK_CHECK) with false in Hw.
  destruct Hw as (m' & Hret' & Hreq').
  rewrite Hret in Hret'. injection Hret' as Hm.
  rewrite <- Hm in Hreq'. vm_compute in Hreq'. discriminate Hreq'.
Qed.

(** The theorem on that state: the rollback error is returned, slot A is
    marked as failed, [nv.try_next] is slot B and no request is recorded.
    And on the state before a slot is chosen: the request is 0x14. *)
Lemma vb2_load_fw_keyblock_rollback_witness :
  (let failure :=
     vb2api_fail (m_ctx sample_rollback_after_selection)
       VB2_RECOVERY_FW_KEY_ROLLBACK
       (vb2_return_code VB2_ERROR_FW_KEYBLOCK_VERSION_ROLLBACK) in
   vb2_load_fw_keyblock sample_rollback_after_selection
   = Returned VB2_ERROR_FW_KEYBLOCK_VERSION_ROLLBACK
       (with_ctx failure
          (machine_of_step
             (load_fw_keyblock_verify sample_rollback_after_selection)))
   /\ vb2_nv_get failure VB2_NV_FW_RESULT = VB2_FW_RESULT_FAILURE
   /\ vb2_nv_get failure VB2_NV_TRY_NEXT = 1
   /\ vb2_nv_get failure VB2_NV_RECOVERY_REQUEST = 0)
  /\ (let failure :=
        vb2api_fail (m_ctx (sample_boot 1 2)) VB2_RECOVERY_FW_KEY_ROLLBACK
          (vb2_return_code VB2_ERROR_FW_KEYBLOCK_VERSION_ROLLBACK) in
      vb2_load_fw_keyblock (sample_boot 1 2)
      = Returned VB2_ERROR_FW_KEYBLOCK_VERSION_ROLLBACK
          (with_ctx failure
             (machine_of_step (load_fw_keyblock_verify (sample_boot 1 2))))
      /\ vb2_nv_get failure VB2_NV_RECOVERY_REQUEST = 0x14).
Proof.
  split.
  - assert (Hu : is_u32 (fw_version_secdata
                           (sd (m_ctx sample_rollback_after_selection))))
      by (unfold is_u32; vm_compute; split; [discriminate | reflexivity]).
    assert (Hv : load_fw_keyblock_verify sample_rollback_after_selection
                 = Next (64, firstn 16 (sample_vblock 1 2), 16)
                     (machine_of_step
                        (load_fw_keyblock_verify sample_rollback_after_selection)))
      by (vm_compute; reflexivity).
    assert (Hlt : key_version (data_key (firstn 16 (sample_vblock 1 2)))
                  < Z.shiftr (fw_version_secdata
                                (sd (m_ctx sample_rollback_after_selection))) 16)
      by (vm_compute; reflexivity).
    destruct (vb2_load_fw_keyblock_rollback sample_rollback_after_selection 64
                (firstn 16 (sample_vblock 1 2)) 16
                (machine_of_step
                   (load_fw_keyblock_verify sample_rollback_after_selection))
                Hv Hu Hlt) as [Hfail _].
    assert (Hf : gbb_flags (gbb (m_ctx sample_rollback_after_selection))
                   VB2_GBB_FLAG_DISABLE_FW_ROLLBACK_CHECK = false)
      by reflexivity.
    destruct (Hfail Hf) as (Hret & _ & _ & Hslot).
    assert (H1 : sd_status (sd (m_ctx sample_rollback_after_selection))
                   VB2_SD_STATUS_CHOSE_SLOT = true)
      by (vm_compute; reflexivity).
    assert (H2 : other_slot_failed (m_ctx sample_rollback_after_selection) = false)
      by (vm_compute; reflexivity).
    destruct (Hslot H1 H2) as (Hres & _ & Hnext & Hreq & _).
    split; [exact Hret|]. split; [exact Hres|].
    split; [rewrite Hnext; vm_compute; reflexivity|].
    rewrite Hreq. vm_compute. reflexivity.
  - assert (Hu : is_u32 (fw_version_secdata (sd (m_ctx (sample_boot 1 2)))))
      by (unfold is_u32; vm_compute; split; [discriminate | reflexivity]).
    assert (Hv : load_fw_keyblock_verify (sample_boot 1 2)
                 = Next (64, firstn 16 (sample_vblock 1 2), 16)
                     (machine_of_step (load_fw_keyblock_verify (sample_boot 1 2))))
      by (vm_compute; reflexivity).
    assert (Hlt : key_version (data_key (firstn 16 (sample_vblock 1 2)))
                  < Z.shiftr (fw_version_secdata (sd (m_ctx (sample_boot 1 2)))) 16)
      by (vm_compute; reflexivity).
    destruct (vb2_load_fw_keyblock_rollback (sample_boot 1 2) 64
                (firstn 16 (sample_vblock 1 2)) 16
                (machine_of_step (load_fw_keyblock_verify (sample_boot 1 2)))
                Hv Hu Hlt) as [Hfail _].
    assert (Hf : gbb_flags (gbb (m_ctx (sample_boot 1 2)))
                   VB2_GBB_FLAG_DISABLE_FW_ROLLBACK_CHECK = false)
      by reflexivity.
    destruct (Hfail Hf) as (Hret & _ & Hrec & _).
    assert (H0 : vb2_nv_get (ensure_nv_init (m_ctx (sample_boot 1 2)))
                   VB2_NV_RECOVERY_REQUEST = 0)
      by (vm_compute; reflexivity).
    assert (H1 : sd_status (sd (m_ctx (sample_boot 1 2)))
                   VB2_SD_STATUS_CHOSE_SLOT = false)
      by (vm_compute; reflexivity).
    destruct (Hrec H0 (or_introl H1)) as [Hr _].
    split; [exact Hret | exact Hr].
Defined.

(** With the GBB flag set, the same keyblock is accepted. *)
Example fw_keyblock_rollback_check_disabled :
  let m := with_ctx (sample_no_rollback_check sample_ctx) (sample_boot 1 2) in
  vb2_load_fw_keyblock m = Returned VB2_SUCCESS (machine_of (vb2_load_fw_keyblock m))
  /\ fw_version (sd (m_ctx (machine_of (vb2_load_fw_keyblock m)))) = 0x10000.
Proof. split; vm_compute; reflexivity. Qed.

(** ** The firmware preamble *)


(** Version 2.2 on version 2.2: nothing is written. *)
Example fw_preamble_same_version :
  let m := sample_after_keyblock 2 2 in
  let m' := machine_of (vb2_load_fw_preamble m) in
  vb2_load_fw_preamble m = Returned VB2_SUCCESS m'
  /\ fw_version (sd (m_ctx m')) = 0x20002
  /\ fw_versions (secdata_firmware (m_ctx m')) = 0x20002
  /\ ctx_flags (m_ctx m') VB2_CONTEXT_SECDATA_FIRMWARE_CHANGED = false.
Proof.
  split; [|split; [|split]]; vm_compute; reflexivity.
Qed.

(** Version 2.3 after a good boot of the same slot: the counter rolls
    forward. *)
Example fw_preamble_rolls_forward :
  let m := sample_after_keyblock 2 3 in
  let m' := machine_of (vb2_load_fw_preamble m) in
  vb2_load_fw_preamble m = Returned VB2_SUCCESS m'
  /\ fw_versions (secdata_firmware (m_ctx m')) = 0x20003.
Proof. split; vm_compute; reflexivity. Qed.

(** Version 2.3 after a boot of the other slot: the counter stays. *)
Example fw_preamble_other_slot :
  let m :=
    with_ctx (on_sd (sd_with_last_fw_slot 1) (m_ctx (sample_after_keyblock 2 3)))
      (sample_after_keyblock 2 3) in
  let m' := machine_of (vb2_load_fw_preamble m) in
  vb2_load_fw_preamble m = Returned VB2_SUCCESS m'
  /\ fw_versions (secdata_firmware (m_ctx m')) = 0x20002.
Proof. split; vm_compute; reflexivity. Qed.

(** Version 2.1: a rollback, and the counter stays. *)
Example fw_preamble_rollback :
  let m := sample_after_keyblock 2 1 in
  let m' := machine_of (vb2_load_fw_preamble m) in
  vb2_load_fw_preamble m = Returned VB2_ERROR_FW_PREAMBLE_VERSION_ROLLBACK m'
  /\ fw_versions (secdata_firmware (m_ctx m')) = 0x20002.
Proof. split; vm_compute; reflexivity. Qed.

(** ** The normal boot path *)

(** A kernel of version 1.5 is found, the counter starts at 1.1 and NV
    limits the roll-forward to 1.3: 1.3 is written. *)
Lemma VbBootNormal_limits_rollforward_witness :
  exists m2,
    VbBootNormal sample_new_kernel = Returned VB2_SUCCESS m2
    /\ kernel_version_tpm (vbsd (sd (m_ctx m2))) = 0x10003
    /\ kernel_versions (secdata_kernel (m_ctx m2)) = 0x10003.
Proof.
  assert (Hdisp : vb2_nv_get (m_ctx sample_new_kernel) VB2_NV_DISPLAY_REQUEST = 0)
    by (vm_compute; reflexivity).
  assert (Hdiag : vb2_nv_get (m_ctx sample_new_kernel) VB2_NV_DIAG_REQUEST = 0)
    by (vm_compute; reflexivity).
  assert (Htry : VbTryLoadKernel VB_DISK_FLAG_FIXED sample_new_kernel
                 = Returned VB2_SUCCESS
                     (machine_of (VbTryLoadKernel VB_DISK_FLAG_FIXED sample_new_kernel)))
    by (vm_compute; reflexivity).
  assert (Hres : vb2_nv_get
                   (m_ctx (machine_of (VbTryLoadKernel VB_DISK_FLAG_FIXED sample_new_kernel)))
                   VB2_NV_FW_RESULT <> VB2_FW_RESULT_TRYING)
    by (vm_compute; discriminate).
  destruct (VbBootNormal_limits_rollforward sample_new_kernel VB2_SUCCESS _
              Hdisp Hdiag Htry Hres) as (m2 & Hret & Hv & _ & Hw & _).
  exists m2. split; [exact Hret|]. split; [exact Hv|].
  apply Hw. vm_compute. reflexivity.
Defined.

(** ** Committing *)

(** C8 fails as worded: slot A has been chosen, the other slot has not
    failed and no recovery request is pending; the first commit cannot
    write the kernel secure storage, the commit is made a second time, and
    the context it is made on has the recovery request still at 0: the
    failure helper has marked slot A as failed and turned to slot B. *)
Lemma commit_failure_as_worded_fails :
  ctx_flags (m_ctx sample_commit_fails_after_selection)
    VB2_CONTEXT_RECOVERY_MODE = false
  /\ fst (vb2ex_commit_data (m_ctx sample_commit_fails_after_selection)
            (m_host sample_commit_fails_after_selection))
     = VB2_ERROR_SECDATA_KERNEL_WRITE
  /\ vb2_nv_get (m_ctx sample_commit_fails_after_selection)
       VB2_NV_RECOVERY_REQUEST = 0
  /\ vb2_commit_data sample_commit_fails_after_selection
     = Returned VB2_ERROR_SECDATA_KERNEL_WRITE
         (machine_of (vb2_commit_data sample_commit_fails_after_selection))
  /\ (exists c1,
        m_trace (machine_of (vb2_commit_data sample_commit_fails_after_selection))
        = [ExCommitData (m_ctx sample_commit_fails_after_selection);
           ExCommitData c1]
        /\ vb2_nv_get c1 VB2_NV_RECOVERY_REQUEST = 0)
  /\ ~ commit_failure_as_worded sample_commit_fails_after_selection.
Proof.
  assert (Hret : vb2_commit_data sample_commit_fails_after_selection
                 = Returned VB2_ERROR_SECDATA_KERNEL_WRITE
                     (machine_of
                        (vb2_commit_data sample_commit_fails_after_selection)))
    by (vm_compute; reflexivity).
  assert (Htrace :
            m_trace (machine_of (vb2_commit_data sample_commit_fails_after_selection))
            = [ExCommitData (m_ctx sample_commit_fails_after_selection);
               ExCommitData
                 (vb2api_fail (m_ctx sample_commit_fails_after_selection)
                    VB2_RECOVERY_RW_TPM_W_ERROR
                    (vb2_return_code VB2_ERROR_SECDATA_KERNEL_WRITE))])
    by (vm_compute; reflexivity).
  assert (Hreq : vb2_nv_get
                   (vb2api_fail (m_ctx sample_commit_fails_after_selection)
                      VB2_RECOVERY_RW_TPM_W_ERROR
                      (vb2_return_code VB2_ERROR_SECDATA_KERNEL_WRITE))
                   VB2_NV_RECOVERY_REQUEST = 0)
    by (vm_compute; reflexivity).
  split; [vm_compute; reflexivity|]. split; [vm_compute; reflexivity|].
  split; [vm_compute; reflexivity|]. split; [exact Hret|].
  split; [eexists; split; [exact Htrace | exact Hreq]|].
  intros Hw. destruct (Hw eq_refl) as [Hsec _].
  destruct (Hsec (or_intror eq_refl)) as (c1 & m' & Hret' & Htrace' & Hreq').
  rewrite Hret in Hret'. injection Hret' as Hm.
  rewrite <- Hm in Htrace'. vm_compute in Htrace'.
  injection Htrace' as Hc1.
  rewrite <- Hc1 in Hreq'. vm_compute in Hreq'. discriminate Hreq'.
Qed.

(** The theorem on that state: the first error is returned after exactly
    two commits, slot A is marked as failed and no request is recorded.
    And on the state before a slot is chosen: the request 0x55 is in NV
    when the second commit runs. *)
Lemma vb2_commit_data_write_failure_witness :
  (exists m',
     vb2_commit_data sample_commit_fails_after_selection
     = Returned VB2_ERROR_SECDATA_KERNEL_WRITE m'
     /\ length (m_trace m') = 2%nat
     /\ nv_field (nvdata (m_ctx m')) VB2_NV_FW_RESULT = VB2_FW_RESULT_FAILURE
     /\ nv_field (nvdata (m_ctx m')) VB2_NV_RECOVERY_REQUEST = 0)
  /\ (exists m',
        vb2_commit_data (sample_commit_fails VB2_ERROR_SECDATA_KERNEL_WRITE)
        = Returned VB2_ERROR_SECDATA_KERNEL_WRITE m'
        /\ length (m_trace m') = 2%nat
        /\ nv_field (nvdata (m_ctx m')) VB2_NV_RECOVERY_REQUEST = 0x55).
Proof.
  split.
  - assert (Hrec : ctx_flags (m_ctx sample_commit_fails_after_selection)
                     VB2_CONTEXT_RECOVERY_MODE = false)
      by (vm_compute; reflexivity).
    destruct (vb2_commit_data_write_failure
                sample_commit_fails_after_selection Hrec) as [Hsec _].
    destruct (Hsec (or_intror eq_refl))
      as ((m' & Hret & Htrace & _ & Hnv) & _ & _ & _).
    exists m'. split; [exact Hret|]. split; [rewrite Htrace; reflexivity|].
    rewrite Hnv. split; vm_compute; reflexivity.
  - assert (Hrec : ctx_flags
                     (m_ctx (sample_commit_fails VB2_ERROR_SECDATA_KERNEL_WRITE))
                     VB2_CONTEXT_RECOVERY_MODE = false)
      by (vm_compute; reflexivity).
    destruct (vb2_commit_data_write_failure
                (sample_commit_fails VB2_ERROR_SECDATA_KERNEL_WRITE) Hrec)
      as [Hsec _].
    destruct (Hsec (or_intror eq_refl))
      as ((m' & Hret & Htrace & _ & Hnv) & _ & _ & _).
    exists m'. split; [exact Hret|]. split; [rewrite Htrace; reflexivity|].
    rewrite Hnv. vm_compute. reflexivity.
Defined.

(** An nv-write failure outside recovery mode: the engine aborts. *)
Example commit_nv_write_halts :
  let m := sample_commit_fails VB2_ERROR_NV_WRITE in
  vb2_commit_data m = Halted (machine_of (vb2_commit_data m))
  /\ last (m_trace (machine_of (vb2_commit_data m))) ExAbort = ExAbort.
Proof. split; vm_compute; reflexivity. Qed.

(** ** The developer switch and the TPM owner clear *)

Lemma vb2_check_dev_switch_normal_mode_witness :
  vb2_nv_get (m_ctx sample_leaving_dev) VB2_NV_DEV_BOOT_USB = 1
  /\ exists rv m',
       vb2_check_dev_switch sample_leaving_dev = Returned rv m'
       /\ vb2_nv_get (m_ctx m') VB2_NV_DEV_BOOT_USB = 0
       /\ vb2_nv_get (m_ctx m') VB2_NV_DEV_BOOT_LEGACY = 0
       /\ vb2_nv_get (m_ctx m') VB2_NV_DEV_BOOT_SIGNED_ONLY = 0
       /\ vb2_nv_get (m_ctx m') VB2_NV_DEV_DEFAULT_BOOT = 0.
Proof.
  assert (Hdev : dev_switch_is_dev (m_ctx sample_leaving_dev) = false)
    by (vm_compute; reflexivity).
  split; [vm_compute; reflexivity|].
  exact (vb2_check_dev_switch_normal_mode sample_leaving_dev Hdev).
Defined.


End Scenarios.

(** * Message digests *)

Section DigestFacts.
Context {St : Type} {SHA : vb2_sha St} {HN : vb2_hash_numbering}.

Lemma bytes_eqb_refl (a : list Z) : bytes_eqb a a = true.
Proof. induction a as [|x a IH]; [reflexivity|]. cbn. now rewrite Z.eqb_refl. Qed.

Lemma bytes_eqb_eq (a b : list Z) : bytes_eqb a b = true <-> a = b.
Proof.
  split; [|intros ->; apply bytes_eqb_refl].
  revert b. induction a as [|x a IH]; intros [|y b]; cbn; try discriminate.
  - reflexivity.
  - intros Hxy. apply andb_prop in Hxy. destruct Hxy as [Hx Ha].
    apply Z.eqb_eq in Hx. subst y. f_equal. now apply IH.
Qed.

Lemma digest_of_length (alg : vb2_hash_algorithm) (buf : list Z) (size : Z) :
  Z.of_nat (length (digest_of alg buf size)) = vb2_digest_size alg.
Proof.
  destruct alg; cbn [digest_of vb2_digest_size]; try reflexivity.
  - apply vb2_sha1_digest_length.
  - apply vb2_sha256_digest_length.
  - apply vb2_sha512_digest_length.
Qed.

(** [vb2_digest_buffer], by cases. *)
Lemma vb2_digest_buffer_cases (dc : vb2_digest_context St) (buf : list Z)
    (size : Z) (alg : vb2_hash_algorithm) (digest : list Z) (digest_size : Z) :
  vb2_digest_buffer dc buf size alg digest digest_size =
    if vb2_digest_size alg =? 0 then (VB2_ERROR_SHA_INIT_ALGORITHM, digest)
    else if u32 digest_size <? vb2_digest_size alg
    then (VB2_ERROR_SHA_FINALIZE_DIGEST_SIZE, digest)
    else (VB2_SUCCESS, write_digest (digest_of alg buf size) digest).
Proof.
  unfold vb2_digest_buffer, vb2_digest_init, vb2_digest_extend,
    vb2_digest_finalize.
  destruct alg; cbn [hash_alg dc_sha using_hwcrypto failed vb2_digest_size
                     digest_of Z.eqb VB2_SHA1_DIGEST_SIZE VB2_SHA256_DIGEST_SIZE
                     VB2_SHA512_DIGEST_SIZE VB2_ERROR_SHA_INIT_ALGORITHM];
    try reflexivity.
  - destruct (u32 digest_size <? VB2_SHA1_DIGEST_SIZE); [reflexivity|].
    now destruct (vb2_sha1_finalize _).
  - destruct (u32 digest_size <? VB2_SHA256_DIGEST_SIZE); [reflexivity|].
    now destruct (vb2_sha256_finalize _).
  - destruct (u32 digest_size <? VB2_SHA512_DIGEST_SIZE); [reflexivity|].
    now destruct (vb2_sha512_finalize _).
Qed.

Lemma vb2_digest_size_range (alg : vb2_hash_algorithm) :
  0 <= vb2_digest_size alg <= VB2_MAX_DIGEST_SIZE.
Proof. destruct alg; cbv; split; discriminate. Qed.

Lemma u32_vb2_digest_size (alg : vb2_hash_algorithm) :
  u32 (vb2_digest_size alg) = vb2_digest_size alg.
Proof. now destruct alg. Qed.

Lemma firstn_write_digest (d buffer : list Z) :
  firstn (length d) (write_digest d buffer) = d.
Proof.
  unfold write_digest. rewrite firstn_app, Nat.sub_diag, firstn_all.
  cbn [firstn]. apply app_nil_r.
Qed.

(** X1.  [vb2_crypto_to_hash] knows the crypto algorithms 0 to 17 and no
    other: its answer is [VB2_HASH_INVALID] exactly when the argument, a
    32-bit value, is 18 or more; below 18 the hash is SHA1, SHA256 or
    SHA512 as the algorithm number is 0, 1 or 2 modulo 3, so that every
    known crypto algorithm has a hash with a non-zero digest size. *)
Theorem vb2_crypto_to_hash_known (algorithm : Z) :
  let a := u32 algorithm in
  vb2_crypto_to_hash algorithm
  = (if a <? 18
     then match a mod 3 with
          | 0 => VB2_HASH_SHA1
          | 1 => VB2_HASH_SHA256
          | _ => VB2_HASH_SHA512
          end
     else VB2_HASH_INVALID)
  /\ (vb2_crypto_to_hash algorithm = VB2_HASH_INVALID <-> 18 <= a)
  /\ (vb2_digest_size (vb2_crypto_to_hash algorithm) = 0 <-> 18 <= a).
Proof.
  intros a. unfold vb2_crypto_to_hash. fold a.
  assert (Ha : 0 <= a) by (apply Z.mod_pos_bound; reflexivity).
  change (Z.of_nat (length crypto_to_hash)) with 18.
  destruct (Z.ltb_spec a 18) as [Hlt|Hge].
  - assert (Hn : exists n, a = Z.of_nat n /\ (n < 18)%nat)
      by (exists (Z.to_nat a); split; lia).
    destruct Hn as (n & -> & Hn). rewrite Nat2Z.id.
    do 18 (destruct n as [|n];
           [cbn; (split; [reflexivity|]);
            split; (split; [discriminate | lia])|]).
    lia.
  - split; [reflexivity|]. split; (split; [intros _; exact Hge | reflexivity]).
Qed.

(** X2.  The digest functions agree on which algorithms exist:
    [vb2_digest_init] succeeds exactly for the algorithms with a non-zero
    digest size, which are those with a non-zero block size; for any other
    it returns [VB2_ERROR_SHA_INIT_ALGORITHM] and leaves the hash state
    alone.  A digest size is at most [VB2_MAX_DIGEST_SIZE], the size of the
    buffer [vb2_hash_verify] keeps, and at most the block size. *)
Theorem vb2_digest_init_supported (dc : vb2_digest_context St)
    (alg : vb2_hash_algorithm) :
  (fst (vb2_digest_init dc alg) = VB2_SUCCESS <-> vb2_digest_size alg <> 0)
  /\ (vb2_digest_size alg <> 0 <-> vb2_hash_block_size alg <> 0)
  /\ (vb2_digest_size alg = 0 ->
      fst (vb2_digest_init dc alg) = VB2_ERROR_SHA_INIT_ALGORITHM
      /\ dc_sha (snd (vb2_digest_init dc alg)) = dc_sha dc)
  /\ hash_alg (snd (vb2_digest_init dc alg)) = alg
  /\ 0 <= vb2_digest_size alg <= VB2_MAX_DIGEST_SIZE
  /\ vb2_digest_size alg <= vb2_hash_block_size alg <= VB2_MAX_BLOCK_SIZE.
Proof.
  destruct alg; cbn;
    (split; [split; [intros E; try discriminate E; discriminate
                    | intros E; try reflexivity; contradiction]|]);
    (split; [split; intros E; try discriminate; contradiction|]);
    (split; [intros E; try discriminate E; split; reflexivity|]);
    (split; [reflexivity|]);
    cbv; (split; split; discriminate).
Qed.

(** X3.  [vb2_digest_buffer] has three outcomes.  An algorithm without a
    digest size is refused with [VB2_ERROR_SHA_INIT_ALGORITHM], whatever
    the size of the destination; a destination smaller than the digest is
    refused with [VB2_ERROR_SHA_FINALIZE_DIGEST_SIZE]; in both cases the
    destination is left as it was.  Otherwise the call succeeds and the
    destination starts with the digest of the data, of the algorithm's
    digest size, its other bytes being left alone.  The answer does not
    depend on what the uninitialised context held. *)
Theorem vb2_digest_buffer_outcome (dc : vb2_digest_context St) (buf : list Z)
    (size : Z) (alg : vb2_hash_algorithm) (digest : list Z) (digest_size : Z) :
  let r := vb2_digest_buffer dc buf size alg digest digest_size in
  let n := vb2_digest_size alg in
  (n = 0 /\ r = (VB2_ERROR_SHA_INIT_ALGORITHM, digest))
  \/ (n <> 0 /\ u32 digest_size < n
      /\ r = (VB2_ERROR_SHA_FINALIZE_DIGEST_SIZE, digest))
  \/ (n <> 0 /\ n <= u32 digest_size
      /\ fst r = VB2_SUCCESS
      /\ firstn (Z.to_nat n) (snd r) = digest_of alg buf size
      /\ skipn (Z.to_nat n) (snd r) = skipn (Z.to_nat n) digest
      /\ Z.of_nat (length (digest_of alg buf size)) = n).
Proof.
  intros r n. subst r. rewrite vb2_digest_buffer_cases. fold n.
  pose proof (digest_of_length alg buf size) as Hlen. fold n in Hlen.
  destruct (Z.eqb_spec n 0) as [E|E]; [left; now split|right].
  destruct (Z.ltb_spec (u32 digest_size) n) as [Hlt|Hge]; [left; now split|right].
  assert (Hn : Z.to_nat n = length (digest_of alg buf size)) by lia.
  split; [exact E|]. split; [exact Hge|]. split; [reflexivity|].
  cbn [snd]. rewrite Hn. split; [apply firstn_write_digest|].
  split; [|exact Hlen].
  unfold write_digest. rewrite skipn_app, Nat.sub_diag, skipn_all. reflexivity.
Qed.

(** [vb2_hash_verify], by cases. *)
Lemma vb2_hash_verify_cases (dc : vb2_digest_context St) (hash_buf buf : list Z)
    (size : Z) (hash : vb2_hash) :
  vb2_hash_verify dc hash_buf buf size hash =
    if vb2_digest_size (algo hash) =? 0 then VB2_ERROR_SHA_INIT_ALGORITHM
    else if bytes_eqb (digest_of (algo hash) buf size)
              (firstn (Z.to_nat (vb2_digest_size (algo hash))) (raw hash))
    then VB2_SUCCESS else VB2_ERROR_SHA_MISMATCH.
Proof.
  unfold vb2_hash_verify. rewrite vb2_digest_buffer_cases.
  rewrite u32_vb2_digest_size, Z.ltb_irrefl.
  destruct (vb2_digest_size (algo hash) =? 0); [reflexivity|].
  cbn [failed]. unfold memcmp.
  pose proof (digest_of_length (algo hash) buf size) as Hlen.
  replace (Z.to_nat (vb2_digest_size (algo hash)))
    with (length (digest_of (algo hash) buf size)) by lia.
  rewrite firstn_write_digest.
  now destruct (bytes_eqb _ _).
Qed.

(** X4.  [vb2_hash_verify] never accepts a hash of an algorithm without a
    digest size: it answers [VB2_ERROR_SHA_INIT_ALGORITHM], although there
    are no bytes to compare.  For the other algorithms it succeeds exactly
    when the first digest-size bytes of [hash->raw] are the digest of the
    data, and answers [VB2_ERROR_SHA_MISMATCH] when they are not; the bytes
    of [raw] past the digest size, and the uninitialised locals, have no
    part in the answer. *)
Theorem vb2_hash_verify_outcome (dc : vb2_digest_context St)
    (hash_buf buf : list Z) (size : Z) (hash : vb2_hash) :
  let n := vb2_digest_size (algo hash) in
  let rv := vb2_hash_verify dc hash_buf buf size hash in
  (n = 0 -> rv = VB2_ERROR_SHA_INIT_ALGORITHM)
  /\ (n <> 0 ->
      (rv = VB2_SUCCESS
       <-> firstn (Z.to_nat n) (raw hash) = digest_of (algo hash) buf size)
      /\ (rv <> VB2_SUCCESS -> rv = VB2_ERROR_SHA_MISMATCH)).
Proof.
  intros n rv. subst rv. rewrite vb2_hash_verify_cases. fold n.
  destruct (Z.eqb_spec n 0) as [E|E]; (split; [intros E'|intros E']);
    try reflexivity; try contradiction.
  destruct (bytes_eqb _ _) eqn:Eb.
  - apply bytes_eqb_eq in Eb. split; [|intros Hne; now contradiction Hne].
    split; [intros _; now symmetry | reflexivity].
  - split; [|reflexivity].
    split; [discriminate|].
    intros Heq. rewrite Heq, bytes_eqb_refl in Eb. discriminate Eb.
Qed.

(** A named algorithm is stored in the byte [vb2_hash.algo] as it is. *)
Lemma vb2_hash_algo_byte_named (alg : vb2_hash_algorithm) :
  vb2_digest_size alg <> 0 -> vb2_hash_algo_byte alg = alg.
Proof.
  intros Hn. unfold vb2_hash_algo_byte, u8.
  pose proof (vb2_hash_algorithm_value_byte alg) as Hb.
  destruct alg; cbn [vb2_digest_size] in Hn; try contradiction;
    (rewrite Z.mod_small by lia; apply vb2_hash_algorithm_of_value_value).
Qed.

(** X5.  A hash made by [vb2_hash_calculate] verifies.  The call stores
    the algorithm in the byte [hash->algo], truncated to 8 bits, whether or
    not it goes on to succeed, and leaves the reserved bytes alone.  It
    succeeds exactly for the algorithms with a digest size (the destination
    always has the size of the digest); then the algorithm stored is the
    one given, [raw] starts with the digest of the data, and
    [vb2_hash_verify] of the same data against the stored hash succeeds,
    whatever [raw] held before.  When it fails, [raw] is as it was. *)
Theorem vb2_hash_calculate_verifies (dc dc' : vb2_digest_context St)
    (hash_buf buf : list Z) (size : Z) (alg : vb2_hash_algorithm)
    (hash : vb2_hash) :
  let r := vb2_hash_calculate dc buf size alg hash in
  (fst r = VB2_SUCCESS <-> vb2_digest_size alg <> 0)
  /\ algo (snd r) = vb2_hash_algo_byte alg
  /\ reserved (snd r) = reserved hash
  /\ (fst r = VB2_SUCCESS ->
      algo (snd r) = alg
      /\ firstn (Z.to_nat (vb2_digest_size alg)) (raw (snd r))
         = digest_of alg buf size
      /\ vb2_hash_verify dc' hash_buf buf size (snd r) = VB2_SUCCESS)
  /\ (fst r <> VB2_SUCCESS -> raw (snd r) = raw hash).
Proof.
  intros r. subst r. unfold vb2_hash_calculate. cbn [raw reserved algo].
  rewrite vb2_digest_buffer_cases, u32_vb2_digest_size, Z.ltb_irrefl.
  destruct (Z.eqb_spec (vb2_digest_size alg) 0) as [E|E];
    cbn [fst snd algo raw reserved].
  - split; [split; [discriminate | contradiction]|].
    split; [reflexivity|]. split; [reflexivity|].
    split; [discriminate | reflexivity].
  - split; [split; [intros _; exact E | reflexivity]|].
    split; [reflexivity|]. split; [reflexivity|].
    split; [|intros Hne; now contradiction Hne]. intros _.
    pose proof (digest_of_length alg buf size) as Hlen.
    assert (Hn : Z.to_nat (vb2_digest_size alg)
                 = length (digest_of alg buf size)) by lia.
    split; [now apply vb2_hash_algo_byte_named|].
    split; [rewrite Hn; apply firstn_write_digest|].
    rewrite vb2_hash_verify_cases. cbn [algo raw].
    rewrite vb2_hash_algo_byte_named by exact E.
    destruct (Z.eqb_spec (vb2_digest_size alg) 0) as [E'|_]; [contradiction|].
    now rewrite Hn, firstn_write_digest, bytes_eqb_refl.
Qed.

End DigestFacts.

(** * Slot selection over successive boots *)

Section SelectFacts.
Context {K : vb2_constants}.

Lemma nv_get_set c p v q :
  vb2_nv_get (vb2_nv_set c p v) q
  = if vb2_nv_param_beq p q then v else vb2_nv_get c q.
Proof.
  destruct (vb2_nv_param_beq p q) eqn:E.
  - apply internal_vb2_nv_param_dec_bl in E. subst q. apply nv_get_set_same.
  - apply nv_get_set_other. intros ->. now rewrite vb2_nv_param_beq_refl in E.
Qed.

Lemma ctx_flags_nv_set c p v f :
  f <> VB2_CONTEXT_NVDATA_CHANGED ->
  ctx_flags (vb2_nv_set c p v) f = ctx_flags c f.
Proof.
  intros Hf. unfold vb2_nv_set. destruct (vb2_nv_get c p =? v); [reflexivity|].
  destruct f; try reflexivity. contradiction.
Qed.

Lemma ensure_nv_init_done c :
  sd_status (sd c) VB2_SD_STATUS_NV_INIT = true -> ensure_nv_init c = c.
Proof. intros Hi. unfold ensure_nv_init. now rewrite Hi. Qed.

Lemma request_recovery_request c r s :
  vb2_nv_get (request_recovery c r s) VB2_NV_RECOVERY_REQUEST
  = if vb2_nv_get c VB2_NV_RECOVERY_REQUEST =? 0 then r
    else vb2_nv_get c VB2_NV_RECOVERY_REQUEST.
Proof.
  destruct (Z.eqb_spec (vb2_nv_get c VB2_NV_RECOVERY_REQUEST) 0) as [E|E].
  - now apply request_recovery_records.
  - now rewrite request_recovery_pending.
Qed.

Lemma select_steps c :
  vb2_select_fw_slot c
  = (VB2_SUCCESS,
     select_record
       (select_count_try (vb2_nv_get (select_last_boot c) VB2_NV_TRY_COUNT)
          (select_fall_back (vb2_nv_get (select_last_boot c) VB2_NV_TRY_COUNT)
             (select_last_boot c)))).
Proof.
  unfold vb2_select_fw_slot, select_record, select_count_try, select_fall_back,
    select_last_boot.
  cbv zeta. reflexivity.
Qed.

Ltac sel_norm :=
  repeat (rewrite ?sd_nv_set, ?nv_get_set, ?nv_get_on_sd, ?ctx_flags_nv_set
            by discriminate;
          cbn [on_sd with_sd sd sd_with_last_fw_slot sd_with_last_fw_result
               sd_with_fw_slot sd_update last_fw_slot last_fw_result fw_slot
               vb2_nv_param_beq sd_status sd_flags ctx_flag_set sd_status_set
               with_ctx_flags sd_with_status ctx_flags nvdata]).

Lemma select_last_boot_facts c :
  (forall q, vb2_nv_get (select_last_boot c) q =
     match q with
     | VB2_NV_FW_PREV_TRIED => vb2_nv_get c VB2_NV_FW_TRIED
     | VB2_NV_FW_PREV_RESULT => vb2_nv_get c VB2_NV_FW_RESULT
     | VB2_NV_FW_RESULT => VB2_FW_RESULT_UNKNOWN
     | _ => vb2_nv_get c q
     end)
  /\ last_fw_slot (sd (select_last_boot c)) = vb2_nv_get c VB2_NV_FW_TRIED
  /\ last_fw_result (sd (select_last_boot c)) = vb2_nv_get c VB2_NV_FW_RESULT
  /\ fw_slot (sd (select_last_boot c)) = vb2_nv_get c VB2_NV_TRY_NEXT
  /\ sd_status (sd (select_last_boot c)) = sd_status (sd c)
  /\ ctx_flags (select_last_boot c) VB2_CONTEXT_NOFAIL_BOOT
     = ctx_flags c VB2_CONTEXT_NOFAIL_BOOT.
Proof.
  unfold select_last_boot. cbv zeta. sel_norm.
  split; [intros q; destruct q; sel_norm; reflexivity|].
  repeat split; reflexivity.
Qed.

Lemma select_fall_back_facts tries c :
  let fb := (last_fw_result (sd c) =? VB2_FW_RESULT_TRYING)
            && (last_fw_slot (sd c) =? fw_slot (sd c)) && (tries =? 0) in
  let slot := if fb then u32 (1 - fw_slot (sd c)) else fw_slot (sd c) in
  (forall q, vb2_nv_get (select_fall_back tries c) q =
     if fb then
       match q with
       | VB2_NV_TRY_NEXT => slot
       | _ => vb2_nv_get c q
       end
     else vb2_nv_get c q)
  /\ last_fw_slot (sd (select_fall_back tries c)) = last_fw_slot (sd c)
  /\ last_fw_result (sd (select_fall_back tries c)) = last_fw_result (sd c)
  /\ fw_slot (sd (select_fall_back tries c)) = slot
  /\ sd_status (sd (select_fall_back tries c)) = sd_status (sd c)
  /\ ctx_flags (select_fall_back tries c) VB2_CONTEXT_NOFAIL_BOOT
     = ctx_flags c VB2_CONTEXT_NOFAIL_BOOT.
Proof.
  cbv zeta. unfold select_fall_back.
  destruct ((last_fw_result (sd c) =? VB2_FW_RESULT_TRYING)
            && (last_fw_slot (sd c) =? fw_slot (sd c)) && (tries =? 0));
    cbv zeta; sel_norm.
  - split; [intros q; destruct q; sel_norm; reflexivity|].
    repeat split; reflexivity.
  - repeat split; reflexivity.
Qed.

Lemma select_count_try_facts tries c :
  (forall q, vb2_nv_get (select_count_try tries c) q =
     match q with
     | VB2_NV_FW_RESULT =>
         if 0 <? tries then VB2_FW_RESULT_TRYING else vb2_nv_get c q
     | VB2_NV_TRY_COUNT =>
         if (0 <? tries) && negb (ctx_flags c VB2_CONTEXT_NOFAIL_BOOT)
         then tries - 1 else vb2_nv_get c q
     | _ => vb2_nv_get c q
     end)
  /\ sd (select_count_try tries c) = sd c
  /\ ctx_flags (select_count_try tries c) VB2_CONTEXT_NOFAIL_BOOT
     = ctx_flags c VB2_CONTEXT_NOFAIL_BOOT.
Proof.
  unfold select_count_try. destruct (0 <? tries); cbv zeta; sel_norm.
  - destruct (ctx_flags c VB2_CONTEXT_NOFAIL_BOOT) eqn:En; cbn [negb andb];
      sel_norm; rewrite ?En;
      (split; [intros q; destruct q; sel_norm; reflexivity|]);
      split; reflexivity.
  - cbn [andb]. split; [intros q; destruct q; reflexivity|]. split; reflexivity.
Qed.

Lemma select_record_facts c :
  (forall q, vb2_nv_get (select_record c) q =
     match q with
     | VB2_NV_FW_TRIED => fw_slot (sd c)
     | _ => vb2_nv_get c q
     end)
  /\ last_fw_slot (sd (select_record c)) = last_fw_slot (sd c)
  /\ last_fw_result (sd (select_record c)) = last_fw_result (sd c)
  /\ fw_slot (sd (select_record c)) = fw_slot (sd c)
  /\ (forall s, sd_status (sd (select_record c)) s
                = if vb2_sd_status_beq VB2_SD_STATUS_CHOSE_SLOT s then true
                  else sd_status (sd c) s)
  /\ ctx_flags (select_record c) VB2_CONTEXT_NOFAIL_BOOT
     = ctx_flags c VB2_CONTEXT_NOFAIL_BOOT.
Proof.
  unfold select_record. cbv zeta. sel_norm.
  assert (Hq : forall (x : vb2_context) q,
             vb2_nv_get (sd_status_set VB2_SD_STATUS_CHOSE_SLOT x) q = vb2_nv_get x q)
    by reflexivity.
  destruct (negb (fw_slot (sd c) =? 0)); sel_norm;
    (split; [intros q; rewrite ?Hq;
             change (vb2_nv_get (ctx_flag_set VB2_CONTEXT_FW_SLOT_B
                                   (vb2_nv_set c VB2_NV_FW_TRIED (fw_slot (sd c)))) q)
               with (vb2_nv_get (vb2_nv_set c VB2_NV_FW_TRIED (fw_slot (sd c))) q);
             rewrite nv_get_set; destruct q; reflexivity|]);
    (split; [reflexivity|]); (split; [reflexivity|]); (split; [reflexivity|]);
    (split; [reflexivity|]);
    cbn; first [reflexivity | apply ctx_flags_nv_set; discriminate].
Qed.

(** [vb2_select_fw_slot], field by field. *)
Lemma vb2_select_fw_slot_facts c :
  let c' := snd (vb2_select_fw_slot c) in
  (forall q, vb2_nv_get c' q = select_nv c q)
  /\ last_fw_slot (sd c') = vb2_nv_get c VB2_NV_FW_TRIED
  /\ last_fw_result (sd c') = vb2_nv_get c VB2_NV_FW_RESULT
  /\ fw_slot (sd c') = select_slot c
  /\ (forall s, sd_status (sd c') s
                = if vb2_sd_status_beq VB2_SD_STATUS_CHOSE_SLOT s then true
                  else sd_status (sd c) s)
  /\ ctx_flags c' VB2_CONTEXT_NOFAIL_BOOT = ctx_flags c VB2_CONTEXT_NOFAIL_BOOT.
Proof.
  intros c'. subst c'. rewrite select_steps. cbn [snd].
  destruct (select_last_boot_facts c) as (Ha & Ha1 & Ha2 & Ha3 & Ha4 & Ha5).
  rewrite (Ha VB2_NV_TRY_COUNT).
  destruct (select_fall_back_facts (vb2_nv_get c VB2_NV_TRY_COUNT)
              (select_last_boot c))
    as (Hb & Hb1 & Hb2 & Hb3 & Hb4 & Hb5).
  cbv zeta in Hb, Hb3. rewrite Ha1, Ha2, Ha3 in Hb, Hb3.
  fold (select_fallback c) in Hb, Hb3. fold (select_slot c) in Hb, Hb3.
  destruct (select_count_try_facts (vb2_nv_get c VB2_NV_TRY_COUNT)
              (select_fall_back (vb2_nv_get c VB2_NV_TRY_COUNT)
                 (select_last_boot c))) as (Hc & Hc1 & Hc2).
  destruct (select_record_facts
              (select_count_try (vb2_nv_get c VB2_NV_TRY_COUNT)
                 (select_fall_back (vb2_nv_get c VB2_NV_TRY_COUNT)
                    (select_last_boot c))))
    as (Hd & Hd1 & Hd2 & Hd3 & Hd4 & Hd5).
  rewrite Hc1 in Hd, Hd1, Hd2, Hd3, Hd4.
  split.
  - intros q. rewrite Hd, Hb3. unfold select_nv. cbv zeta.
    destruct q; rewrite ?Hc, ?Hb, ?Hb5, ?Ha5, ?Ha; try reflexivity;
      unfold select_slot; destruct (select_fallback c); try reflexivity;
      destruct (0 <? vb2_nv_get c VB2_NV_TRY_COUNT); reflexivity.
  - rewrite Hd1, Hd2, Hd3, Hb1, Hb2, Hb3, Ha1, Ha2.
    split; [reflexivity|]. split; [reflexivity|]. split; [reflexivity|].
    split; [intros s; now rewrite Hd4, Hb4, Ha4|].
    now rewrite Hd5, Hc2, Hb5, Ha5.
Qed.

(** The NV fields after a failure on a chosen slot, NV being
    initialised. *)
Lemma vb2api_fail_chosen_nv c R S :
  sd_status (sd c) VB2_SD_STATUS_NV_INIT = true ->
  sd_status (sd c) VB2_SD_STATUS_CHOSE_SLOT = true ->
  let c' := vb2api_fail c R S in
  vb2_nv_get c' VB2_NV_FW_RESULT = VB2_FW_RESULT_FAILURE
  /\ vb2_nv_get c' VB2_NV_TRY_COUNT = 0
  /\ vb2_nv_get c' VB2_NV_TRY_NEXT = u32 (1 - fw_slot (sd c))
  /\ vb2_nv_get c' VB2_NV_RECOVERY_REQUEST
     = (if other_slot_failed c && (vb2_nv_get c VB2_NV_RECOVERY_REQUEST =? 0)
        then u8 R else vb2_nv_get c VB2_NV_RECOVERY_REQUEST)
  /\ (forall p, p <> VB2_NV_FW_RESULT -> p <> VB2_NV_TRY_COUNT ->
                p <> VB2_NV_TRY_NEXT -> p <> VB2_NV_RECOVERY_REQUEST ->
                p <> VB2_NV_RECOVERY_SUBCODE ->
                vb2_nv_get c' p = vb2_nv_get c p).
Proof.
  intros Hi Hc c'. subst c'.
  split; [|split; [|split; [|split]]].
  5: { intros p H1 H2 H3 H4 H5. rewrite vb2api_fail_nv_other by assumption.
       now rewrite ensure_nv_init_done. }
  all: rewrite vb2api_fail_cases; cbv zeta; rewrite ensure_nv_init_done by exact Hi;
    rewrite Hc; destruct (mark_slot_failed_writes c) as (H1 & H2 & H3);
    destruct (other_slot_failed c); cbn [andb];
    rewrite ?request_recovery_request, ?request_recovery_other by discriminate;
    rewrite ?mark_slot_failed_other by discriminate; auto.
Qed.

Lemma u32_flip_twice s : is_u32 s -> u32 (1 - u32 (1 - s)) = s.
Proof.
  intros Hs. unfold u32. rewrite Zminus_mod_idemp_r.
  replace (1 - (1 - s)) with s by ring. apply Z.mod_small. exact Hs.
Qed.

Lemma is_u32_u32 z : is_u32 (u32 z).
Proof. apply Z.mod_pos_bound. reflexivity. Qed.

Lemma is_u32_select_slot c :
  is_u32 (vb2_nv_get c VB2_NV_TRY_NEXT) -> is_u32 (select_slot c).
Proof.
  intros Hn. unfold select_slot. destruct (select_fallback c);
    [apply is_u32_u32 | exact Hn].
Qed.

(** X6.  Two boots that fail one after the other end in a recovery
    request.  Boot 1 selects a slot and fails; boot 2 starts from the NV
    record boot 1 left, with NV initialised.  Then boot 2 selects the other
    slot, and when it fails too, [vb2api_fail] finds that both slots have
    failed and requests recovery: the NV recovery request is the reason of
    the second failure, unless boot 1 had left a request, which stays. *)
Theorem two_failed_boots_request_recovery (c1 c2 : vb2_context)
    (R1 S1 R2 S2 : Z) :
  sd_status (sd c1) VB2_SD_STATUS_NV_INIT = true ->
  sd_status (sd c2) VB2_SD_STATUS_NV_INIT = true ->
  is_u32 (vb2_nv_get c1 VB2_NV_TRY_NEXT) ->
  VB2_FW_RESULT_FAILURE <> VB2_FW_RESULT_TRYING ->
  (forall q, vb2_nv_get c2 q
             = vb2_nv_get (vb2api_fail (snd (vb2_select_fw_slot c1)) R1 S1) q) ->
  let boot1 := snd (vb2_select_fw_slot c1) in
  let fail1 := vb2api_fail boot1 R1 S1 in
  let boot2 := snd (vb2_select_fw_slot c2) in
  let fail2 := vb2api_fail boot2 R2 S2 in
  fw_slot (sd boot2) = u32 (1 - fw_slot (sd boot1))
  /\ other_slot_failed boot2 = true
  /\ vb2_nv_get fail2 VB2_NV_RECOVERY_REQUEST
     = (if vb2_nv_get fail1 VB2_NV_RECOVERY_REQUEST =? 0 then u8 R2
        else vb2_nv_get fail1 VB2_NV_RECOVERY_REQUEST).
Proof.
  intros Hi1 Hi2 Hnext Hne Hnv boot1 fail1 boot2 fail2.
  change (forall q, vb2_nv_get c2 q = vb2_nv_get fail1 q) in Hnv.
  destruct (vb2_select_fw_slot_facts c1) as (Hq1 & _ & _ & Hs1 & Hst1 & _).
  fold boot1 in Hq1, Hs1, Hst1.
  assert (Hinit1 : sd_status (sd boot1) VB2_SD_STATUS_NV_INIT = true)
    by (rewrite Hst1; exact Hi1).
  assert (Hchose1 : sd_status (sd boot1) VB2_SD_STATUS_CHOSE_SLOT = true)
    by (rewrite Hst1; reflexivity).
  destruct (vb2api_fail_chosen_nv boot1 R1 S1 Hinit1 Hchose1)
    as (Hf1 & Hf2 & Hf3 & _ & Hfo).
  fold fail1 in Hf1, Hf2, Hf3, Hfo.
  assert (Htried : vb2_nv_get c2 VB2_NV_FW_TRIED = fw_slot (sd boot1)).
  { rewrite Hnv, Hfo by discriminate. rewrite Hq1, Hs1. reflexivity. }
  assert (Hfb : select_fallback c2 = false).
  { unfold select_fallback. rewrite (Hnv VB2_NV_FW_RESULT), Hf1.
    now destruct (Z.eqb_spec VB2_FW_RESULT_FAILURE VB2_FW_RESULT_TRYING). }
  destruct (vb2_select_fw_slot_facts c2) as (Hq2 & Hl2 & Hr2 & Hs2 & Hst2 & _).
  fold boot2 in Hq2, Hl2, Hr2, Hs2, Hst2.
  assert (Hslot2 : fw_slot (sd boot2) = u32 (1 - fw_slot (sd boot1))).
  { rewrite Hs2. unfold select_slot. rewrite Hfb, Hnv. exact Hf3. }
  assert (Hother : other_slot_failed boot2 = true).
  { unfold other_slot_failed. rewrite Hl2, Hr2, Htried, Hslot2.
    rewrite u32_flip_twice
      by (rewrite Hs1; now apply is_u32_select_slot).
    rewrite (Hnv VB2_NV_FW_RESULT), Hf1, !Z.eqb_refl. reflexivity. }
  split; [exact Hslot2|]. split; [exact Hother|].
  assert (Hinit2 : sd_status (sd boot2) VB2_SD_STATUS_NV_INIT = true)
    by (rewrite Hst2; exact Hi2).
  assert (Hchose2 : sd_status (sd boot2) VB2_SD_STATUS_CHOSE_SLOT = true)
    by (rewrite Hst2; reflexivity).
  destruct (vb2api_fail_chosen_nv boot2 R2 S2 Hinit2 Hchose2)
    as (_ & _ & _ & Hreq & _).
  fold fail2 in Hreq. rewrite Hreq, Hother. cbn [andb].
  rewrite Hq2. cbn [select_nv]. now rewrite Hnv.
Qed.

(** X7.  A slot is tried as often as the try count says, and then given
    up.  From an NV record with try count [n > 0] and without the no-fail
    flag, [n] boots in a row that neither report success nor failure (each
    starts from the NV record the one before left) all select the slot
    [nv.try_next], the count going down by one each time; the boot after
    them finds the count at 0 and the last result still TRYING, selects the
    other slot and writes it to [nv.try_next]. *)
Theorem vb2_select_fw_slot_try_count (n : nat) (c : vb2_context) :
  vb2_nv_get c VB2_NV_TRY_COUNT = Z.of_nat n ->
  (0 < n)%nat ->
  ctx_flags c VB2_CONTEXT_NOFAIL_BOOT = false ->
  let boot := fun c => snd (vb2_select_fw_slot c) in
  let next := vb2_nv_get c VB2_NV_TRY_NEXT in
  (forall k, (k < n)%nat ->
     fw_slot (sd (Nat.iter (S k) boot c)) = next
     /\ vb2_nv_get (Nat.iter (S k) boot c) VB2_NV_TRY_COUNT = Z.of_nat (n - S k))
  /\ fw_slot (sd (Nat.iter (S n) boot c)) = u32 (1 - next)
  /\ vb2_nv_get (Nat.iter (S n) boot c) VB2_NV_TRY_NEXT = u32 (1 - next).
Proof.
  intros Hcount Hpos Hnofail boot next.
  assert (Hinv : forall k, (k <= n)%nat ->
            let ck := Nat.iter k boot c in
            vb2_nv_get ck VB2_NV_TRY_COUNT = Z.of_nat (n - k)
            /\ vb2_nv_get ck VB2_NV_TRY_NEXT = next
            /\ ctx_flags ck VB2_CONTEXT_NOFAIL_BOOT = false
            /\ ((0 < k)%nat ->
                vb2_nv_get ck VB2_NV_FW_RESULT = VB2_FW_RESULT_TRYING
                /\ vb2_nv_get ck VB2_NV_FW_TRIED = next
                /\ fw_slot (sd ck) = next)).
  { induction k as [|k IH]; intros Hk ck.
    - subst ck. change (Nat.iter 0 boot c) with c. rewrite Nat.sub_0_r.
      split; [exact Hcount|]. split; [reflexivity|]. split; [exact Hnofail|].
      intros Hlt. inversion Hlt.
    - destruct (IH ltac:(lia)) as (Hc & Hn & Hf & _).
      subst ck. rewrite Nat.iter_succ.
      set (cp := Nat.iter k boot c) in *.
      destruct (vb2_select_fw_slot_facts cp) as (Hq & _ & _ & Hs & _ & Hfl).
      fold (boot cp) in Hq, Hs, Hfl.
      assert (Hfb : select_fallback cp = false).
      { unfold select_fallback. rewrite Hc.
        destruct (Z.eqb_spec (Z.of_nat (n - k)) 0) as [E|E]; [lia|].
        now rewrite andb_false_r. }
      assert (Hslot : select_slot cp = next)
        by (unfold select_slot; now rewrite Hfb).
      assert (Hlt : (0 <? Z.of_nat (n - k)) = true) by (apply Z.ltb_lt; lia).
      split; [|split; [|split]].
      + rewrite Hq. cbn [select_nv]. rewrite Hc, Hlt, Hf. cbn [negb andb]. lia.
      + rewrite Hq. cbn [select_nv]. exact Hslot.
      + now rewrite Hfl.
      + intros _. split; [|split].
        * rewrite Hq. cbn [select_nv]. now rewrite Hc, Hlt.
        * rewrite Hq. cbn [select_nv]. exact Hslot.
        * now rewrite Hs. }
  split.
  - intros k Hk. destruct (Hinv (S k) ltac:(lia)) as (Hc & _ & _ & Hrest).
    destruct (Hrest ltac:(lia)) as (_ & _ & Hs). split; [exact Hs | exact Hc].
  - destruct (Hinv n (Nat.le_refl n)) as (Hc & Hn & _ & Hrest).
    destruct (Hrest Hpos) as (Hres & Htried & _).
    rewrite Nat.iter_succ. set (cn := Nat.iter n boot c) in *.
    destruct (vb2_select_fw_slot_facts cn) as (Hq & _ & _ & Hs & _ & _).
    fold (boot cn) in Hq, Hs.
    assert (Hfb : select_fallback cn = true).
    { unfold select_fallback. rewrite Hres, Htried, Hn, Hc, Nat.sub_diag.
      now rewrite !Z.eqb_refl. }
    assert (Hslot : select_slot cn = u32 (1 - next))
      by (unfold select_slot; now rewrite Hfb, Hn).
    split; [now rewrite Hs|]. rewrite Hq. cbn [select_nv]. exact Hslot.
Qed.

End SelectFacts.

(** * The developer switch, mode by mode *)

Section DevSwitchFacts.
Context {K : vb2_constants} {W : Type} {H : vb2ex W}.

(** [vb2_check_dev_switch], by cases. *)
Lemma vb2_check_dev_switch_cases (m : @machine W) :
  let c0 := m_ctx m in
  let c1 := dev_switch_settled c0 in
  let flags := dev_switch_new_flags c0 in
  let rv := fst (vb2ex_tpm_clear_owner c1 (m_host m)) in
  let m1 :=
    called (ExTpmClearOwner c1) (snd (vb2ex_tpm_clear_owner c1 (m_host m)))
      (with_ctx c1 m) in
  vb2_check_dev_switch m =
    if secdata_firmware_flags_eqb flags (vb2_secdata_firmware_get_flags c0)
    then Returned VB2_SUCCESS (with_ctx c1 m)
    else if sd_status (sd c0) VB2_SD_STATUS_SECDATA_FIRMWARE_INIT && failed rv
    then Returned rv
           (with_ctx (vb2api_fail c1 VB2_RECOVERY_TPM_CLEAR_OWNER
                        (vb2_return_code rv)) m1)
    else Returned VB2_SUCCESS
           (with_ctx (vb2_secdata_firmware_set_flags c1 flags) m1).
Proof.
  cbv zeta.
  unfold vb2_check_dev_switch, run, bind, get_ctx, modify_ctx, return_, ret,
    when, tpm_clear_owner, dev_switch_settled, dev_switch_new_flags.
  destruct m as [c p w t]. mred.
  destruct (dev_disable_requested c);
    destruct (dev_switch_is_dev c);
    destruct (ctx_flags c VB2_CONTEXT_FORCE_WIPEOUT_MODE);
    unfold ret; mred;
    destruct (secdata_firmware_flags_eqb _ _); cbn [negb]; cbv beta; mred;
    try reflexivity;
    destruct (vb2ex_tpm_clear_owner _ w) as [rv0 w0]; mred;
    destruct (sd_status (sd c) VB2_SD_STATUS_SECDATA_FIRMWARE_INIT && failed rv0);
    mred; reflexivity.
Qed.

Lemma dev_switch_new_flags_last c :
  dev_switch_new_flags c VB2_SECDATA_FIRMWARE_FLAG_LAST_BOOT_DEVELOPER
  = dev_switch_is_dev c.
Proof. unfold dev_switch_new_flags. now destruct (dev_switch_is_dev c). Qed.

Lemma dev_switch_new_flags_dev c :
  dev_switch_new_flags c VB2_SECDATA_FIRMWARE_FLAG_DEV_MODE
  = dev_switch_flags c VB2_SECDATA_FIRMWARE_FLAG_DEV_MODE.
Proof. unfold dev_switch_new_flags. now destruct (dev_switch_is_dev c). Qed.

Lemma secdata_firmware_flags_eqb_spec f g :
  secdata_firmware_flags_eqb f g = true
  <-> f VB2_SECDATA_FIRMWARE_FLAG_LAST_BOOT_DEVELOPER
      = g VB2_SECDATA_FIRMWARE_FLAG_LAST_BOOT_DEVELOPER
      /\ f VB2_SECDATA_FIRMWARE_FLAG_DEV_MODE
         = g VB2_SECDATA_FIRMWARE_FLAG_DEV_MODE.
Proof.
  unfold secdata_firmware_flags_eqb. rewrite andb_true_iff, !Bool.eqb_true_iff.
  tauto.
Qed.

Lemma secdata_firmware_disable_dev_boot_flags c :
  secdata_firmware (disable_dev_boot_flags c) = secdata_firmware c.
Proof.
  unfold disable_dev_boot_flags. cbv zeta. now rewrite !secdata_firmware_nv_set.
Qed.

Lemma secdata_firmware_dev_switch_settled c :
  secdata_firmware (dev_switch_settled c) = secdata_firmware c.
Proof.
  unfold dev_switch_settled. cbv zeta.
  destruct (ctx_flags c VB2_CONTEXT_FORCE_WIPEOUT_MODE);
    destruct (dev_switch_is_dev c); destruct (dev_disable_requested c);
    rewrite ?secdata_firmware_nv_set, ?secdata_firmware_disable_dev_boot_flags;
    cbn; rewrite ?secdata_firmware_nv_set; reflexivity.
Qed.

Lemma ctx_flags_disable_dev_boot_flags c f :
  f <> VB2_CONTEXT_NVDATA_CHANGED ->
  ctx_flags (disable_dev_boot_flags c) f = ctx_flags c f.
Proof.
  intros Hf. unfold disable_dev_boot_flags. cbv zeta.
  now rewrite !ctx_flags_nv_set by exact Hf.
Qed.

Lemma ctx_flags_dev_switch_settled c f :
  f <> VB2_CONTEXT_NVDATA_CHANGED -> f <> VB2_CONTEXT_DEVELOPER_MODE ->
  ctx_flags (dev_switch_settled c) f = ctx_flags c f.
Proof.
  intros H1 H2. unfold dev_switch_settled. cbv zeta.
  destruct (ctx_flags c VB2_CONTEXT_FORCE_WIPEOUT_MODE);
    destruct (dev_switch_is_dev c); destruct (dev_disable_requested c);
    rewrite ?ctx_flags_nv_set, ?ctx_flags_disable_dev_boot_flags by exact H1;
    rewrite ?ctx_flags_nv_set by exact H1; try reflexivity;
    destruct f; try reflexivity; try contradiction;
    cbn; rewrite ?ctx_flags_nv_set by discriminate; reflexivity.
Qed.

Lemma dev_switch_settled_developer c :
  dev_switch_is_dev c = true ->
  ctx_flags (dev_switch_settled c) VB2_CONTEXT_DEVELOPER_MODE = true
  /\ sd_flags (sd (dev_switch_settled c)) VB2_SD_FLAG_DEV_MODE_ENABLED = true.
Proof.
  intros Hd. unfold dev_switch_settled. cbv zeta. rewrite Hd.
  destruct (ctx_flags c VB2_CONTEXT_FORCE_WIPEOUT_MODE);
    rewrite ?ctx_flags_nv_set, ?sd_nv_set by discriminate;
    split; reflexivity.
Qed.

(** X8.  When the mode [vb2_check_dev_switch] resolves is the mode of the
    last boot and no disable request took the developer flag away, the
    secure flags do not change, and then the function returns success
    without a call out of the engine: the TPM owner is not cleared and the
    firmware secure storage is neither written nor marked as changed. *)
Theorem vb2_check_dev_switch_same_mode (m : @machine W) :
  dev_switch_is_dev (m_ctx m)
  = vb2_secdata_firmware_get_flags (m_ctx m)
      VB2_SECDATA_FIRMWARE_FLAG_LAST_BOOT_DEVELOPER ->
  dev_switch_flags (m_ctx m) VB2_SECDATA_FIRMWARE_FLAG_DEV_MODE
  = vb2_secdata_firmware_get_flags (m_ctx m) VB2_SECDATA_FIRMWARE_FLAG_DEV_MODE ->
  exists m',
    vb2_check_dev_switch m = Returned VB2_SUCCESS m'
    /\ m_trace m' = m_trace m
    /\ m_host m' = m_host m
    /\ secdata_firmware (m_ctx m') = secdata_firmware (m_ctx m)
    /\ ctx_flags (m_ctx m') VB2_CONTEXT_SECDATA_FIRMWARE_CHANGED
       = ctx_flags (m_ctx m) VB2_CONTEXT_SECDATA_FIRMWARE_CHANGED.
Proof.
  intros Hlast Hdev. rewrite vb2_check_dev_switch_cases. cbv zeta.
  assert (Heq : secdata_firmware_flags_eqb (dev_switch_new_flags (m_ctx m))
                  (vb2_secdata_firmware_get_flags (m_ctx m)) = true).
  { apply secdata_firmware_flags_eqb_spec.
    now rewrite dev_switch_new_flags_last, dev_switch_new_flags_dev. }
  rewrite Heq. eexists. split; [reflexivity|]. mred.
  split; [reflexivity|]. split; [reflexivity|].
  split; [apply secdata_firmware_dev_switch_settled|].
  apply ctx_flags_dev_switch_settled; discriminate.
Qed.

(** X9.  When the mode changes against the last boot (or a disable
    request took the developer flag away), [vb2_check_dev_switch] asks for
    the TPM owner clear, once, before it saves anything.  With valid
    secure storage a failing clear is returned, goes to [vb2api_fail] with
    reason [VB2_RECOVERY_TPM_CLEAR_OWNER], and leaves the secure flags as
    they were, so that the next boot sees the change again.  Otherwise the
    function succeeds and saves the new flags: last-boot-developer is the
    mode resolved, and the secure storage is marked as changed. *)
Theorem vb2_check_dev_switch_mode_change (m : @machine W) :
  dev_switch_is_dev (m_ctx m)
  <> vb2_secdata_firmware_get_flags (m_ctx m)
       VB2_SECDATA_FIRMWARE_FLAG_LAST_BOOT_DEVELOPER
  \/ dev_switch_flags (m_ctx m) VB2_SECDATA_FIRMWARE_FLAG_DEV_MODE
     <> vb2_secdata_firmware_get_flags (m_ctx m)
          VB2_SECDATA_FIRMWARE_FLAG_DEV_MODE ->
  let c1 := dev_switch_settled (m_ctx m) in
  let rv := fst (vb2ex_tpm_clear_owner c1 (m_host m)) in
  let valid_secdata :=
    sd_status (sd (m_ctx m)) VB2_SD_STATUS_SECDATA_FIRMWARE_INIT in
  exists rv' m',
    vb2_check_dev_switch m = Returned rv' m'
    /\ m_trace m' = m_trace m ++ [ExTpmClearOwner c1]
    /\ (valid_secdata = true -> failed rv = true ->
        rv' = rv
        /\ m_ctx m' = vb2api_fail c1 VB2_RECOVERY_TPM_CLEAR_OWNER
                        (vb2_return_code rv)
        /\ secdata_firmware (m_ctx m') = secdata_firmware (m_ctx m))
    /\ (valid_secdata = false \/ failed rv = false ->
        rv' = VB2_SUCCESS
        /\ vb2_secdata_firmware_get_flags (m_ctx m')
             VB2_SECDATA_FIRMWARE_FLAG_LAST_BOOT_DEVELOPER
           = dev_switch_is_dev (m_ctx m)
        /\ vb2_secdata_firmware_get_flags (m_ctx m')
             VB2_SECDATA_FIRMWARE_FLAG_DEV_MODE
           = dev_switch_flags (m_ctx m) VB2_SECDATA_FIRMWARE_FLAG_DEV_MODE
        /\ ctx_flags (m_ctx m') VB2_CONTEXT_SECDATA_FIRMWARE_CHANGED = true).
Proof.
  intros Hchange c1 rv valid_secdata.
  rewrite vb2_check_dev_switch_cases. cbv zeta. fold c1 rv valid_secdata.
  assert (Hne : secdata_firmware_flags_eqb (dev_switch_new_flags (m_ctx m))
                  (vb2_secdata_firmware_get_flags (m_ctx m)) = false).
  { destruct (secdata_firmware_flags_eqb _ _) eqn:E; [|reflexivity].
    apply secdata_firmware_flags_eqb_spec in E.
    rewrite dev_switch_new_flags_last, dev_switch_new_flags_dev in E.
    destruct E as [E1 E2]. destruct Hchange as [Hc|Hc]; contradiction. }
  rewrite Hne.
  destruct valid_secdata eqn:Ev; destruct (failed rv) eqn:Ef; cbn [andb];
    do 2 eexists; (split; [reflexivity|]); mred;
    (split; [reflexivity|]); split.
  all: try (intros ? ?; discriminate).
  all: try (intros [?|?]; discriminate).
  - intros _ _. split; [reflexivity|]. split; [reflexivity|].
    rewrite secdata_firmware_vb2api_fail.
    apply secdata_firmware_dev_switch_settled.
  - intros _. split; [reflexivity|].
    split; [apply dev_switch_new_flags_last|].
    split; [apply dev_switch_new_flags_dev | reflexivity].
  - intros _. split; [reflexivity|].
    split; [apply dev_switch_new_flags_last|].
    split; [apply dev_switch_new_flags_dev | reflexivity].
  - intros _. split; [reflexivity|].
    split; [apply dev_switch_new_flags_last|].
    split; [apply dev_switch_new_flags_dev | reflexivity].
Qed.

(** X10.  Developer mode enabled by [vb2_enable_developer_mode] takes
    effect at the next boot, at the price of the TPM owner.  Starting from
    normal mode (last-boot-developer clear), the call sets the developer
    flag in secure storage and nothing else; on a boot that finds that
    secure storage, with no request and no context flag to disable
    developer mode, [vb2_check_dev_switch] resolves developer mode, asks
    for the TPM owner clear, and once the clear has succeeded returns
    success with the developer flags of the context and of the shared data
    set and last-boot-developer saved. *)
Theorem vb2_enable_developer_mode_next_boot (c : vb2_context) (m : @machine W) :
  vb2_secdata_firmware_get_flags c VB2_SECDATA_FIRMWARE_FLAG_LAST_BOOT_DEVELOPER
  = false ->
  secdata_firmware (m_ctx m)
  = secdata_firmware (snd (vb2_enable_developer_mode c)) ->
  dev_disable_requested (m_ctx m) = false ->
  ctx_flags (m_ctx m) VB2_CONTEXT_DISABLE_DEVELOPER_MODE = false ->
  failed (fst (vb2ex_tpm_clear_owner (dev_switch_settled (m_ctx m)) (m_host m)))
  = false ->
  fst (vb2_enable_developer_mode c) = VB2_SUCCESS
  /\ fw_versions (secdata_firmware (snd (vb2_enable_developer_mode c)))
     = fw_versions (secdata_firmware c)
  /\ exists m',
       vb2_check_dev_switch m = Returned VB2_SUCCESS m'
       /\ m_trace m'
          = m_trace m ++ [ExTpmClearOwner (dev_switch_settled (m_ctx m))]
       /\ ctx_flags (m_ctx m') VB2_CONTEXT_DEVELOPER_MODE = true
       /\ sd_flags (sd (m_ctx m')) VB2_SD_FLAG_DEV_MODE_ENABLED = true
       /\ vb2_secdata_firmware_get_flags (m_ctx m')
            VB2_SECDATA_FIRMWARE_FLAG_LAST_BOOT_DEVELOPER = true
       /\ vb2_secdata_firmware_get_flags (m_ctx m')
            VB2_SECDATA_FIRMWARE_FLAG_DEV_MODE = true.
Proof.
  intros Hlast Hsec Hreq Hdis Hclear.
  split; [reflexivity|]. split; [reflexivity|].
  assert (Hflags : dev_switch_flags (m_ctx m) VB2_SECDATA_FIRMWARE_FLAG_DEV_MODE
                   = true).
  { unfold dev_switch_flags. cbv zeta. rewrite Hreq, Hdis.
    unfold vb2_secdata_firmware_get_flags. rewrite Hsec. reflexivity. }
  assert (Hdev : dev_switch_is_dev (m_ctx m) = true)
    by (unfold dev_switch_is_dev; now rewrite Hflags).
  assert (Hold : vb2_secdata_firmware_get_flags (m_ctx m)
                   VB2_SECDATA_FIRMWARE_FLAG_LAST_BOOT_DEVELOPER = false).
  { unfold vb2_secdata_firmware_get_flags. rewrite Hsec. exact Hlast. }
  rewrite vb2_check_dev_switch_cases. cbv zeta.
  assert (Hne : secdata_firmware_flags_eqb (dev_switch_new_flags (m_ctx m))
                  (vb2_secdata_firmware_get_flags (m_ctx m)) = false).
  { destruct (secdata_firmware_flags_eqb _ _) eqn:E; [|reflexivity].
    apply secdata_firmware_flags_eqb_spec in E.
    rewrite dev_switch_new_flags_last, Hdev, Hold in E.
    destruct E as [E _]. discriminate E. }
  rewrite Hne, Hclear, andb_false_r.
  destruct (dev_switch_settled_developer (m_ctx m) Hdev) as [Hc Hs].
  eexists. split; [reflexivity|]. mred.
  split; [reflexivity|]. split; [exact Hc|]. split; [exact Hs|].
  split.
  - unfold vb2_secdata_firmware_get_flags. cbn.
    now rewrite dev_switch_new_flags_last.
  - unfold vb2_secdata_firmware_get_flags. cbn.
    now rewrite dev_switch_new_flags_dev.
Qed.

End DevSwitchFacts.

(** * Manual recovery *)

Section RecoveryFacts.
Context {K : vb2_constants} {W : Type} {E : vb2ex_ec W}.

Lemma vb2_check_recovery_manual (c : vb2_context) :
  sd_flags (sd (vb2_check_recovery c)) VB2_SD_FLAG_MANUAL_RECOVERY
  = ctx_flags c VB2_CONTEXT_FORCE_RECOVERY_MODE
    || sd_flags (sd c) VB2_SD_FLAG_MANUAL_RECOVERY.
Proof.
  unfold vb2_check_recovery. cbv zeta.
  destruct c as [fl nv sf sk s g wb].
  destruct s as [sfl sst wsz wus rr lfs lfr fs fv fvs vpo dko dks po ps vb].
  cbn -[Z.eqb].
  destruct (rr =? 0); cbn -[Z.eqb];
    destruct (fl VB2_CONTEXT_FORCE_RECOVERY_MODE); cbn -[Z.eqb];
    repeat match goal with
           | |- context [if ?b then _ else _] => destruct b; cbn -[Z.eqb]
           end; reflexivity.
Qed.

(** X11.  After [vb2_check_recovery], [vb2_allow_recovery] answers 1 when
    the GBB flag [FORCE_MANUAL_RECOVERY] is set, without asking the EC;
    otherwise it answers 1 exactly when the EC is trusted and manual
    recovery was asked for, by the force-recovery context flag or by the
    manual-recovery flag the shared data already had, and 0 in every other
    case.  A recovery reason in NV or in the shared data does not make
    recovery manual. *)
Theorem vb2_allow_recovery_after_check (c : vb2_context) (w : W) :
  let c' := vb2_check_recovery c in
  let manual :=
    ctx_flags c VB2_CONTEXT_FORCE_RECOVERY_MODE
    || sd_flags (sd c) VB2_SD_FLAG_MANUAL_RECOVERY in
  (gbb_flags (gbb c) VB2_GBB_FLAG_FORCE_MANUAL_RECOVERY = true ->
   vb2_allow_recovery c' w = (1, w))
  /\ (gbb_flags (gbb c) VB2_GBB_FLAG_FORCE_MANUAL_RECOVERY = false ->
      vb2_allow_recovery c' w
      = ((if negb (fst (vb2ex_ec_trusted w) =? 0) && manual then 1 else 0),
         snd (vb2ex_ec_trusted w))).
Proof.
  cbv zeta. unfold vb2_allow_recovery.
  assert (Hg : gbb (vb2_check_recovery c) = gbb c).
  { unfold vb2_check_recovery. cbv zeta.
    repeat match goal with
           | |- context [if ?b then _ else _] => destruct b
           end; reflexivity. }
  pose proof (vb2_check_recovery_manual c) as Hm.
  rewrite Hg, Hm. split; intros ->; [reflexivity|].
  destruct (vb2ex_ec_trusted w) as [t w']. cbn [fst snd].
  destruct (t =? 0); cbn [negb andb]; [reflexivity|].
  now destruct (ctx_flags c VB2_CONTEXT_FORCE_RECOVERY_MODE || _).
Qed.

End RecoveryFacts.

(** * The kernel stage: commit, normal boot, disks and battery *)

Section KernelFacts.
Context {K : vb2_constants} {W : Type} {H : vb2ex W} {E : vb2ex_ec W}.

Lemma failed_false (rv : vb2_error_t) : failed rv = false -> rv = VB2_SUCCESS.
Proof. now destruct rv. Qed.

(** X12.  In recovery mode [vb2_commit_data] never fails and never
    aborts: it calls the commit once and returns success whatever the
    commit answers, without a second commit and without a call of
    [vb2api_fail]; NV, the secure storage and the shared data stay as they
    are. *)
Theorem vb2_commit_data_in_recovery (m : @machine W) :
  ctx_flags (m_ctx m) VB2_CONTEXT_RECOVERY_MODE = true ->
  exists m',
    vb2_commit_data m = Returned VB2_SUCCESS m'
    /\ m_trace m' = m_trace m ++ [ExCommitData (m_ctx m)]
    /\ m_host m' = snd (vb2ex_commit_data (m_ctx m) (m_host m))
    /\ nvdata (m_ctx m') = nvdata (m_ctx m)
    /\ secdata_firmware (m_ctx m') = secdata_firmware (m_ctx m)
    /\ secdata_kernel (m_ctx m') = secdata_kernel (m_ctx m)
    /\ sd (m_ctx m') = sd (m_ctx m).
Proof.
  intros Hrec.
  unfold vb2_commit_data, run, bind, get_ctx, modify_ctx, return_, ret,
    commit_data, VB2_REC_OR_DIE.
  destruct (vb2ex_commit_data (m_ctx m) (m_host m)) as [rv w].
  destruct rv; cbn [failed]; mred; rewrite ?Hrec; cbn [negb]; mred;
    (eexists; split; [reflexivity|]); mred;
    (split; [reflexivity|]); (split; [reflexivity|]);
    (split; [reflexivity|]); (split; [reflexivity|]);
    split; reflexivity.
Qed.

(** X13.  Outside recovery mode a commit failure is fatal unless it is
    one of the two secure-storage write errors: for every other non-zero
    code the commit answers, [vb2_commit_data] aborts right after the one
    commit call and does not return; the context is as it was. *)
Theorem vb2_commit_data_fatal (m : @machine W) :
  ctx_flags (m_ctx m) VB2_CONTEXT_RECOVERY_MODE = false ->
  failed (fst (vb2ex_commit_data (m_ctx m) (m_host m))) = true ->
  fst (vb2ex_commit_data (m_ctx m) (m_host m)) <> VB2_ERROR_SECDATA_FIRMWARE_WRITE ->
  fst (vb2ex_commit_data (m_ctx m) (m_host m)) <> VB2_ERROR_SECDATA_KERNEL_WRITE ->
  exists m',
    vb2_commit_data m = Halted m'
    /\ m_trace m' = m_trace m ++ [ExCommitData (m_ctx m); ExAbort]
    /\ m_ctx m' = m_ctx m.
Proof.
  intros Hrec Hf H1 H2.
  unfold vb2_commit_data, run, bind, get_ctx, modify_ctx, return_, ret,
    commit_data, VB2_REC_OR_DIE.
  destruct (vb2ex_commit_data (m_ctx m) (m_host m)) as [rv w].
  cbn [fst] in Hf, H1, H2.
  destruct rv; try discriminate Hf; try contradiction;
    cbn [failed]; mred; rewrite Hrec; mred;
    (eexists; split; [reflexivity|]); mred;
    (split; [now rewrite <- app_assoc | reflexivity]).
Qed.

(** ** Normal boot *)

Lemma vb2_reset_nv_requests_facts (c : vb2_context) :
  let c' := snd (vb2_reset_nv_requests c) in
  fst (vb2_reset_nv_requests c)
  = negb (vb2_nv_get c VB2_NV_DISPLAY_REQUEST =? 0)
    || negb (vb2_nv_get c VB2_NV_DIAG_REQUEST =? 0)
  /\ vb2_nv_get c' VB2_NV_DISPLAY_REQUEST = 0
  /\ vb2_nv_get c' VB2_NV_DIAG_REQUEST = 0
  /\ (forall q, q <> VB2_NV_DISPLAY_REQUEST -> q <> VB2_NV_DIAG_REQUEST ->
                vb2_nv_get c' q = vb2_nv_get c q)
  /\ sd c' = sd c
  /\ secdata_kernel c' = secdata_kernel c.
Proof.
  cbv zeta. unfold vb2_reset_nv_requests.
  destruct (Z.eqb_spec (vb2_nv_get c VB2_NV_DISPLAY_REQUEST) 0) as [E1|E1];
    cbn [negb orb];
    rewrite ?nv_get_set; cbn [vb2_nv_param_beq];
    destruct (Z.eqb_spec (vb2_nv_get c VB2_NV_DIAG_REQUEST) 0) as [E2|E2];
    cbn [negb fst snd];
    rewrite ?sd_nv_set, ?secdata_kernel_nv_set, ?nv_get_set;
    cbn [vb2_nv_param_beq]; rewrite ?nv_get_set; cbn [vb2_nv_param_beq];
    (split; [reflexivity|]); (split; [auto|]); (split; [auto|]);
    (split; [|split; reflexivity]);
    intros q Hq1 Hq2; rewrite ?nv_get_set_other by congruence; reflexivity.
Qed.

(** X14.  With a display or a diagnostic request pending in NV,
    [VbBootNormal] clears both requests and returns
    [VBERROR_REBOOT_REQUIRED] before it looks for a disk: no call leaves
    the engine, no kernel is loaded, and the kernel version in secure
    storage and the shared data stay as they are.  The request that
    [vb2api_need_reboot_for_display] leaves when no display is available
    is such a request. *)
Theorem VbBootNormal_resets_requests (m : @machine W) :
  vb2_nv_get (m_ctx m) VB2_NV_DISPLAY_REQUEST <> 0
  \/ vb2_nv_get (m_ctx m) VB2_NV_DIAG_REQUEST <> 0 ->
  (exists m',
     VbBootNormal m = Returned VBERROR_REBOOT_REQUIRED m'
     /\ m_trace m' = m_trace m
     /\ m_host m' = m_host m
     /\ m_lkp m' = m_lkp m
     /\ vb2_nv_get (m_ctx m') VB2_NV_DISPLAY_REQUEST = 0
     /\ vb2_nv_get (m_ctx m') VB2_NV_DIAG_REQUEST = 0
     /\ secdata_kernel (m_ctx m') = secdata_kernel (m_ctx m)
     /\ sd (m_ctx m') = sd (m_ctx m))
  /\ (forall c,
        sd_flags (sd c) VB2_SD_FLAG_DISPLAY_AVAILABLE = false ->
        fst (vb2api_need_reboot_for_display c) = 1
        /\ vb2_nv_get (snd (vb2api_need_reboot_for_display c))
             VB2_NV_DISPLAY_REQUEST <> 0).
Proof.
  intros Hreq. split.
  - destruct (vb2_reset_nv_requests_facts (m_ctx m))
      as (Hfst & Hd & Hg & _ & Hsd & Hsk).
    assert (Hneed : fst (vb2_reset_nv_requests (m_ctx m)) = true).
    { rewrite Hfst.
      destruct (Z.eqb_spec (vb2_nv_get (m_ctx m) VB2_NV_DISPLAY_REQUEST) 0);
        destruct (Z.eqb_spec (vb2_nv_get (m_ctx m) VB2_NV_DIAG_REQUEST) 0);
        try reflexivity.
      destruct Hreq; contradiction. }
    unfold VbBootNormal, run, bind, get_ctx, modify_ctx, return_, ret.
    rewrite Hneed. mred.
    eexists. split; [reflexivity|]. mred.
    split; [reflexivity|]. split; [reflexivity|]. split; [reflexivity|].
    split; [exact Hd|]. split; [exact Hg|]. split; [exact Hsk | exact Hsd].
  - intros c Hdisp. unfold vb2api_need_reboot_for_display. rewrite Hdisp.
    cbn [negb fst snd]. split; [reflexivity|].
    rewrite nv_get_set_same. discriminate.
Qed.

End KernelFacts.

(** * The disks [VbTryLoadKernel] tries *)

Section DiskFacts.
Context {K : vb2_constants} {W : Type} {H : vb2ex W} {E : vb2ex_ec W}.





Lemma try_disks_all_skipped flags disk_info disks rv (m : @machine W) :
  forallb (skip_disk flags) disks = true ->
  try_disks flags disk_info disks rv m = Next rv m.
Proof.
  induction disks as [|d rest IH]; cbn [try_disks forallb]; [reflexivity|].
  intros Hall. apply andb_prop in Hall. destruct Hall as [-> Hrest].
  now apply IH.
Qed.

(** X16.  When [VbExDiskGetInfo] fails, or no disk it reports passes the
    guard, [VbTryLoadKernel] returns [VB2_ERROR_LK_NO_DISK_FOUND] without a
    call of [LoadKernel]: the disk list is asked for and freed, and
    [lkp.disk_handle] is [NULL].  For fixed disks the failure goes to
    [vb2api_fail] with reason [VB2_RECOVERY_RW_NO_DISK]; for any other
    kind of disk the context is left as it was. *)
Theorem VbTryLoadKernel_no_usable_disk (flags : Z) (m : @machine W) :
  failed (fst (fst (VbExDiskGetInfo flags (m_host m)))) = true
  \/ forallb (skip_disk flags) (snd (fst (VbExDiskGetInfo flags (m_host m))))
     = true ->
  exists m',
    VbTryLoadKernel flags m = Returned VB2_ERROR_LK_NO_DISK_FOUND m'
    /\ m_trace m' = m_trace m ++ [ExDiskGetInfo flags; ExDiskFreeInfo None]
    /\ disk_handle (m_lkp m') = None
    /\ m_ctx m'
       = (if Z.land flags VB_DISK_FLAG_FIXED =? 0 then m_ctx m
          else vb2api_fail (m_ctx m) VB2_RECOVERY_RW_NO_DISK
                 (vb2_return_code VB2_ERROR_LK_NO_DISK_FOUND)).
Proof.
  intros Hnone.
  unfold VbTryLoadKernel, run, bind, disk_get_info, disk_free_info, when,
    modify_ctx, ret.
  cbv beta iota. mred.
  destruct (VbExDiskGetInfo flags (m_host m)) as [[rv0 ds] w0].
  cbv beta iota. cbn [fst snd] in *.
  assert (Hskip : forallb (skip_disk flags) (if failed rv0 then [] else ds) = true).
  { destruct (failed rv0); [reflexivity|].
    destruct Hnone as [Hn|Hn]; [discriminate Hn | exact Hn]. }
  rewrite try_disks_all_skipped by exact Hskip.
  destruct (Z.land flags VB_DISK_FLAG_FIXED =? 0); cbn [negb]; mred;
    destruct (VbExDiskFreeInfo _ None w0) as [rvf wf]; mred;
    (eexists; split; [reflexivity|]); mred;
    (split; [now rewrite <- app_assoc|]); split; reflexivity.
Qed.


(** ** The battery cut-off *)

Lemma vb2_commit_data_success (m : @machine W) :
  fst (vb2ex_commit_data (m_ctx m) (m_host m)) = VB2_SUCCESS ->
  exists m',
    vb2_commit_data m = Returned VB2_SUCCESS m'
    /\ m_trace m' = m_trace m ++ [ExCommitData (m_ctx m)]
    /\ m_host m' = snd (vb2ex_commit_data (m_ctx m) (m_host m))
    /\ nvdata (m_ctx m') = nvdata (m_ctx m).
Proof.
  unfold vb2_commit_data, run, bind, get_ctx, ret, commit_data.
  destruct (vb2ex_commit_data (m_ctx m) (m_host m)) as [rv w].
  cbn [fst snd]. intros ->. cbn [failed]. mred.
  eexists. split; [reflexivity|]. mred. repeat split; reflexivity.
Qed.

Lemma vb2_commit_data_failure (m : @machine W) :
  ctx_flags (m_ctx m) VB2_CONTEXT_RECOVERY_MODE = false ->
  failed (fst (vb2ex_commit_data (m_ctx m) (m_host m))) = true ->
  match vb2_commit_data m with
  | Returned rv _ =>
      rv = VB2_ERROR_SECDATA_FIRMWARE_WRITE
      \/ rv = VB2_ERROR_SECDATA_KERNEL_WRITE
  | Halted _ => True
  end.
Proof.
  intros Hrec.
  unfold vb2_commit_data, run, bind, get_ctx, modify_ctx, return_, ret,
    commit_data, VB2_REC_OR_DIE.
  destruct (vb2ex_commit_data (m_ctx m) (m_host m)) as [rv w].
  cbn [fst]. intros Hf.
  destruct rv; try discriminate Hf; cbn [failed]; mred; rewrite Hrec;
    cbn [negb]; mred; try exact I;
    match goal with
    | |- context [vb2ex_commit_data ?c ?h] =>
        destruct (vb2ex_commit_data c h) as [rv2 w2]
    end; mred; auto.
Qed.

(** X18.  Outside recovery mode, with a battery cut-off request in NV,
    [handle_battery_cutoff] clears the request and commits before anything
    else: the commit is made on a context whose request field is 0.  When
    that commit succeeds the battery is cut off on the state the commit
    left and [VBERROR_SHUTDOWN_REQUESTED] is returned.  When it fails, the
    outcome is that of [vb2_commit_data], an error or an abort: the battery
    is not cut off and the function does not ask for a shutdown. *)
Theorem handle_battery_cutoff_commits_first (m : @machine W) :
  vb2_nv_get (m_ctx m) VB2_NV_BATTERY_CUTOFF_REQUEST <> 0 ->
  ctx_flags (m_ctx m) VB2_CONTEXT_RECOVERY_MODE = false ->
  let c1 := vb2_nv_set (m_ctx m) VB2_NV_BATTERY_CUTOFF_REQUEST 0 in
  let r := vb2ex_commit_data c1 (m_host m) in
  vb2_nv_get c1 VB2_NV_BATTERY_CUTOFF_REQUEST = 0
  /\ (fst r = VB2_SUCCESS ->
      exists m',
        handle_battery_cutoff m = Returned VBERROR_SHUTDOWN_REQUESTED m'
        /\ m_trace m' = m_trace m ++ [ExCommitData c1]
        /\ m_host m' = snd (vb2ex_ec_battery_cutoff (snd r))
        /\ vb2_nv_get (m_ctx m') VB2_NV_BATTERY_CUTOFF_REQUEST = 0)
  /\ (failed (fst r) = true ->
      handle_battery_cutoff m = vb2_commit_data (with_ctx c1 m)
      /\ forall m', handle_battery_cutoff m
                    <> Returned VBERROR_SHUTDOWN_REQUESTED m').
Proof.
  intros Hreq Hrec c1 r.
  assert (Hc1 : vb2_nv_get c1 VB2_NV_BATTERY_CUTOFF_REQUEST = 0)
    by apply nv_get_set_same.
  assert (Hrec1 : ctx_flags c1 VB2_CONTEXT_RECOVERY_MODE = false)
    by (unfold c1; now rewrite ctx_flags_nv_set by discriminate).
  split; [exact Hc1|].
  unfold handle_battery_cutoff, run, bind, get_ctx, modify_ctx, return_, ret,
    call, check, ec_battery_cutoff.
  destruct (Z.eqb_spec (vb2_nv_get (m_ctx m) VB2_NV_BATTERY_CUTOFF_REQUEST) 0)
    as [E0|_]; [contradiction|].
  cbn [negb]. fold c1. split.
  - intros Hok.
    destruct (vb2_commit_data_success (with_ctx c1 m) Hok)
      as (m2 & Hrun & Ht & Hh & Hnv).
    rewrite Hrun. cbn [failed]. mred.
    eexists. split; [reflexivity|]. mred.
    split; [exact Ht|]. split; [now rewrite Hh|].
    unfold vb2_nv_get. rewrite Hnv. exact Hc1.
  - intros Hfail.
    pose proof (vb2_commit_data_failure (with_ctx c1 m) Hrec1 Hfail) as Hout.
    destruct (vb2_commit_data (with_ctx c1 m)) as [rv m2|m2].
    + destruct Hout as [-> | ->]; cbn [failed]; (split; [reflexivity|]);
        intros m' Heq; discriminate Heq.
    + split; [reflexivity | discriminate].
Qed.

End DiskFacts.

(** * The chain of trust of the firmware vblock *)

Section VblockChain.
Context {K : vb2_constants} {W : Type} {H : vb2ex W} {P : vb2_primitives}
        {B : vb2_body_primitives}.


Lemma ensures_bind {A B' : Type} (x : @vb2 W A) (k : A -> @vb2 W B') m Q R :
  ensures x m (fun a m1 => ensures (k a) m1 Q R) R ->
  ensures (bind x k) m Q R.
Proof.
  unfold ensures, bind. destruct (x m) as [a m1|rv m1|m1]; auto.
Qed.

Lemma ensures_ret {A : Type} (a : A) m (Q : A -> @machine W -> Prop) R :
  Q a m -> ensures (ret a) m Q R.
Proof. auto. Qed.

Lemma ensures_get_ctx m (Q : vb2_context -> @machine W -> Prop) R :
  Q (m_ctx m) m -> ensures get_ctx m Q R.
Proof. auto. Qed.

Lemma ensures_modify f m (Q : unit -> @machine W -> Prop) R :
  Q tt (with_ctx (f (m_ctx m)) m) -> ensures (modify_ctx f) m Q R.
Proof. auto. Qed.

Lemma ensures_alloc r rv m (Q : Z * vb2_workbuf -> @machine W -> Prop) R :
  failed rv = true -> R rv m ->
  (forall p wb, r = (Some p, wb) -> Q (p, wb) m) ->
  ensures (alloc_or_return r rv) m Q R.
Proof.
  intros Hf Hr Hq. unfold ensures, alloc_or_return.
  destruct r as [[p|] wb]; cbn; auto.
Qed.

Lemma ensures_check rv m (Q : unit -> @machine W -> Prop) R :
  (failed rv = true -> R rv m) -> (rv = VB2_SUCCESS -> Q tt m) ->
  ensures (check rv) m Q R.
Proof.
  intros Hr Hq. unfold ensures, check.
  destruct (failed rv) eqn:Ef; cbn; auto using failed_false.
Qed.

Lemma ensures_read index offset size m (Q : list Z -> @machine W -> Prop) R :
  (let r := vb2ex_read_resource (m_ctx m) index offset size (m_host m) in
   let m1 := called (ExReadResource index offset size) (snd r) m in
   (failed (fst (fst r)) = true -> R (fst (fst r)) m1)
   /\ (fst (fst r) = VB2_SUCCESS -> Q (snd (fst r)) m1)) ->
  ensures (read_or_return index offset size) m Q R.
Proof.
  cbv zeta. unfold ensures, read_or_return, read_resource, bind, check, ret,
    return_.
  destruct (vb2ex_read_resource _ _ _ _ _) as [[rv bytes] w]. cbn [fst snd].
  intros [Hr Hq]. destruct (failed rv) eqn:Ef; auto using failed_false.
Qed.

Lemma ensures_fail rv reason m (Q : unit -> @machine W -> Prop) R :
  (failed rv = true ->
   R rv (with_ctx (vb2api_fail (m_ctx m) reason (vb2_return_code rv)) m)) ->
  (rv = VB2_SUCCESS -> Q tt m) ->
  ensures
    (if failed rv
     then bind (modify_ctx (fun c => vb2api_fail c reason (vb2_return_code rv)))
            (fun _ => return_ rv)
     else ret tt) m Q R.
Proof.
  intros Hr Hq. unfold ensures.
  destruct (failed rv) eqn:Ef; cbn; auto using failed_false.
Qed.

Lemma ensures_return {A : Type} rv m (Q : A -> @machine W -> Prop) R :
  failed rv = true -> R rv m -> ensures (return_ rv) m Q R.
Proof. intros Hf Hr. now split. Qed.

Lemma ensures_run (body : @vb2 W vb2_error_t) m Q R m' :
  ensures body m Q R ->
  run body m = Returned VB2_SUCCESS m' -> Q VB2_SUCCESS m'.
Proof.
  unfold ensures, run. destruct (body m) as [rv m1|rv m1|m1].
  - intros Hq Heq. now inversion Heq; subst.
  - intros [Hf _] Heq. inversion Heq; subst. discriminate Hf.
  - contradiction.
Qed.

Lemma vb2_workbuf_alloc_at wb size p wb' :
  vb2_workbuf_alloc wb size = (Some p, wb') -> p = wb_buf wb.
Proof.
  unfold vb2_workbuf_alloc. cbv zeta.
  destruct (wb_size wb <? vb2_wb_round_up size); [discriminate|].
  intros Heq. now inversion Heq.
Qed.

Lemma fw_keyblock_version_check_ok c kb :
  fw_keyblock_version_check c kb = VB2_SUCCESS ->
  key_version (data_key kb) <= VB2_MAX_KEY_VERSION
  /\ (gbb_flags (gbb c) VB2_GBB_FLAG_DISABLE_FW_ROLLBACK_CHECK = false ->
      Z.shiftr (fw_version_secdata (sd c)) 16 <= key_version (data_key kb)).
Proof.
  unfold fw_keyblock_version_check.
  destruct (Z.ltb_spec VB2_MAX_KEY_VERSION (key_version (data_key kb)))
    as [Hgt|Hle]; cbn [failed negb andb]; [discriminate|].
  destruct (Z.ltb_spec (key_version (data_key kb))
              (Z.shiftr (fw_version_secdata (sd c)) 16)) as [Hlt|Hge].
  - destruct (gbb_flags (gbb c) VB2_GBB_FLAG_DISABLE_FW_ROLLBACK_CHECK);
      [|discriminate].
    intros _. split; [exact Hle | discriminate].
  - intros _. split; [exact Hle | intros _; exact Hge].
Qed.

Ltac ensures_step :=
  cbv beta iota zeta;
  lazymatch goal with
  | |- ensures (bind _ _) _ _ _ => apply ensures_bind
  | |- ensures get_ctx _ _ _ => apply ensures_get_ctx
  | |- ensures (modify_ctx _) _ _ _ => apply ensures_modify
  | |- ensures (ret _) _ _ _ => apply ensures_ret
  | |- ensures (return_ _) _ _ _ =>
      apply ensures_return; [reflexivity | exact I]
  | |- ensures (check _) _ _ _ =>
      apply ensures_check; [intros _; exact I | intros ?]
  | |- ensures (if failed _ then _ else _) _ _ _ =>
      apply ensures_fail; [intros _; exact I | intros ?]
  | |- ensures (alloc_or_return _ _) _ _ _ =>
      apply ensures_alloc; [reflexivity | exact I | intros ? ? ?]
  | |- ensures (read_or_return _ _ _) _ _ _ =>
      apply ensures_read; cbv zeta; split; [intros _; exact I | intros ?]
  end.

Lemma load_fw_keyblock_verify_ensures (m : @machine W) :
  ensures load_fw_keyblock_verify m
    (fun v m' =>
       let '(key_data, kb, block_size) := v in
       let c := m_ctx m in
       let root_key :=
         snd (fst (vb2ex_read_resource c VB2_RES_GBB (rootkey_offset (gbb c))
                     (rootkey_size (gbb c)) (m_host m))) in
       m_ctx m' = c
       /\ key_data = workbuf_used (sd c)
       /\ vb2_unpack_key_buffer root_key (rootkey_size (gbb c)) = VB2_SUCCESS
       /\ exists wb, vb2_verify_keyblock kb block_size root_key wb = VB2_SUCCESS)
    (fun _ _ => True).
Proof.
  unfold load_fw_keyblock_verify.
  repeat ensures_step. mred.
  split; [reflexivity|]. split; [now apply vb2_workbuf_alloc_at in H0|].
  split; [assumption|]. eexists. eassumption.
Qed.

Lemma load_fw_keyblock_accept_ensures key_data kb block_size (m : @machine W) :
  ensures (load_fw_keyblock_accept key_data kb block_size) m
    (fun _ m' =>
       fw_keyblock_version_check (m_ctx m) kb = VB2_SUCCESS
       /\ vb2_verify_packed_key_inside kb block_size (data_key kb) = VB2_SUCCESS
       /\ m_ctx m' = keyblock_accepted (m_ctx m) key_data kb)
    (fun _ _ => True).
Proof.
  unfold load_fw_keyblock_accept.
  repeat ensures_step. mred. repeat split; assumption || reflexivity.
Qed.

Lemma vb2_load_fw_keyblock_success (m m' : @machine W) :
  vb2_load_fw_keyblock m = Returned VB2_SUCCESS m' -> keyblock_ok m m'.
Proof.
  intros Hrun. unfold vb2_load_fw_keyblock in Hrun.
  refine (ensures_run _ m (fun _ m' => keyblock_ok m m') (fun _ _ => True) m'
            _ Hrun).
  apply ensures_bind.
  pose proof (load_fw_keyblock_verify_ensures m) as Hv.
  unfold ensures in *.
  destruct (load_fw_keyblock_verify m) as [[[key_data kb] block_size] m1|rv m1|m1];
    [|exact Hv|exact Hv].
  destruct Hv as (Hctx & Hkd & Hunpack & wb & Hverify).
  pose proof (load_fw_keyblock_accept_ensures key_data kb block_size m1) as Ha.
  unfold ensures in Ha.
  destruct (load_fw_keyblock_accept key_data kb block_size m1)
    as [rv m2|rv m2|m2]; [|exact Ha|exact Ha].
  destruct Ha as (Hcheck & Hinside & Hfinal).
  rewrite Hctx in Hcheck, Hfinal. subst key_data.
  exists kb, block_size, wb. cbv zeta. auto.
Qed.

Lemma load_fw_preamble_verify_ensures (m : @machine W) :
  ensures load_fw_preamble_verify m
    (fun v m' =>
       let '(pre_off, pre, pre_size) := v in
       let c := m_ctx m in
       let key_data :=
         sub_bytes 0 (data_key_size (sd c)) (workbuf c (data_key_offset (sd c))) in
       m_ctx m' = c
       /\ data_key_size (sd c) <> 0
       /\ vb2_unpack_key_buffer key_data (data_key_size (sd c)) = VB2_SUCCESS
       /\ exists wb, vb2_verify_fw_preamble pre pre_size key_data wb = VB2_SUCCESS)
    (fun _ _ => True).
Proof.
  unfold load_fw_preamble_verify.
  do 3 ensures_step.
  destruct (Z.eqb_spec (data_key_size (sd (m_ctx m))) 0) as [E0|E0];
    repeat ensures_step.
  mred. split; [reflexivity|]. split; [exact E0|].
  split; [assumption|]. eexists. eassumption.
Qed.

Lemma load_fw_preamble_accept_ensures pre_off pre pre_size (m : @machine W) :
  ensures (load_fw_preamble_accept pre_off pre pre_size) m
    (fun _ m' =>
       firmware_version pre <= VB2_MAX_PREAMBLE_VERSION
       /\ (gbb_flags (gbb (m_ctx m)) VB2_GBB_FLAG_DISABLE_FW_ROLLBACK_CHECK = false ->
           fw_version_secdata (sd (m_ctx m))
           <= Z.lor (fw_version (sd (m_ctx m))) (firmware_version pre))
       /\ m_ctx m' = preamble_accepted (m_ctx m) pre_off pre pre_size)
    (fun _ _ => True).
Proof.
  unfold load_fw_preamble_accept.
  repeat ensures_step.
  match goal with
  | Hrv : _ = VB2_SUCCESS |- _ => rename Hrv into Hok
  end.
  mred. cbn [on_sd with_sd sd sd_with_fw_version sd_update fw_version
             fw_version_secdata gbb] in Hok.
  assert (Hver : firmware_version pre <= VB2_MAX_PREAMBLE_VERSION
                 /\ (gbb_flags (gbb (m_ctx m))
                       VB2_GBB_FLAG_DISABLE_FW_ROLLBACK_CHECK = false ->
                     fw_version_secdata (sd (m_ctx m))
                     <= Z.lor (fw_version (sd (m_ctx m))) (firmware_version pre))).
  { destruct (Z.ltb_spec VB2_MAX_PREAMBLE_VERSION (firmware_version pre))
      as [Hgt|Hle]; cbn [failed negb andb] in Hok; [discriminate Hok|].
    split; [exact Hle|].
    destruct (Z.ltb_spec (Z.lor (fw_version (sd (m_ctx m))) (firmware_version pre))
                (fw_version_secdata (sd (m_ctx m)))) as [Hlt|Hge];
      [|intros _; exact Hge].
    intros Hflag. rewrite Hflag in Hok. discriminate Hok. }
  destruct Hver as [Hv1 Hv2].
  unfold preamble_accepted. cbv zeta.
  destruct (fw_roll_forward _ _) eqn:Erf; repeat ensures_step; mred;
    (split; [exact Hv1|]); (split; [exact Hv2|]); reflexivity.
Qed.

Lemma vb2_load_fw_preamble_success (m m' : @machine W) :
  vb2_load_fw_preamble m = Returned VB2_SUCCESS m' -> preamble_ok m m'.
Proof.
  intros Hrun. unfold vb2_load_fw_preamble in Hrun.
  refine (ensures_run _ m (fun _ m' => preamble_ok m m') (fun _ _ => True) m'
            _ Hrun).
  apply ensures_bind.
  pose proof (load_fw_preamble_verify_ensures m) as Hv.
  unfold ensures in *.
  destruct (load_fw_preamble_verify m) as [[[pre_off pre] pre_size] m1|rv m1|m1];
    [|exact Hv|exact Hv].
  destruct Hv as (Hctx & Hkey & Hunpack & wb & Hverify).
  pose proof (load_fw_preamble_accept_ensures pre_off pre pre_size m1) as Ha.
  unfold ensures in Ha.
  destruct (load_fw_preamble_accept pre_off pre pre_size m1)
    as [rv m2|rv m2|m2]; [|exact Ha|exact Ha].
  destruct Ha as (Hver & Hroll & Hfinal).
  rewrite Hctx in Hroll, Hfinal.
  exists pre_off, pre, pre_size, wb. cbv zeta. auto 10.
Qed.

Lemma sub_bytes_again off size bytes :
  sub_bytes 0 size (sub_bytes off size bytes) = sub_bytes off size bytes.
Proof.
  unfold sub_bytes. cbn [Z.to_nat skipn].
  rewrite firstn_firstn, Nat.min_id. reflexivity.
Qed.

(** X19.  [vb2_load_fw_keyblock] succeeds only for a keyblock that
    verifies against the root key the GBB holds: if the call returns
    success, then the root key, read from the GBB resource at the offset
    and with the size the GBB header gives, unpacked; there is a keyblock
    that [vb2_verify_keyblock] accepted under that root key, whose data key
    lies inside it, has a version of at most 0xffff and, unless the GBB
    disables the check, of at least the key version in secure storage; and
    the call has recorded that data key: its bytes are in the work buffer
    at [sd->data_key_offset], which is where the work buffer ended on
    entry, [sd->fw_version] holds the key version in its upper half, and NV
    and the secure storage are as they were. *)
Theorem vb2_load_fw_keyblock_verified (m m' : @machine W) :
  vb2_load_fw_keyblock m = Returned VB2_SUCCESS m' ->
  let c := m_ctx m in
  let root_key :=
    snd (fst (vb2ex_read_resource c VB2_RES_GBB (rootkey_offset (gbb c))
                (rootkey_size (gbb c)) (m_host m))) in
  exists kb block_size wb,
    let size := u32 (key_offset (data_key kb) + key_size (data_key kb)) in
    vb2_unpack_key_buffer root_key (rootkey_size (gbb c)) = VB2_SUCCESS
    /\ vb2_verify_keyblock kb block_size root_key wb = VB2_SUCCESS
    /\ vb2_verify_packed_key_inside kb block_size (data_key kb) = VB2_SUCCESS
    /\ key_version (data_key kb) <= VB2_MAX_KEY_VERSION
    /\ (gbb_flags (gbb c) VB2_GBB_FLAG_DISABLE_FW_ROLLBACK_CHECK = false ->
        Z.shiftr (fw_version_secdata (sd c)) 16 <= key_version (data_key kb))
    /\ data_key_offset (sd (m_ctx m')) = workbuf_used (sd c)
    /\ data_key_size (sd (m_ctx m')) = size
    /\ workbuf (m_ctx m') (data_key_offset (sd (m_ctx m')))
       = sub_bytes offsetof_vb2_keyblock_data_key size kb
    /\ fw_version (sd (m_ctx m')) = u32 (Z.shiftl (key_version (data_key kb)) 16)
    /\ vblock_preamble_offset (sd (m_ctx m')) = keyblock_size kb
    /\ nvdata (m_ctx m') = nvdata c
    /\ secdata_firmware (m_ctx m') = secdata_firmware c.
Proof.
  intros Hrun c root_key.
  destruct (vb2_load_fw_keyblock_success m m' Hrun)
    as (kb & block_size & wb & Hunpack & Hverify & Hcheck & Hinside & Hctx).
  destruct (fw_keyblock_version_check_ok _ _ Hcheck) as [Hmax Hroll].
  exists kb, block_size, wb. cbv zeta. rewrite Hctx.
  split; [exact Hunpack|]. split; [exact Hverify|]. split; [exact Hinside|].
  split; [exact Hmax|]. split; [exact Hroll|].
  unfold keyblock_accepted. cbn.
  rewrite Z.eqb_refl. repeat split; reflexivity.
Qed.

(** X20.  The chain of trust of the firmware vblock.  If
    [vb2_load_fw_keyblock] succeeds and [vb2_load_fw_preamble] succeeds
    after it, then there are a keyblock and a preamble such that the
    keyblock verified against the root key read from the GBB, the preamble
    verified against the data key of that very keyblock (the bytes the
    first call stored), both versions are at most 0xffff,
    [sd->fw_version] is the key version shifted by 16 or-ed with the
    firmware version, and, unless the GBB disables the check, that version
    is not below the one secure storage held.  The preamble is in the work
    buffer at [sd->preamble_offset], and [vb2api_get_firmware_size] is the
    size of the body that this preamble signs. *)
Theorem fw_vblock_chain_of_trust (m m1 m2 : @machine W) :
  vb2_load_fw_keyblock m = Returned VB2_SUCCESS m1 ->
  vb2_load_fw_preamble m1 = Returned VB2_SUCCESS m2 ->
  let c := m_ctx m in
  let root_key :=
    snd (fst (vb2ex_read_resource c VB2_RES_GBB (rootkey_offset (gbb c))
                (rootkey_size (gbb c)) (m_host m))) in
  exists kb block_size wb1 pre pre_size wb2,
    let data_key_bytes :=
      sub_bytes offsetof_vb2_keyblock_data_key
        (u32 (key_offset (data_key kb) + key_size (data_key kb))) kb in
    vb2_verify_keyblock kb block_size root_key wb1 = VB2_SUCCESS
    /\ vb2_verify_fw_preamble pre pre_size data_key_bytes wb2 = VB2_SUCCESS
    /\ key_version (data_key kb) <= VB2_MAX_KEY_VERSION
    /\ firmware_version pre <= VB2_MAX_PREAMBLE_VERSION
    /\ fw_version (sd (m_ctx m2))
       = Z.lor (u32 (Z.shiftl (key_version (data_key kb)) 16))
           (firmware_version pre)
    /\ (gbb_flags (gbb c) VB2_GBB_FLAG_DISABLE_FW_ROLLBACK_CHECK = false ->
        fw_version_secdata (sd c) <= fw_version (sd (m_ctx m2)))
    /\ preamble_size (sd (m_ctx m2)) = pre_size
    /\ workbuf (m_ctx m2) (preamble_offset (sd (m_ctx m2))) = pre
    /\ vb2api_get_firmware_size (m_ctx m2)
       = (if pre_size =? 0 then 0 else fw_body_signature_data_size pre).
Proof.
  intros Hkb Hpre c root_key.
  destruct (vb2_load_fw_keyblock_success m m1 Hkb)
    as (kb & block_size & wb1 & Hunpack & Hverify & Hcheck & Hinside & Hctx1).
  destruct (fw_keyblock_version_check_ok _ _ Hcheck) as [Hmax _].
  destruct (vb2_load_fw_preamble_success m1 m2 Hpre)
    as (pre_off & pre & pre_size & wb2 & Hkey & Hunpack2 & Hverify2 & Hmax2
        & Hroll2 & Hctx2).
  fold c in Hctx1.
  assert (Hdk : sub_bytes 0 (data_key_size (sd (m_ctx m1)))
                  (workbuf (m_ctx m1) (data_key_offset (sd (m_ctx m1))))
                = sub_bytes offsetof_vb2_keyblock_data_key
                    (u32 (key_offset (data_key kb) + key_size (data_key kb))) kb).
  { rewrite Hctx1. unfold keyblock_accepted. cbn.
    rewrite Z.eqb_refl. apply sub_bytes_again. }
  rewrite Hdk in Hverify2.
  assert (Hfv : fw_version (sd (m_ctx m1))
                = u32 (Z.shiftl (key_version (data_key kb)) 16))
    by (rewrite Hctx1; reflexivity).
  assert (Hsec : fw_version_secdata (sd (m_ctx m1)) = fw_version_secdata (sd c))
    by (rewrite Hctx1; reflexivity).
  assert (Hgbb : gbb (m_ctx m1) = gbb c) by (rewrite Hctx1; reflexivity).
  rewrite Hgbb, Hsec, Hfv in Hroll2.
  assert (Hfinal : fw_version (sd (m_ctx m2))
                   = Z.lor (u32 (Z.shiftl (key_version (data_key kb)) 16))
                       (firmware_version pre)
                   /\ preamble_size (sd (m_ctx m2)) = pre_size
                   /\ preamble_offset (sd (m_ctx m2)) = pre_off
                   /\ workbuf (m_ctx m2) pre_off = pre).
  { rewrite Hctx2. unfold preamble_accepted. cbv zeta.
    destruct (fw_roll_forward _ _); cbn; rewrite Hfv, Z.eqb_refl;
      repeat split; reflexivity. }
  destruct Hfinal as (Hf1 & Hf2 & Hf3 & Hf4).
  exists kb, block_size, wb1, pre, pre_size, wb2. cbv zeta.
  split; [exact Hverify|]. split; [exact Hverify2|]. split; [exact Hmax|].
  split; [exact Hmax2|]. split; [exact Hf1|].
  split; [rewrite Hf1; exact Hroll2|]. split; [exact Hf2|].
  split; [now rewrite Hf3|].
  unfold vb2api_get_firmware_size. rewrite Hf2, Hf3, Hf4. reflexivity.
Qed.

Lemma load_fw_keyblock_accept_reads_only key_data kb block_size :
  forall m : @machine W,
    match load_fw_keyblock_accept key_data kb block_size m with
    | Next _ m' | Return _ m' =>
        secdata_firmware (m_ctx m') = secdata_firmware (m_ctx m)
    | Abort _ => False
    end.
Proof.
  intros m.
  unfold load_fw_keyblock_accept, bind, get_ctx, modify_ctx, return_, ret, check.
  destruct (failed (fw_keyblock_version_check (m_ctx m) kb)); mred.
  - apply secdata_firmware_vb2api_fail.
  - destruct (failed (vb2_verify_packed_key_inside kb block_size (data_key kb)));
      mred; reflexivity.
Qed.

(** X21.  The firmware version in secure storage never goes down in the
    vblock stage, whatever the vblock holds and whether or not the GBB
    disables the rollback check.  [vb2_load_fw_keyblock] always returns and
    never writes the firmware secure storage.  [vb2_load_fw_preamble]
    always returns, and when [sd->fw_version_secdata] is the version in
    secure storage on entry, the version in secure storage afterwards is at
    least what it was; after a success [sd->fw_version_secdata] is again
    the version in secure storage. *)
Theorem fw_version_never_rolls_back (m : @machine W) :
  (exists rv m',
     vb2_load_fw_keyblock m = Returned rv m'
     /\ secdata_firmware (m_ctx m') = secdata_firmware (m_ctx m))
  /\ (fw_version_secdata (sd (m_ctx m)) = fw_versions (secdata_firmware (m_ctx m)) ->
      exists rv m',
        vb2_load_fw_preamble m = Returned rv m'
        /\ fw_versions (secdata_firmware (m_ctx m))
           <= fw_versions (secdata_firmware (m_ctx m'))
        /\ (rv = VB2_SUCCESS ->
            fw_version_secdata (sd (m_ctx m'))
            = fw_versions (secdata_firmware (m_ctx m')))).
Proof.
  split.
  - pose proof (load_fw_keyblock_verify_reads_only m) as Hr.
    unfold vb2_load_fw_keyblock, run, bind.
    destruct (load_fw_keyblock_verify m)
      as [[[key_data kb] block_size] m1|rv m1|m1];
      [|exists rv, m1; destruct Hr as [_ Hr]; auto|contradiction].
    pose proof (load_fw_keyblock_accept_reads_only key_data kb block_size m1)
      as Ha.
    destruct (load_fw_keyblock_accept key_data kb block_size m1)
      as [rv m2|rv m2|m2]; [| |contradiction];
      exists rv, m2; (split; [reflexivity|]); now rewrite Ha, Hr.
  - intros Hcache.
    pose proof (load_fw_preamble_verify_reads_only m) as Hr.
    unfold vb2_load_fw_preamble, run, bind.
    destruct (load_fw_preamble_verify m)
      as [[[pre_off pre] pre_size] m1|rv m1|m1];
      [|exists rv, m1; destruct Hr as [Hf Hr]; rewrite Hr;
        split; [reflexivity|]; split; [lia|];
        intros ->; discriminate Hf
       |contradiction].
    unfold load_fw_preamble_accept, bind, get_ctx, modify_ctx, return_, ret.
    mred. rewrite Hr.
    set (c := m_ctx m) in *.
    set (v := Z.lor (fw_version (sd c)) (firmware_version pre)).
    cbn [on_sd with_sd sd sd_with_fw_version sd_update fw_version
         fw_version_secdata gbb last_fw_slot last_fw_result fw_slot].
    fold v.
    set (rv := if negb (failed _) && (v <? _) then _ else _).
    destruct (failed rv) eqn:Ef.
    + do 2 eexists. split; [reflexivity|]. mred.
      rewrite secdata_firmware_vb2api_fail.
      cbn [on_sd with_sd secdata_firmware].
      split; [lia|]. intros ->. discriminate Ef.
    + unfold fw_roll_forward.
      cbn [on_sd with_sd sd sd_with_fw_version sd_update fw_version
           fw_version_secdata gbb last_fw_slot last_fw_result fw_slot].
      fold v.
      destruct (Z.ltb_spec (fw_version_secdata (sd c)) v) as [H1|H1];
        destruct (last_fw_slot (sd c) =? fw_slot (sd c));
        destruct (last_fw_result (sd c) =? VB2_FW_RESULT_SUCCESS);
        cbn [andb]; mred;
        (do 2 eexists; split; [reflexivity|]); mred; cbn;
        (split; [lia|]); intros _; first [reflexivity | exact Hcache].
Qed.

End VblockChain.

(** * The kernel body *)

Section KernelData.
Context {K : vb2_constants} {P : vb2_primitives} {B : vb2_body_primitives}
        {St : Type} {SHA : vb2_sha St}.

Lemma u32_u32 z : u32 (u32 z) = u32 z.
Proof. unfold u32. apply Z.mod_mod. discriminate. Qed.

Lemma sub_bytes_write_digest d buffer n :
  Z.of_nat (length d) = n -> sub_bytes 0 n (write_digest d buffer) = d.
Proof.
  intros Hn. unfold sub_bytes. cbn [Z.to_nat skipn].
  replace (Z.to_nat n) with (length d) by lia. apply firstn_write_digest.
Qed.

(** The digest part of [vb2api_verify_kernel_data] (lines 182-197), for an
    algorithm with a digest. *)
Lemma digest_in_steps (dc : vb2_digest_context St) (digest buf : list Z)
    (size : Z) (alg : vb2_hash_algorithm) :
  vb2_digest_size alg <> 0 ->
  fst (vb2_digest_init dc alg) = VB2_SUCCESS
  /\ fst (vb2_digest_extend (snd (vb2_digest_init dc alg)) buf (u32 size))
     = VB2_SUCCESS
  /\ fst (fst (vb2_digest_finalize
                 (snd (vb2_digest_extend (snd (vb2_digest_init dc alg)) buf
                         (u32 size)))
                 digest (vb2_digest_size alg))) = VB2_SUCCESS
  /\ sub_bytes 0 (vb2_digest_size alg)
       (snd (vb2_digest_finalize
               (snd (vb2_digest_extend (snd (vb2_digest_init dc alg)) buf
                       (u32 size)))
               digest (vb2_digest_size alg)))
     = digest_of alg buf size.
Proof.
  intros Hn.
  pose proof (digest_of_length alg buf size) as Hlen.
  destruct alg; try (now contradiction Hn);
    unfold vb2_digest_init, vb2_digest_extend, vb2_digest_finalize;
    cbn [hash_alg dc_sha using_hwcrypto fst snd vb2_digest_size digest_of];
    rewrite u32_u32;
    cbn [digest_of vb2_digest_size] in Hlen.
  - change (u32 VB2_SHA1_DIGEST_SIZE <? VB2_SHA1_DIGEST_SIZE) with false.
    cbv iota.
    destruct (vb2_sha1_finalize _) as [s d] eqn:Ef. cbn [fst snd] in *.
    repeat split. now apply sub_bytes_write_digest.
  - change (u32 VB2_SHA256_DIGEST_SIZE <? VB2_SHA256_DIGEST_SIZE) with false.
    cbv iota.
    destruct (vb2_sha256_finalize _) as [s d] eqn:Ef. cbn [fst snd] in *.
    repeat split. now apply sub_bytes_write_digest.
  - change (u32 VB2_SHA512_DIGEST_SIZE <? VB2_SHA512_DIGEST_SIZE) with false.
    cbv iota.
    destruct (vb2_sha512_finalize _) as [s d] eqn:Ef. cbn [fst snd] in *.
    repeat split. now apply sub_bytes_write_digest.
Qed.

(** X22.  [vb2api_verify_kernel_data] accepts a kernel body only when
    every check has passed: a preamble and a data key are in the work
    buffer, the size given is the size the preamble signs (the one
    [vb2api_get_kernel_size] reports), the data key unpacks, its hash
    algorithm has a digest, and [vb2_verify_digest] accepted, under that
    key and against the body signature of the preamble, the digest of
    exactly the bytes given, computed with the hash algorithm of the key.
    What the work buffer held where the digest is computed has no part in
    it. *)
Theorem vb2api_verify_kernel_data_checks (dc : vb2_digest_context St)
    (digest : list Z) (c : vb2_context) (buf : list Z) (size : Z) :
  fst (vb2api_verify_kernel_data dc digest c buf size) = VB2_SUCCESS ->
  let pre := workbuf c (preamble_offset (sd c)) in
  let key :=
    sub_bytes 0 (data_key_size (sd c)) (workbuf c (data_key_offset (sd c))) in
  let alg := key_hash_alg key (data_key_size (sd c)) in
  preamble_size (sd c) <> 0
  /\ data_key_size (sd c) <> 0
  /\ u32 size = kernel_body_signature_data_size pre
  /\ vb2api_get_kernel_size c None (Some 0) = (VB2_SUCCESS, None, Some (u32 size))
  /\ vb2_unpack_key_buffer key (data_key_size (sd c)) = VB2_SUCCESS
  /\ vb2_digest_size alg <> 0
  /\ exists wb,
       fst (vb2_verify_digest key pre (digest_of alg buf size) wb) = VB2_SUCCESS.
Proof.
  intros Hok pre key alg.
  unfold vb2api_verify_kernel_data in Hok. cbv zeta in Hok.
  fold pre key in Hok. fold alg in Hok.
  destruct (Z.eqb_spec (preamble_size (sd c)) 0) as [Ep|Ep];
    [discriminate Hok|].
  destruct (Z.eqb_spec (u32 size) (kernel_body_signature_data_size pre))
    as [Es|Es]; [|discriminate Hok].
  cbn [negb] in Hok.
  destruct (vb2_workbuf_alloc (vb2_workbuf_from_ctx c) sizeof_vb2_digest_context)
    as [[p1|] wb1]; [|discriminate Hok].
  destruct (Z.eqb_spec (data_key_size (sd c)) 0) as [Ek|Ek];
    [discriminate Hok|].
  destruct (failed (vb2_unpack_key_buffer key (data_key_size (sd c)))) eqn:Eu;
    [cbn [fst] in Hok; rewrite Hok in Eu; discriminate Eu|].
  apply failed_false in Eu.
  assert (Hn : vb2_digest_size alg <> 0).
  { intros Hz. destruct alg; try discriminate Hz; cbn in Hok; discriminate Hok. }
  destruct (digest_in_steps dc digest buf size alg Hn) as (Hi & He & Hf & Hd).
  destruct (vb2_digest_init dc alg) as [rv1 dc1]. cbn [fst snd] in *.
  subst rv1. cbn [failed] in Hok.
  destruct (vb2_digest_extend dc1 buf (u32 size)) as [rv2 dc2].
  cbn [fst snd] in *. subst rv2. cbn [failed] in Hok.
  destruct (vb2_workbuf_alloc wb1 (vb2_digest_size alg)) as [[p2|] wb2];
    [|discriminate Hok].
  destruct (vb2_digest_finalize dc2 digest (vb2_digest_size alg))
    as [[rv3 dc3] digest3].
  cbn [fst snd] in *. subst rv3. cbn [failed] in Hok.
  rewrite Hd in Hok.
  destruct (vb2_verify_digest key pre (digest_of alg buf size)
              (wb_buf wb2, wb_size wb2)) as [rv4 pre4] eqn:Ev.
  cbn [fst] in Hok.
  split; [exact Ep|]. split; [exact Ek|]. split; [exact Es|].
  split.
  { unfold vb2api_get_kernel_size.
    destruct (Z.eqb_spec (preamble_size (sd c)) 0); [contradiction|].
    fold pre. now rewrite Es. }
  split; [exact Eu|]. split; [exact Hn|].
  exists (wb_buf wb2, wb_size wb2). now rewrite Ev.
Qed.

End KernelData.

(** * Asking the user to confirm *)

Section UiFacts.
Context {U : vb2_ui_constants}.

Lemma user_confirms_loop_yes confirm_flags polls :
  Z.land confirm_flags VB_CONFIRM_MUST_TRUST_KEYBOARD <> 0 ->
  forall was_pressed,
    user_confirms_loop confirm_flags polls was_pressed = Some 1 ->
    (exists p, In p polls /\ poll_key p = VB_KEY_ENTER
               /\ Z.land (poll_key_flags p) VB_KEY_FLAG_TRUSTED_KEYBOARD <> 0)
    \/ (PHYSICAL_PRESENCE_KEYBOARD = false
        /\ (was_pressed = true
            \/ exists p, In p polls /\ poll_presence_pressed p <> 0)).
Proof.
  intros Hmust.
  induction polls as [|p rest IH]; intros was_pressed; cbn [user_confirms_loop];
    [discriminate|].
  assert (Hrest : forall was,
             (if negb (poll_want_shutdown p =? 0) then Some (-1)
              else user_confirms_loop confirm_flags rest was) = Some 1 ->
             was = was_pressed
             \/ (PHYSICAL_PRESENCE_KEYBOARD = false /\ poll_presence_pressed p <> 0) ->
             (exists p0, In p0 (p :: rest) /\ poll_key p0 = VB_KEY_ENTER
                         /\ Z.land (poll_key_flags p0) VB_KEY_FLAG_TRUSTED_KEYBOARD <> 0)
             \/ (PHYSICAL_PRESENCE_KEYBOARD = false
                 /\ (was_pressed = true
                     \/ exists p0, In p0 (p :: rest) /\ poll_presence_pressed p0 <> 0))).
  { intros was Hgo Hwas.
    destruct (negb (poll_want_shutdown p =? 0)); [discriminate Hgo|].
    destruct (IH was Hgo) as [(p0 & Hin & Hk & Ht)|(Hphys & Hp)].
    - left. exists p0. split; [now right | now split].
    - right. split; [exact Hphys|].
      destruct Hp as [Hw|(p0 & Hin & Hp0)].
      + destruct Hwas as [->|[_ Hpress]]; [now left|].
        right. exists p. split; [now left | exact Hpress].
      + right. exists p0. split; [now right | exact Hp0]. }
  destruct (Z.eqb_spec (poll_key p) VB_KEY_ENTER) as [Hk|Hk].
  - destruct (Z.eqb_spec (Z.land confirm_flags VB_CONFIRM_MUST_TRUST_KEYBOARD) 0)
      as [E|_]; [contradiction|].
    cbn [orb].
    destruct (Z.eqb_spec (Z.land (poll_key_flags p) VB_KEY_FLAG_TRUSTED_KEYBOARD) 0)
      as [Et|Et]; cbn [negb].
    + intros Hgo. apply (Hrest was_pressed Hgo). now left.
    + intros _. left. exists p. split; [now left | now split].
  - destruct (poll_key p =? 32).
    { destruct (negb (Z.land confirm_flags VB_CONFIRM_SPACE_MEANS_NO =? 0));
        [discriminate|].
      intros Hgo. apply (Hrest was_pressed Hgo). now left. }
    destruct (poll_key p =? VB_KEY_ESC); [discriminate|].
    destruct PHYSICAL_PRESENCE_KEYBOARD eqn:Ephys; cbn [negb].
    { intros Hgo. apply (Hrest was_pressed Hgo). now left. }
    destruct (Z.eqb_spec (poll_presence_pressed p) 0) as [Eb|Eb]; cbn [negb].
    + destruct was_pressed.
      * intros _. right. split; [reflexivity | now left].
      * intros Hgo. apply (Hrest false Hgo). now left.
    + intros Hgo. apply (Hrest true Hgo). right. now split.
Qed.

(** X23.  When a trusted keyboard is required ([confirm_flags] has
    [VB_CONFIRM_MUST_TRUST_KEYBOARD]), [VbUserConfirms] answers yes only to
    a trusted source: if it returns 1, an ENTER key carrying the trusted
    keyboard flag was read, or the build uses a physical presence button
    and that button was pressed.  In a build that confirms by keyboard, no
    sequence of keys from an untrusted keyboard makes it return 1. *)
Theorem VbUserConfirms_needs_trusted_source (confirm_flags : Z)
    (polls : list ui_poll) :
  Z.land confirm_flags VB_CONFIRM_MUST_TRUST_KEYBOARD <> 0 ->
  VbUserConfirms confirm_flags polls = Some 1 ->
  (exists p, In p polls /\ poll_key p = VB_KEY_ENTER
             /\ Z.land (poll_key_flags p) VB_KEY_FLAG_TRUSTED_KEYBOARD <> 0)
  \/ (PHYSICAL_PRESENCE_KEYBOARD = false
      /\ exists p, In p polls /\ poll_presence_pressed p <> 0).
Proof.
  intros Hmust Hyes.
  destruct (user_confirms_loop_yes confirm_flags polls Hmust false Hyes)
    as [Hkey|(Hphys & [Hw|Hb])]; [now left|discriminate Hw|right; now split].
Qed.

(** X24.  [VbUserConfirms] gives up only when a shutdown is asked for:
    if it returns -1, some turn of the loop had [vb2_want_shutdown] answer
    non-zero. *)
Theorem VbUserConfirms_gives_up_on_shutdown (confirm_flags : Z)
    (polls : list ui_poll) :
  VbUserConfirms confirm_flags polls = Some (-1) ->
  exists p, In p polls /\ poll_want_shutdown p <> 0.
Proof.
  unfold VbUserConfirms. generalize false as was_pressed.
  induction polls as [|p rest IH]; intros was_pressed; cbn [user_confirms_loop];
    [discriminate|].
  assert (Hrest : forall was,
             (if negb (poll_want_shutdown p =? 0) then Some (-1)
              else user_confirms_loop confirm_flags rest was) = Some (-1) ->
             exists p0, In p0 (p :: rest) /\ poll_want_shutdown p0 <> 0).
  { intros was Hgo.
    destruct (Z.eqb_spec (poll_want_shutdown p) 0) as [E|E]; cbn [negb] in Hgo.
    - destruct (IH was Hgo) as (p0 & Hin & Hp0).
      exists p0. split; [now right | exact Hp0].
    - exists p. split; [now left | exact E]. }
  repeat match goal with
         | |- context [if ?b then _ else _] =>
             lazymatch b with
             | negb (poll_want_shutdown p =? 0) => fail
             | _ => destruct b
             end
         end; try discriminate; apply Hrest.
Qed.

End UiFacts.

(** * The further properties on the sample platform *)

Section MoreScenarios.
#[local] Existing Instance sample_constants.
#[local] Existing Instance sample_primitives.
#[local] Existing Instance sample_host.
#[local] Existing Instance sample_ec.
#[local] Existing Instance sample_body.
#[local] Existing Instance sample_sha.
#[local] Existing Instance sample_hash_numbering.
#[local] Existing Instance sample_ui.

(** An algorithm whose value does not fit in a byte: 0x102 is stored in
    [hash->algo] as 2, SHA256, and the call fails, there being no digest
    for 0x102. *)
Example vb2_hash_calculate_truncates :
  let r := vb2_hash_calculate sample_dc [1; 2; 3] 3 (VB2_HASH_OTHER 255)
             sample_hash in
  vb2_hash_algorithm_value (VB2_HASH_OTHER 255) = 0x102
  /\ fst r = VB2_ERROR_SHA_INIT_ALGORITHM
  /\ algo (snd r) = VB2_HASH_SHA256
  /\ raw (snd r) = raw sample_hash.
Proof. repeat split; vm_compute; reflexivity. Qed.

(** SHA256 of three bytes: the algorithm is stored as it is, and the hash
    verifies. *)
Example vb2_hash_calculate_sha256 :
  let r := vb2_hash_calculate sample_dc [1; 2; 3] 3 VB2_HASH_SHA256
             sample_hash in
  fst r = VB2_SUCCESS
  /\ algo (snd r) = VB2_HASH_SHA256
  /\ vb2_hash_verify sample_dc [] [1; 2; 3] 3 (snd r) = VB2_SUCCESS
  /\ vb2_hash_verify sample_dc [] [1; 2; 4] 3 (snd r) = VB2_ERROR_SHA_MISMATCH.
Proof. repeat split; vm_compute; reflexivity. Qed.

(** A kernel on a disk with a [NULL] handle: the call succeeds,
    [lkp.disk_handle] is [NULL], and [VbExDiskFreeInfo] is passed
    [NULL]. *)
Example VbTryLoadKernel_null_handle :
  let m' := machine_of (VbTryLoadKernel VB_DISK_FLAG_FIXED sample_null_handle) in
  VbTryLoadKernel VB_DISK_FLAG_FIXED sample_null_handle
  = Returned VB2_SUCCESS m'
  /\ disk_handle (m_lkp m') = None
  /\ last (m_trace m') ExAbort = ExDiskFreeInfo None.
Proof. repeat split; vm_compute; reflexivity. Qed.

(** Slot A fails, then slot B fails with reason 0x17: NV asks for
    recovery with that reason. *)
Lemma two_failed_boots_request_recovery_witness :
  fw_slot (sd (snd (vb2_select_fw_slot (sample_next_boot sample_first_failure))))
  = u32 (1 - fw_slot (sd (snd (vb2_select_fw_slot sample_ctx))))
  /\ vb2_nv_get sample_first_failure VB2_NV_RECOVERY_REQUEST = 0
  /\ vb2_nv_get
       (vb2api_fail
          (snd (vb2_select_fw_slot (sample_next_boot sample_first_failure)))
          0x17 6)
       VB2_NV_RECOVERY_REQUEST = 0x17.
Proof.
  assert (Hi1 : sd_status (sd sample_ctx) VB2_SD_STATUS_NV_INIT = true)
    by (vm_compute; reflexivity).
  assert (Hi2 : sd_status (sd (sample_next_boot sample_first_failure))
                  VB2_SD_STATUS_NV_INIT = true)
    by (vm_compute; reflexivity).
  assert (Hnext : is_u32 (vb2_nv_get sample_ctx VB2_NV_TRY_NEXT))
    by (unfold is_u32; vm_compute; split; [discriminate | reflexivity]).
  assert (Hne : VB2_FW_RESULT_FAILURE <> VB2_FW_RESULT_TRYING)
    by (vm_compute; discriminate).
  assert (Hnv : forall q,
             vb2_nv_get (sample_next_boot sample_first_failure) q
             = vb2_nv_get (vb2api_fail (snd (vb2_select_fw_slot sample_ctx)) 0x14 5) q)
    by (intros q; reflexivity).
  assert (H0 : vb2_nv_get sample_first_failure VB2_NV_RECOVERY_REQUEST = 0)
    by (vm_compute; reflexivity).
  destruct (two_failed_boots_request_recovery sample_ctx
              (sample_next_boot sample_first_failure) 0x14 5 0x17 6
              Hi1 Hi2 Hnext Hne Hnv) as (Hslot & _ & Hreq).
  split; [exact Hslot|]. split; [exact H0|].
  rewrite Hreq. vm_compute. reflexivity.
Defined.

(** With two tries left, the third boot in a row gives slot A up. *)
Lemma vb2_select_fw_slot_try_count_witness :
  fw_slot (sd (Nat.iter 3 (fun c => snd (vb2_select_fw_slot c)) sample_two_tries))
  = u32 (1 - vb2_nv_get sample_two_tries VB2_NV_TRY_NEXT)
  /\ fw_slot (sd (Nat.iter 2 (fun c => snd (vb2_select_fw_slot c)) sample_two_tries))
     = vb2_nv_get sample_two_tries VB2_NV_TRY_NEXT.
Proof.
  assert (Hcount : vb2_nv_get sample_two_tries VB2_NV_TRY_COUNT = Z.of_nat 2)
    by (vm_compute; reflexivity).
  assert (Hflag : ctx_flags sample_two_tries VB2_CONTEXT_NOFAIL_BOOT = false)
    by (vm_compute; reflexivity).
  destruct (vb2_select_fw_slot_try_count 2 sample_two_tries Hcount
              (Nat.lt_0_succ 1) Hflag) as (Htry & Hlast & _).
  split; [exact Hlast|].
  exact (proj1 (Htry 1%nat (Nat.lt_succ_diag_r 1))).
Defined.

(** Normal mode after normal mode: nothing is asked of the TPM. *)
Lemma vb2_check_dev_switch_same_mode_witness :
  exists m',
    vb2_check_dev_switch (sample_boot 2 2) = Returned VB2_SUCCESS m'
    /\ m_trace m' = [].
Proof.
  assert (Hlast : dev_switch_is_dev (m_ctx (sample_boot 2 2))
                  = vb2_secdata_firmware_get_flags (m_ctx (sample_boot 2 2))
                      VB2_SECDATA_FIRMWARE_FLAG_LAST_BOOT_DEVELOPER)
    by (vm_compute; reflexivity).
  assert (Hdev : dev_switch_flags (m_ctx (sample_boot 2 2))
                   VB2_SECDATA_FIRMWARE_FLAG_DEV_MODE
                 = vb2_secdata_firmware_get_flags (m_ctx (sample_boot 2 2))
                     VB2_SECDATA_FIRMWARE_FLAG_DEV_MODE)
    by (vm_compute; reflexivity).
  destruct (vb2_check_dev_switch_same_mode (sample_boot 2 2) Hlast Hdev)
    as (m' & Hret & Htrace & _).
  exists m'. split; [exact Hret | exact Htrace].
Defined.

(** Developer mode after normal mode: the TPM owner is cleared, once. *)
Lemma vb2_check_dev_switch_mode_change_witness :
  exists rv' m',
    vb2_check_dev_switch sample_dev_enabled = Returned rv' m'
    /\ length (m_trace m') = 1%nat.
Proof.
  assert (Hchange : dev_switch_is_dev (m_ctx sample_dev_enabled)
                    <> vb2_secdata_firmware_get_flags (m_ctx sample_dev_enabled)
                         VB2_SECDATA_FIRMWARE_FLAG_LAST_BOOT_DEVELOPER)
    by (vm_compute; discriminate).
  destruct (vb2_check_dev_switch_mode_change sample_dev_enabled
              (or_introl Hchange)) as (rv' & m' & Hret & Htrace & _).
  exists rv', m'. split; [exact Hret|]. rewrite Htrace. reflexivity.
Defined.

Lemma vb2_enable_developer_mode_next_boot_witness :
  exists m',
    vb2_check_dev_switch sample_dev_enabled = Returned VB2_SUCCESS m'
    /\ ctx_flags (m_ctx m') VB2_CONTEXT_DEVELOPER_MODE = true
    /\ vb2_secdata_firmware_get_flags (m_ctx m')
         VB2_SECDATA_FIRMWARE_FLAG_LAST_BOOT_DEVELOPER = true.
Proof.
  assert (Hlast : vb2_secdata_firmware_get_flags sample_ctx
                    VB2_SECDATA_FIRMWARE_FLAG_LAST_BOOT_DEVELOPER = false)
    by (vm_compute; reflexivity).
  assert (Hsec : secdata_firmware (m_ctx sample_dev_enabled)
                 = secdata_firmware (snd (vb2_enable_developer_mode sample_ctx)))
    by reflexivity.
  assert (Hreq : dev_disable_requested (m_ctx sample_dev_enabled) = false)
    by (vm_compute; reflexivity).
  assert (Hdis : ctx_flags (m_ctx sample_dev_enabled)
                   VB2_CONTEXT_DISABLE_DEVELOPER_MODE = false)
    by (vm_compute; reflexivity).
  assert (Hclear : failed (fst (vb2ex_tpm_clear_owner
                                  (dev_switch_settled (m_ctx sample_dev_enabled))
                                  (m_host sample_dev_enabled))) = false)
    by (vm_compute; reflexivity).
  destruct (vb2_enable_developer_mode_next_boot sample_ctx sample_dev_enabled
              Hlast Hsec Hreq Hdis Hclear)
    as (_ & _ & m' & Hret & _ & Hmode & _ & Hflag & _).
  exists m'. split; [exact Hret|]. split; [exact Hmode | exact Hflag].
Defined.

(** In recovery mode an NV write failure is swallowed. *)
Lemma vb2_commit_data_in_recovery_witness :
  exists m',
    vb2_commit_data sample_recovery_commit_fails = Returned VB2_SUCCESS m'
    /\ length (m_trace m') = 1%nat.
Proof.
  assert (Hrec : ctx_flags (m_ctx sample_recovery_commit_fails)
                   VB2_CONTEXT_RECOVERY_MODE = true)
    by (vm_compute; reflexivity).
  destruct (vb2_commit_data_in_recovery sample_recovery_commit_fails Hrec)
    as (m' & Hret & Htrace & _).
  exists m'. split; [exact Hret|]. rewrite Htrace. reflexivity.
Defined.

(** A commit error the engine has no name for: it aborts. *)
Lemma vb2_commit_data_fatal_witness :
  exists m',
    vb2_commit_data (sample_commit_fails (VB2_ERROR_EX 9)) = Halted m'
    /\ m_ctx m' = sample_ctx.
Proof.
  assert (Hrec : ctx_flags (m_ctx (sample_commit_fails (VB2_ERROR_EX 9)))
                   VB2_CONTEXT_RECOVERY_MODE = false)
    by (vm_compute; reflexivity).
  assert (Hf : failed (fst (vb2ex_commit_data
                              (m_ctx (sample_commit_fails (VB2_ERROR_EX 9)))
                              (m_host (sample_commit_fails (VB2_ERROR_EX 9)))))
               = true)
    by (vm_compute; reflexivity).
  assert (H1 : fst (vb2ex_commit_data
                      (m_ctx (sample_commit_fails (VB2_ERROR_EX 9)))
                      (m_host (sample_commit_fails (VB2_ERROR_EX 9))))
               <> VB2_ERROR_SECDATA_FIRMWARE_WRITE)
    by (vm_compute; discriminate).
  assert (H2 : fst (vb2ex_commit_data
                      (m_ctx (sample_commit_fails (VB2_ERROR_EX 9)))
                      (m_host (sample_commit_fails (VB2_ERROR_EX 9))))
               <> VB2_ERROR_SECDATA_KERNEL_WRITE)
    by (vm_compute; discriminate).
  destruct (vb2_commit_data_fatal (sample_commit_fails (VB2_ERROR_EX 9))
              Hrec Hf H1 H2) as (m' & Hret & _ & Hctx).
  exists m'. split; [exact Hret | exact Hctx].
Defined.

(** The display request makes the next normal boot reboot, and is gone
    afterwards. *)
Lemma VbBootNormal_resets_requests_witness :
  exists m',
    VbBootNormal sample_display_request = Returned VBERROR_REBOOT_REQUIRED m'
    /\ m_trace m' = []
    /\ vb2_nv_get (m_ctx m') VB2_NV_DISPLAY_REQUEST = 0.
Proof.
  assert (Hreq : vb2_nv_get (m_ctx sample_display_request) VB2_NV_DISPLAY_REQUEST
                 <> 0)
    by (vm_compute; discriminate).
  destruct (VbBootNormal_resets_requests sample_display_request
              (or_introl Hreq)) as [(m' & Hret & Htrace & _ & _ & Hd & _) _].
  exists m'. split; [exact Hret|]. split; [exact Htrace | exact Hd].
Defined.

(** The only disk has blocks of 100 bytes: no kernel is looked for, and NV
    asks for recovery with the no-disk reason. *)
Lemma VbTryLoadKernel_no_usable_disk_witness :
  exists m',
    VbTryLoadKernel VB_DISK_FLAG_FIXED sample_no_usable_disk
    = Returned VB2_ERROR_LK_NO_DISK_FOUND m'
    /\ length (m_trace m') = 2%nat
    /\ vb2_nv_get (m_ctx m') VB2_NV_RECOVERY_REQUEST = 0x48.
Proof.
  assert (Hskip : forallb (skip_disk VB_DISK_FLAG_FIXED)
                    (snd (fst (VbExDiskGetInfo VB_DISK_FLAG_FIXED
                                 (m_host sample_no_usable_disk)))) = true)
    by (vm_compute; reflexivity).
  destruct (VbTryLoadKernel_no_usable_disk VB_DISK_FLAG_FIXED
              sample_no_usable_disk (or_intror Hskip))
    as (m' & Hret & Htrace & _ & Hctx).
  exists m'. split; [exact Hret|]. split; [rewrite Htrace; reflexivity|].
  rewrite Hctx. vm_compute. reflexivity.
Defined.

(** The cut-off request is committed as cleared, and then the battery is
    cut off. *)
Lemma handle_battery_cutoff_commits_first_witness :
  exists m',
    handle_battery_cutoff sample_cutoff_request
    = Returned VBERROR_SHUTDOWN_REQUESTED m'
    /\ vb2_nv_get (m_ctx m') VB2_NV_BATTERY_CUTOFF_REQUEST = 0
    /\ disks (m_host m') = [].
Proof.
  assert (Hreq : vb2_nv_get (m_ctx sample_cutoff_request)
                   VB2_NV_BATTERY_CUTOFF_REQUEST <> 0)
    by (vm_compute; discriminate).
  assert (Hrec : ctx_flags (m_ctx sample_cutoff_request)
                   VB2_CONTEXT_RECOVERY_MODE = false)
    by (vm_compute; reflexivity).
  destruct (handle_battery_cutoff_commits_first sample_cutoff_request Hreq Hrec)
    as (_ & Hok & _).
  assert (Hcommit : fst (vb2ex_commit_data
                           (vb2_nv_set (m_ctx sample_cutoff_request)
                              VB2_NV_BATTERY_CUTOFF_REQUEST 0)
                           (m_host sample_cutoff_request)) = VB2_SUCCESS)
    by (vm_compute; reflexivity).
  destruct (Hok Hcommit) as (m' & Hret & _ & Hhost & Hnv).
  exists m'. split; [exact Hret|]. split; [exact Hnv|].
  rewrite Hhost. reflexivity.
Defined.

(** The sample keyblock is accepted, and its data key recorded. *)
Lemma vb2_load_fw_keyblock_verified_witness :
  exists kb,
    key_version (data_key kb) <= VB2_MAX_KEY_VERSION
    /\ fw_version (sd (m_ctx (sample_after_keyblock 2 2)))
       = u32 (Z.shiftl (key_version (data_key kb)) 16)
    /\ data_key_offset (sd (m_ctx (sample_after_keyblock 2 2))) = 64.
Proof.
  assert (Hrun : vb2_load_fw_keyblock (sample_boot 2 2)
                 = Returned VB2_SUCCESS (sample_after_keyblock 2 2))
    by (vm_compute; reflexivity).
  destruct (vb2_load_fw_keyblock_verified (sample_boot 2 2)
              (sample_after_keyblock 2 2) Hrun)
    as (kb & block_size & wb & _ & _ & _ & Hmax & _ & Hoff & _ & _ & Hfv & _).
  exists kb. split; [exact Hmax|]. split; [exact Hfv|].
  rewrite Hoff. reflexivity.
Defined.

(** The sample vblock, keyblock and preamble, is accepted as a chain. *)
Lemma fw_vblock_chain_of_trust_witness :
  exists kb pre,
    fw_version (sd (m_ctx (machine_of (vb2_load_fw_preamble
                                         (sample_after_keyblock 2 2)))))
    = Z.lor (u32 (Z.shiftl (key_version (data_key kb)) 16)) (firmware_version pre)
    /\ firmware_version pre <= VB2_MAX_PREAMBLE_VERSION.
Proof.
  assert (Hkb : vb2_load_fw_keyblock (sample_boot 2 2)
                = Returned VB2_SUCCESS (sample_after_keyblock 2 2))
    by (vm_compute; reflexivity).
  assert (Hpre : vb2_load_fw_preamble (sample_after_keyblock 2 2)
                 = Returned VB2_SUCCESS
                     (machine_of (vb2_load_fw_preamble (sample_after_keyblock 2 2))))
    by (vm_compute; reflexivity).
  destruct (fw_vblock_chain_of_trust (sample_boot 2 2)
              (sample_after_keyblock 2 2)
              (machine_of (vb2_load_fw_preamble (sample_after_keyblock 2 2)))
              Hkb Hpre)
    as (kb & block_size & wb1 & pre & pre_size & wb2 & _ & _ & _ & Hmax & Hfv & _).
  exists kb, pre. split; [exact Hfv | exact Hmax].
Defined.

(** The sample kernel body verifies against the sample preamble. *)
Lemma vb2api_verify_kernel_data_checks_witness :
  u32 3 = kernel_body_signature_data_size
            (workbuf sample_kernel_ctx (preamble_offset (sd sample_kernel_ctx)))
  /\ vb2api_get_kernel_size sample_kernel_ctx None (Some 0)
     = (VB2_SUCCESS, None, Some (u32 3)).
Proof.
  assert (Hok : fst (vb2api_verify_kernel_data sample_dc [] sample_kernel_ctx
                       sample_kernel_body 3) = VB2_SUCCESS)
    by (vm_compute; reflexivity).
  destruct (vb2api_verify_kernel_data_checks sample_dc [] sample_kernel_ctx
              sample_kernel_body 3 Hok) as (_ & _ & Hsize & Hget & _).
  split; [exact Hsize | exact Hget].
Defined.

(** Of the two ENTER keys, the trusted one is the one that confirms. *)
Lemma VbUserConfirms_needs_trusted_source_witness :
  exists p,
    In p sample_polls /\ poll_key p = VB_KEY_ENTER
    /\ Z.land (poll_key_flags p) VB_KEY_FLAG_TRUSTED_KEYBOARD <> 0.
Proof.
  assert (Hmust : Z.land 1 VB_CONFIRM_MUST_TRUST_KEYBOARD <> 0)
    by (vm_compute; discriminate).
  assert (Hyes : VbUserConfirms 1 sample_polls = Some 1)
    by (vm_compute; reflexivity).
  destruct (VbUserConfirms_needs_trusted_source 1 sample_polls Hmust Hyes)
    as [Hkey|[Hphys _]]; [exact Hkey | discriminate Hphys].
Defined.

Lemma VbUserConfirms_gives_up_on_shutdown_witness :
  exists p, In p sample_shutdown_polls /\ poll_want_shutdown p <> 0.
Proof.
  assert (Hno : VbUserConfirms 0 sample_shutdown_polls = Some (-1))
    by (vm_compute; reflexivity).
  exact (VbUserConfirms_gives_up_on_shutdown 0 sample_shutdown_polls Hno).
Defined.

End MoreScenarios.
